(** * CodeRed: room / round / vote state machine of the game server

    A shallow embedding of [server/gameState.js] (room store, role
    assignment, bug injection, buzz votes, win evaluation) and of the
    timer and vote orchestration of [server/socketHandlers.js].

    Conventions of the embedding.
    - A JavaScript [Map] is an insertion-ordered association list with
      unique keys (module [JsMap]); a [Set] is an insertion-ordered list
      without duplicates (module [JsSet]).
    - Objects are records; a mutation of the shared room object is a new
      record written back to the store under the same key.
    - [null] / [undefined] are [None]; truthiness tests of the source are
      written out where they occur.
    - [Date.now()], [Math.random()], [shuffleArray] and the JavaScript
      parser behind [new Function] are inputs of the functions that
      consult them.
    - A string is the sequence of its UTF-16 code units, taken below 256
      (one [ascii] each); the samples, messages and regular expressions
      of the source only hold such code units.  [\s] and [trim] take the
      white space of JavaScript among them, no-break space included
      ([Str.isSpace]). *)

From Stdlib Require Import ZArith List String Ascii Bool Arith Lia PeanoNat.
From Stdlib Require Import Permutation.
Import ListNotations.

Local Open Scope string_scope.
Local Open Scope list_scope.
Local Open Scope nat_scope.

(* ------------------------------------------------------------------ *)
(** ** JavaScript [Map] with string keys *)

Module JsMap.

Definition t (V : Type) : Type := list (string * V).

Definition empty {V} : t V := [].

Fixpoint get {V} (k : string) (m : t V) : option V :=
  match m with
  | [] => None
  | (k', v) :: m' => if String.eqb k k' then Some v else get k m'
  end.

Definition has {V} (k : string) (m : t V) : bool :=
  match get k m with Some _ => true | None => false end.

(** [set] keeps the position of an existing key and appends a new one. *)
Fixpoint set {V} (k : string) (v : V) (m : t V) : t V :=
  match m with
  | [] => [(k, v)]
  | (k', v') :: m' =>
      if String.eqb k k' then (k, v) :: m' else (k', v') :: set k v m'
  end.

Fixpoint delete {V} (k : string) (m : t V) : t V :=
  match m with
  | [] => []
  | (k', v') :: m' =>
      if String.eqb k k' then m' else (k', v') :: delete k m'
  end.

Definition size {V} (m : t V) : nat := List.length m.
Definition keys {V} (m : t V) : list string := map fst m.
Definition values {V} (m : t V) : list V := map snd m.

(** [m.forEach(v => v.field = ...)]: every value is updated in place. *)
Definition mapValues {V W} (f : V -> W) (m : t V) : t W :=
  map (fun kv => (fst kv, f (snd kv))) m.

Definition filter {V} (f : string -> V -> bool) (m : t V) : t V :=
  List.filter (fun kv => f (fst kv) (snd kv)) m.

End JsMap.

(** ** JavaScript [Set] of strings *)

Module JsSet.

Definition t : Type := list string.

Definition empty : t := [].

Definition has (k : string) (s : t) : bool :=
  existsb (String.eqb k) s.

Definition add (k : string) (s : t) : t :=
  if has k s then s else s ++ [k].

Definition size (s : t) : nat := List.length s.

End JsSet.

(** The optional key of [players.has(room.bugger)]: a [null] key is never
    present, the keys of [players] being strings. *)
Definition hasOpt {V} (k : option string) (m : JsMap.t V) : bool :=
  match k with Some k => JsMap.has k m | None => false end.

Definition getOpt {V} (k : option string) (m : JsMap.t V) : option V :=
  match k with Some k => JsMap.get k m | None => None end.

Definition optStringEqb (a b : option string) : bool :=
  match a, b with
  | Some x, Some y => String.eqb x y
  | None, None => true
  | _, _ => false
  end.

(* ------------------------------------------------------------------ *)
(** ** Strings and the regular expressions of the source *)

Module Str.

Definition chars (s : string) : list ascii := list_ascii_of_string s.
Definition ofChars (l : list ascii) : string := string_of_list_ascii l.

Fixpoint startsWith (p s : list ascii) : bool :=
  match p, s with
  | [], _ => true
  | _ :: _, [] => false
  | a :: p', b :: s' => Ascii.eqb a b && startsWith p' s'
  end.

Fixpoint includesChars (needle hay : list ascii) : bool :=
  startsWith needle hay ||
  match hay with
  | [] => false
  | _ :: hay' => includesChars needle hay'
  end.

(** [hay.includes(needle)] *)
Definition includes (needle hay : string) : bool :=
  includesChars (chars needle) (chars hay).

(** [parts.join(sep)] *)
Fixpoint join (sep : string) (parts : list string) : string :=
  match parts with
  | [] => ""
  | [p] => p
  | p :: rest => (p ++ sep ++ join sep rest)%string
  end.

(** The white space of [String.prototype.trim] and of [\s]: a string is
    the sequence of its UTF-16 code units, here the code units below 256,
    one [ascii] each.  Of the white space and line terminators of
    JavaScript these are tab, line feed, vertical tab, form feed, carriage
    return (9 to 13), space (32) and no-break space (160); the others
    (U+1680, U+2000 to U+200A, U+2028, U+2029, U+202F, U+205F, U+3000,
    U+FEFF) are not code units below 256. *)
Definition isSpace (c : ascii) : bool :=
  let n := nat_of_ascii c in
  (Nat.eqb n 32 || (Nat.leb 9 n && Nat.leb n 13) || Nat.eqb n 160)%bool.

Fixpoint dropWhile (f : ascii -> bool) (s : list ascii) : list ascii :=
  match s with
  | [] => []
  | c :: s' => if f c then dropWhile f s' else s
  end.

(** [s.trim()] *)
Definition trim (s : string) : string :=
  ofChars (rev (dropWhile isSpace (rev (dropWhile isSpace (chars s))))).

End Str.

Module Regex.

(** One-character classes: a literal, [[^c]] and [\s]. *)
Inductive Class : Type :=
| Chr (c : ascii)
| Not (c : ascii)
| Space.

(** A pattern is a sequence of single characters and greedy stars. *)
Inductive Item : Type :=
| One (c : Class)
| Many (c : Class).

Definition Pattern : Type := list Item.

Definition accepts (c : Class) (x : ascii) : bool :=
  match c with
  | Chr a => Ascii.eqb a x
  | Not a => negb (Ascii.eqb a x)
  | Space => Str.isSpace x
  end.

Definition lit (s : string) : Pattern :=
  map (fun c => One (Chr c)) (Str.chars s).

(** Backtracking match anchored at the head of the input: the result is
    the matched text and the rest.  A star first tries to take one more
    character and falls back to the continuation, as the engine of the
    source does. *)
Fixpoint matchHere (p : Pattern) : list ascii -> option (list ascii * list ascii) :=
  match p with
  | [] => fun s => Some ([], s)
  | One c :: p' => fun s =>
      match s with
      | x :: s' =>
          if accepts c x then
            match matchHere p' s' with
            | Some (m, rest) => Some (x :: m, rest)
            | None => None
            end
          else None
      | [] => None
      end
  | Many c :: p' =>
      fix star (s : list ascii) : option (list ascii * list ascii) :=
        match s with
        | x :: s' =>
            if accepts c x then
              match star s' with
              | Some (m, rest) => Some (x :: m, rest)
              | None => matchHere p' s
              end
            else matchHere p' s
        | [] => matchHere p' []
        end
  end.

(** Leftmost match: text before, matched text, text after. *)
Fixpoint search (p : Pattern) (s : list ascii)
  : option (list ascii * list ascii * list ascii) :=
  match matchHere p s with
  | Some (m, rest) => Some ([], m, rest)
  | None =>
      match s with
      | [] => None
      | x :: s' =>
          match search p s' with
          | Some (pre, m, rest) => Some (x :: pre, m, rest)
          | None => None
          end
      end
  end.

(** [s.match(re)] without the [g] flag: entry 0 of the result. *)
Definition match0 (p : Pattern) (s : string) : option string :=
  match search p (Str.chars s) with
  | Some (_, m, _) => Some (Str.ofChars m)
  | None => None
  end.

(** [s.replace(re, by)] without the [g] flag, for a replacement text
    without [$]. *)
Definition replace (p : Pattern) (by_ : string) (s : string) : string :=
  match search p (Str.chars s) with
  | Some (pre, _, rest) => Str.ofChars (pre ++ Str.chars by_ ++ rest)
  | None => s
  end.

End Regex.

(* ------------------------------------------------------------------ *)
(** ** Data model *)

Inductive Role : Type := Bugger | Debugger.

(** [room.gameState]: "lobby", "playing", "results". *)
Inductive GameState : Type := Lobby | Playing | Results.

Definition isPlaying (g : GameState) : bool :=
  match g with Playing => true | _ => false end.

Definition isLobby (g : GameState) : bool :=
  match g with Lobby => true | _ => false end.

(** [room.roundStartTime]: [null], a time stamp in milliseconds, or the
    [NaN] that arithmetic on an absent operand leaves. *)
Inductive StartTime : Type :=
| NoStart
| NotANumber
| At (ms : Z).

Module Player.

Record t : Type := mk {
  id : string;
  name : string;
  isHost : bool;
  isReady : bool;
  role : option Role;
  disabled : bool
}.

Definition with_isHost (x : bool) (r : t) : t :=
  mk (id r) (name r) x (isReady r) (role r) (disabled r).

Definition with_isReady (x : bool) (r : t) : t :=
  mk (id r) (name r) (isHost r) x (role r) (disabled r).

Definition with_role (x : option Role) (r : t) : t :=
  mk (id r) (name r) (isHost r) (isReady r) x (disabled r).

Definition with_disabled (x : bool) (r : t) : t :=
  mk (id r) (name r) (isHost r) (isReady r) (role r) x.

End Player.

Module Bug.

Record t : Type := mk {
  id : string;
  description : string;
  location : string;
  difficulty : string
}.

End Bug.

Module TestCase.

(** [expected] is a number, or ['Error'] ([None]) with its message. *)
Record t : Type := mk {
  method : string;
  args : list Z;
  expected : option Z;
  errorMsg : option string
}.

End TestCase.

(** [room.currentCode]: the sample spread together with the assignments of
    the round ([buggedCode] is added by the [submitBug] handler). *)
Module Code.

Record t : Type := mk {
  id : nat;
  language : string;
  title : string;
  correctCode : string;
  bugs : list Bug.t;
  testCases : list TestCase.t;
  bugAssignments : JsMap.t Bug.t;
  initialBuggyCode : string;
  buggedCode : option string
}.

Definition with_buggedCode (x : option string) (r : t) : t :=
  mk (id r) (language r) (title r) (correctCode r) (bugs r) (testCases r) (bugAssignments r) (initialBuggyCode r) x.

End Code.

(** [room.activeVote] *)
Module Vote.

Record t : Type := mk {
  initiatorId : string;
  initiatorName : string;
  type : string;
  votes : JsMap.t string;
  skips : JsSet.t;
  startTime : Z;
  duration : Z
}.

Definition with_votes (x : JsMap.t string) (r : t) : t :=
  mk (initiatorId r) (initiatorName r) (type r) x (skips r) (startTime r) (duration r).

Definition with_skips (x : JsSet.t) (r : t) : t :=
  mk (initiatorId r) (initiatorName r) (type r) (votes r) x (startTime r) (duration r).

End Vote.

Module Room.

Record t : Type := mk {
  code : string;
  hostId : option string;
  players : JsMap.t Player.t;
  gameState : GameState;
  currentRound : nat;
  totalRounds : nat;
  roundStartTime : StartTime;
  roundDuration : Z;
  currentCode : option Code.t;
  currentBug : option Bug.t;
  bugger : option string;
  debuggers : list string;
  buzzedPlayer : option string;
  activeVote : option Vote.t;
  winner : option string;
  winReason : option string;
  createdAt : Z;
  emptyTimeout : bool;
  timerPaused : option bool;
  pausedTimeRemaining : option Z
}.

Definition with_hostId (x : option string) (r : t) : t :=
  mk (code r) x (players r) (gameState r) (currentRound r) (totalRounds r) (roundStartTime r) (roundDuration r) (currentCode r) (currentBug r) (bugger r) (debuggers r) (buzzedPlayer r) (activeVote r) (winner r) (winReason r) (createdAt r) (emptyTimeout r) (timerPaused r) (pausedTimeRemaining r).

Definition with_players (x : JsMap.t Player.t) (r : t) : t :=
  mk (code r) (hostId r) x (gameState r) (currentRound r) (totalRounds r) (roundStartTime r) (roundDuration r) (currentCode r) (currentBug r) (bugger r) (debuggers r) (buzzedPlayer r) (activeVote r) (winner r) (winReason r) (createdAt r) (emptyTimeout r) (timerPaused r) (pausedTimeRemaining r).

Definition with_gameState (x : GameState) (r : t) : t :=
  mk (code r) (hostId r) (players r) x (currentRound r) (totalRounds r) (roundStartTime r) (roundDuration r) (currentCode r) (currentBug r) (bugger r) (debuggers r) (buzzedPlayer r) (activeVote r) (winner r) (winReason r) (createdAt r) (emptyTimeout r) (timerPaused r) (pausedTimeRemaining r).

Definition with_currentRound (x : nat) (r : t) : t :=
  mk (code r) (hostId r) (players r) (gameState r) x (totalRounds r) (roundStartTime r) (roundDuration r) (currentCode r) (currentBug r) (bugger r) (debuggers r) (buzzedPlayer r) (activeVote r) (winner r) (winReason r) (createdAt r) (emptyTimeout r) (timerPaused r) (pausedTimeRemaining r).

Definition with_roundStartTime (x : StartTime) (r : t) : t :=
  mk (code r) (hostId r) (players r) (gameState r) (currentRound r) (totalRounds r) x (roundDuration r) (currentCode r) (currentBug r) (bugger r) (debuggers r) (buzzedPlayer r) (activeVote r) (winner r) (winReason r) (createdAt r) (emptyTimeout r) (timerPaused r) (pausedTimeRemaining r).

Definition with_currentCode (x : option Code.t) (r : t) : t :=
  mk (code r) (hostId r) (players r) (gameState r) (currentRound r) (totalRounds r) (roundStartTime r) (roundDuration r) x (currentBug r) (bugger r) (debuggers r) (buzzedPlayer r) (activeVote r) (winner r) (winReason r) (createdAt r) (emptyTimeout r) (timerPaused r) (pausedTimeRemaining r).

Definition with_bugger (x : option string) (r : t) : t :=
  mk (code r) (hostId r) (players r) (gameState r) (currentRound r) (totalRounds r) (roundStartTime r) (roundDuration r) (currentCode r) (currentBug r) x (debuggers r) (buzzedPlayer r) (activeVote r) (winner r) (winReason r) (createdAt r) (emptyTimeout r) (timerPaused r) (pausedTimeRemaining r).

Definition with_debuggers (x : list string) (r : t) : t :=
  mk (code r) (hostId r) (players r) (gameState r) (currentRound r) (totalRounds r) (roundStartTime r) (roundDuration r) (currentCode r) (currentBug r) (bugger r) x (buzzedPlayer r) (activeVote r) (winner r) (winReason r) (createdAt r) (emptyTimeout r) (timerPaused r) (pausedTimeRemaining r).

Definition with_buzzedPlayer (x : option string) (r : t) : t :=
  mk (code r) (hostId r) (players r) (gameState r) (currentRound r) (totalRounds r) (roundStartTime r) (roundDuration r) (currentCode r) (currentBug r) (bugger r) (debuggers r) x (activeVote r) (winner r) (winReason r) (createdAt r) (emptyTimeout r) (timerPaused r) (pausedTimeRemaining r).

Definition with_activeVote (x : option Vote.t) (r : t) : t :=
  mk (code r) (hostId r) (players r) (gameState r) (currentRound r) (totalRounds r) (roundStartTime r) (roundDuration r) (currentCode r) (currentBug r) (bugger r) (debuggers r) (buzzedPlayer r) x (winner r) (winReason r) (createdAt r) (emptyTimeout r) (timerPaused r) (pausedTimeRemaining r).

Definition with_winner (x : option string) (r : t) : t :=
  mk (code r) (hostId r) (players r) (gameState r) (currentRound r) (totalRounds r) (roundStartTime r) (roundDuration r) (currentCode r) (currentBug r) (bugger r) (debuggers r) (buzzedPlayer r) (activeVote r) x (winReason r) (createdAt r) (emptyTimeout r) (timerPaused r) (pausedTimeRemaining r).

Definition with_winReason (x : option string) (r : t) : t :=
  mk (code r) (hostId r) (players r) (gameState r) (currentRound r) (totalRounds r) (roundStartTime r) (roundDuration r) (currentCode r) (currentBug r) (bugger r) (debuggers r) (buzzedPlayer r) (activeVote r) (winner r) x (createdAt r) (emptyTimeout r) (timerPaused r) (pausedTimeRemaining r).

Definition with_emptyTimeout (x : bool) (r : t) : t :=
  mk (code r) (hostId r) (players r) (gameState r) (currentRound r) (totalRounds r) (roundStartTime r) (roundDuration r) (currentCode r) (currentBug r) (bugger r) (debuggers r) (buzzedPlayer r) (activeVote r) (winner r) (winReason r) (createdAt r) x (timerPaused r) (pausedTimeRemaining r).

Definition with_timerPaused (x : option bool) (r : t) : t :=
  mk (code r) (hostId r) (players r) (gameState r) (currentRound r) (totalRounds r) (roundStartTime r) (roundDuration r) (currentCode r) (currentBug r) (bugger r) (debuggers r) (buzzedPlayer r) (activeVote r) (winner r) (winReason r) (createdAt r) (emptyTimeout r) x (pausedTimeRemaining r).

Definition with_pausedTimeRemaining (x : option Z) (r : t) : t :=
  mk (code r) (hostId r) (players r) (gameState r) (currentRound r) (totalRounds r) (roundStartTime r) (roundDuration r) (currentCode r) (currentBug r) (bugger r) (debuggers r) (buzzedPlayer r) (activeVote r) (winner r) (winReason r) (createdAt r) (emptyTimeout r) (timerPaused r) x.

(** [room.timerPaused] in a condition: [undefined] and [false] are falsy. *)
Definition paused (r : t) : bool :=
  match timerPaused r with Some b => b | None => false end.

End Room.

(** The process-wide [rooms] map. *)
Definition Rooms : Type := JsMap.t Room.t.

(** What a function of the source hands back: [null], an [{ error }]
    object, a value, or an exception that leaves it. *)
Inductive Reply (A : Type) : Type :=
| Null
| Error (msg : string)
| Ok (a : A)
| Throws.

Arguments Null {A}.
Arguments Error {A} msg.
Arguments Ok {A} a.
Arguments Throws {A}.

(** A block of statements that either runs to its end or is left by an
    exception, with the room as it stands at that point. *)
Inductive Completion : Type :=
| Done (r : Room.t)
| Raised (r : Room.t).

Definition roomOf (c : Completion) : Room.t :=
  match c with Done r => r | Raised r => r end.

(* ------------------------------------------------------------------ *)
(** ** The code sample *)

Definition correctCode1 : string :=
"class ScientificCalculator {
  constructor() {
    this.memory = 0;
    this.history = [];
  }

  add(a, b) {
    const result = a + b;
    this.history.push(`${a} + ${b} = ${result}`);
    return result;
  }

  subtract(a, b) {
    const result = a - b;
    this.history.push(`${a} - ${b} = ${result}`);
    return result;
  }

  multiply(a, b) {
    const result = a * b;
    this.history.push(`${a} * ${b} = ${result}`);
    return result;
  }

  divide(a, b) {
    if (b === 0) {
      throw new Error('Cannot divide by zero');
    }
    const result = a / b;
    this.history.push(`${a} / ${b} = ${result}`);
    return result;
  }

  power(base, exponent) {
    const result = Math.pow(base, exponent);
    this.history.push(`${base} ^ ${exponent} = ${result}`);
    return result;
  }

  squareRoot(n) {
    if (n < 0) {
      throw new Error('Cannot calculate square root of negative number');
    }
    const result = Math.sqrt(n);
    this.history.push(`âˆš${n} = ${result}`);
    return result;
  }

  increment(n) {
    const result = n + 1;
    this.history.push(`++${n} = ${result}`);
    return result;
  }

  decrement(n) {
    const result = n - 1;
    this.history.push(`--${n} = ${result}`);
    return result;
  }


  getHistory() {
    return this.history;
  }
}".

Definition bug1 : Bug.t :=
  Bug.mk "bug1" "Divide method missing zero check before division"
         "Line 33" "medium".

Definition bug2 : Bug.t :=
  Bug.mk "bug2" "squareRoot missing check for negative numbers"
         "Line 49" "medium".

Definition sampleTestCases : list TestCase.t :=
  [ TestCase.mk "divide" [20; 4]%Z (Some 5%Z) None;
    TestCase.mk "divide" [5; 0]%Z None (Some "Cannot divide by zero");
    TestCase.mk "squareRoot" [25]%Z (Some 5%Z) None;
    TestCase.mk "squareRoot" [(-9)%Z] None
      (Some "Cannot calculate square root of negative number") ].

Module Sample.

Record t : Type := mk {
  id : nat;
  language : string;
  title : string;
  correctCode : string;
  bugs : list Bug.t;
  testCases : list TestCase.t
}.

End Sample.

(** [codeSamples[0]], the only sample of the catalogue. *)
Definition sample0 : Sample.t :=
  Sample.mk 1 "javascript" "Scientific Calculator" correctCode1
            [bug1; bug2] sampleTestCases.

Definition codeSamples : list Sample.t := [sample0].

(* ------------------------------------------------------------------ *)
(** ** gameState.js *)

Definition newPlayer (playerId playerName : string) (host : bool) : Player.t :=
  Player.mk playerId playerName host false None false.

Definition createRoom (rooms : Rooms) (roomCode hostId hostName : string)
    (now : Z) : Room.t * Rooms :=
  let room :=
    Room.mk roomCode (Some hostId)
            (JsMap.set hostId (newPlayer hostId hostName true) JsMap.empty)
            Lobby 0 1 NoStart 90%Z None None None [] None None None None
            now false None None in
  (room, JsMap.set roomCode room rooms).

Definition getRoom (rooms : Rooms) (roomCode : string) : option Room.t :=
  JsMap.get roomCode rooms.

Definition addPlayerToRoom (rooms : Rooms) (roomCode playerId playerName : string)
    : Reply Room.t * Rooms :=
  match JsMap.get roomCode rooms with
  | None => (Null, rooms)
  | Some room =>
      if 6 <=? JsMap.size (Room.players room) then (Error "Room is full", rooms)
      else if negb (isLobby (Room.gameState room)) then
        (Error "Game already in progress", rooms)
      else
        let room := if Room.emptyTimeout room
                    then Room.with_emptyTimeout false room else room in
        let isFirstPlayer := JsMap.size (Room.players room) =? 0 in
        let room :=
          Room.with_players
            (JsMap.set playerId (newPlayer playerId playerName isFirstPlayer)
                       (Room.players room)) room in
        let room := if isFirstPlayer
                    then Room.with_hostId (Some playerId) room else room in
        (Ok room, JsMap.set roomCode room rooms)
  end.

Definition removePlayerFromRoom (rooms : Rooms) (roomCode playerId : string)
    : option Room.t * Rooms :=
  match JsMap.get roomCode rooms with
  | None => (None, rooms)
  | Some room =>
      let room :=
        Room.with_players (JsMap.delete playerId (Room.players room)) room in
      let room :=
        if optStringEqb (Room.hostId room) (Some playerId) then
          match Room.players room with
          | (k, newHost) :: _ =>
              Room.with_hostId (Some (Player.id newHost))
                (Room.with_players
                   (JsMap.set k (Player.with_isHost true newHost)
                              (Room.players room)) room)
          | [] => Room.with_hostId None room
          end
        else room in
      let room :=
        if JsMap.size (Room.players room) =? 0
        then Room.with_emptyTimeout true room else room in
      (Some room, JsMap.set roomCode room rooms)
  end.

(** The callback of the 30 s timer armed by [removePlayerFromRoom]. *)
Definition emptyTimeoutFired (rooms : Rooms) (roomCode : string) : Rooms :=
  match JsMap.get roomCode rooms with
  | Some room =>
      if JsMap.size (Room.players room) =? 0
      then JsMap.delete roomCode rooms else rooms
  | None => rooms
  end.

(** [room.players.get(id).role = ...]: a TypeError when [id] is not a key
    of [players]. *)
Definition setRole (role : Role) (playerId : option string) (room : Room.t)
    : Completion :=
  match getOpt playerId (Room.players room), playerId with
  | Some p, Some k =>
      Done (Room.with_players
              (JsMap.set k (Player.with_role (Some role) p) (Room.players room))
              room)
  | _, _ => Raised room
  end.

Fixpoint setDebuggerRoles (ids : list string) (room : Room.t) : Completion :=
  match ids with
  | [] => Done room
  | i :: ids' =>
      match setRole Debugger (Some i) room with
      | Done room' => setDebuggerRoles ids' room'
      | Raised room' => Raised room'
      end
  end.

(** [shuffled] is what [shuffleArray(playerIds)] returned. *)
Definition assignRoles (shuffled : list string) (room : Room.t) : Completion :=
  let room := Room.with_bugger (hd_error shuffled) room in
  let room := Room.with_debuggers (tl shuffled) room in
  match setRole Bugger (Room.bugger room) room with
  | Done room' => setDebuggerRoles (Room.debuggers room') room'
  | Raised room' => Raised room'
  end.

Definition divideGuard : Regex.Pattern :=
  Regex.lit "divide(a, b)" ++ [Regex.Many Regex.Space] ++ Regex.lit "{"
  ++ [Regex.Many Regex.Space] ++ Regex.lit "if (b === 0) {"
  ++ [Regex.Many Regex.Space]
  ++ Regex.lit "throw new Error('Cannot divide by zero');"
  ++ [Regex.Many Regex.Space] ++ Regex.lit "}" ++ [Regex.Many Regex.Space].

Definition squareRootGuard : Regex.Pattern :=
  Regex.lit "squareRoot(n)" ++ [Regex.Many Regex.Space] ++ Regex.lit "{"
  ++ [Regex.Many Regex.Space] ++ Regex.lit "if (n < 0) {"
  ++ [Regex.Many Regex.Space]
  ++ Regex.lit "throw new Error('Cannot calculate square root of negative number');"
  ++ [Regex.Many Regex.Space] ++ Regex.lit "}" ++ [Regex.Many Regex.Space].

Definition injectBug (correctCode bugId : string) : string :=
  if String.eqb bugId "bug1" then
    Regex.replace divideGuard "divide(a, b) {
    " correctCode
  else if String.eqb bugId "bug2" then
    Regex.replace squareRootGuard "squareRoot(n) {
    " correctCode
  else correctCode.

(** [availableBugs.splice(i, 1)]: the element taken and what is left. *)
Fixpoint splice1 {A} (i : nat) (l : list A) : option A * list A :=
  match l, i with
  | [], _ => (None, [])
  | x :: l', 0 => (Some x, l')
  | x :: l', S i' => let '(y, r) := splice1 i' l' in (y, x :: r)
  end.

(** The first loop of [startRound].  [picks] are the successive draws of
    [Math.floor(Math.random() * availableBugs.length)], each read modulo
    the current length. *)
Fixpoint assignBugs (debuggers : list string) (availableBugs : list Bug.t)
    (picks : list nat) (bugAssignments : JsMap.t Bug.t) : JsMap.t Bug.t :=
  match debuggers with
  | [] => bugAssignments
  | d :: ds =>
      if 0 <? List.length availableBugs then
        let randomIndex := hd 0 picks mod List.length availableBugs in
        match splice1 randomIndex availableBugs with
        | (Some assignedBug, rest) =>
            assignBugs ds rest (tl picks) (JsMap.set d assignedBug bugAssignments)
        | (None, rest) => assignBugs ds rest (tl picks) bugAssignments
        end
      else assignBugs ds availableBugs picks bugAssignments
  end.

Definition startRound (picks : list nat) (now : Z) (room : Room.t) : Room.t :=
  let sample := sample0 in
  let bugAssignments :=
    assignBugs (Room.debuggers room) (Sample.bugs sample) picks JsMap.empty in
  let initialBuggyCode :=
    fold_left (fun code bug => injectBug code (Bug.id bug))
              (JsMap.values bugAssignments) (Sample.correctCode sample) in
  let room :=
    Room.with_currentCode
      (Some (Code.mk (Sample.id sample) (Sample.language sample)
                     (Sample.title sample) (Sample.correctCode sample)
                     (Sample.bugs sample) (Sample.testCases sample)
                     bugAssignments initialBuggyCode None)) room in
  let room := Room.with_roundStartTime (At now) room in
  let room := Room.with_buzzedPlayer None room in
  Room.with_activeVote None room.

(** [shuffled] and [picks] are the random choices of [assignRoles] and
    [startRound], [now] the clock read by [startRound]. *)
Definition startGame (rooms : Rooms) (roomCode : string)
    (shuffled : list string) (picks : list nat) (now : Z)
    : Reply Room.t * Rooms :=
  match JsMap.get roomCode rooms with
  | None => (Null, rooms)
  | Some room =>
      if JsMap.size (Room.players room) <? 3 then
        (Error "Need at least 3 players to start", rooms)
      else
        let room := Room.with_gameState Playing room in
        let room := Room.with_currentRound 1 room in
        match assignRoles shuffled room with
        | Done room =>
            let room := startRound picks now room in
            (Ok room, JsMap.set roomCode room rooms)
        | Raised room => (Throws, JsMap.set roomCode room rooms)
        end
  end.

Definition newVote (playerId initiatorName : string) (now : Z) : Vote.t :=
  Vote.mk playerId initiatorName "vote_kick" JsMap.empty JsSet.empty
          now 60000%Z.

(** The reply is [null], an error, the room, or the TypeError of
    [player.name] for a [playerId] that is not in the room. *)
Definition handleBuzz (rooms : Rooms) (roomCode playerId : string) (now : Z)
    : Reply Room.t * Rooms :=
  match JsMap.get roomCode rooms with
  | None => (Null, rooms)
  | Some room =>
      if negb (isPlaying (Room.gameState room)) then (Null, rooms)
      else
        match JsMap.get playerId (Room.players room) with
        | Some player =>
            if Player.disabled player then
              (Error "You are disabled and cannot buzz", rooms)
            else
              let room := Room.with_buzzedPlayer (Some playerId) room in
              let room :=
                Room.with_activeVote
                  (Some (newVote playerId (Player.name player) now)) room in
              (Ok room, JsMap.set roomCode room rooms)
        | None =>
            (* [player?.disabled] is undefined; [player.name] throws
               after [buzzedPlayer] has been written *)
            let room := Room.with_buzzedPlayer (Some playerId) room in
            (Throws, JsMap.set roomCode room rooms)
        end
  end.

Definition enabledPlayers (room : Room.t) : list Player.t :=
  List.filter (fun p => negb (Player.disabled p))
              (JsMap.values (Room.players room)).

Definition allVotedIn (room : Room.t) (vote : Vote.t) : bool :=
  let totalVotesAndSkips :=
    JsMap.size (Vote.votes vote) + JsSet.size (Vote.skips vote) in
  List.length (enabledPlayers room) <=? totalVotesAndSkips.

Definition castBuzzVote (rooms : Rooms) (roomCode voterId targetVoteId : string)
    : Reply (Vote.t * bool) * Rooms :=
  match JsMap.get roomCode rooms with
  | None => (Error "Room not found", rooms)
  | Some room =>
      match Room.activeVote room with
      | None => (Error "No active vote", rooms)
      | Some vote =>
          if negb (String.eqb (Vote.type vote) "vote_kick") then
            (Error "No active vote", rooms)
          else
            match JsMap.get voterId (Room.players room) with
            | None => (Error "You are not in this room", rooms)
            | Some voter =>
                if Player.disabled voter then
                  (Error "You are disabled and cannot vote", rooms)
                else if JsMap.has voterId (Vote.votes vote)
                        || JsSet.has voterId (Vote.skips vote) then
                  (Error "You have already voted", rooms)
                else if String.eqb targetVoteId "skip" then
                  let vote :=
                    Vote.with_skips (JsSet.add voterId (Vote.skips vote)) vote in
                  let room := Room.with_activeVote (Some vote) room in
                  (Ok (vote, allVotedIn room vote),
                   JsMap.set roomCode room rooms)
                else
                  match JsMap.get targetVoteId (Room.players room) with
                  | None => (Error "Target player not found", rooms)
                  | Some targetPlayer =>
                      if Player.disabled targetPlayer then
                        (Error "Cannot vote for an already disabled player",
                         rooms)
                      else if String.eqb voterId targetVoteId then
                        (Error "You cannot vote for yourself", rooms)
                      else
                        let vote :=
                          Vote.with_votes
                            (JsMap.set voterId targetVoteId (Vote.votes vote))
                            vote in
                        let room := Room.with_activeVote (Some vote) room in
                        (Ok (vote, allVotedIn room vote),
                         JsMap.set roomCode room rooms)
                  end
            end
      end
  end.

Module VoteResult.

Record t : Type := mk {
  shouldKick : bool;
  playerToKick : option string;
  kickedPlayerName : option string;
  maxVotes : nat;
  voteCount : JsMap.t nat;
  votedCount : nat;
  skipCount : nat;
  totalPlayers : nat;
  hasClearMajority : bool;
  buggerVotedOut : bool
}.

End VoteResult.

(** One turn of the first loop of [getBuzzVoteResult]:
    [voteCount.set(id, (voteCount.get(id) || 0) + 1)]. *)
Definition bump (voteCount : JsMap.t nat) (targetPlayerId : string)
    : JsMap.t nat :=
  JsMap.set targetPlayerId
    (match JsMap.get targetPlayerId voteCount with
     | Some n => n
     | None => 0
     end + 1) voteCount.

(** The first loop: the per-target counts. *)
Definition countVotes (targets : list string) : JsMap.t nat :=
  fold_left bump targets JsMap.empty.

(** The three variables of the second loop. *)
Module Tally.

Record t : Type := mk {
  playerToKick : option string;
  maxVotes : nat;
  secondMaxVotes : nat
}.

Definition init : t := mk None 0 0.

Definition step (s : t) (entry : string * nat) : t :=
  let '(playerId, count) := entry in
  if maxVotes s <? count then mk (Some playerId) count (maxVotes s)
  else if secondMaxVotes s <? count then mk (playerToKick s) (maxVotes s) count
  else s.

Definition run (entries : JsMap.t nat) : t := fold_left step entries init.

Definition clear (s : t) : bool :=
  (0 <? maxVotes s) && (secondMaxVotes s <? maxVotes s).

End Tally.

(** The tally of an open vote. *)
Definition tallyOf (vote : Vote.t) : Tally.t :=
  Tally.run (countVotes (JsMap.values (Vote.votes vote))).

(** A string, [null] or [undefined] in a condition: the empty string is
    falsy too. *)
Definition truthy (k : option string) : option string :=
  match k with
  | Some s => if String.eqb s "" then None else Some s
  | None => None
  end.

Definition getBuzzVoteResult (room : Room.t) : option VoteResult.t :=
  match Room.activeVote room with
  | None => None
  | Some vote =>
      let votes := Vote.votes vote in
      let skips := Vote.skips vote in
      let votedCount := JsMap.size votes in
      let skipCount := JsSet.size skips in
      let totalPlayers := List.length (enabledPlayers room) in
      let voteCount := countVotes (JsMap.values votes) in
      let tally := Tally.run voteCount in
      let playerToKick := Tally.playerToKick tally in
      let maxVotes := Tally.maxVotes tally in
      let hasClearMajority := Tally.clear tally in
      let shouldKick := hasClearMajority in
      let kickedPlayerName :=
        match getOpt (truthy playerToKick) (Room.players room) with
        | Some p => Some (Player.name p)
        | None => None
        end in
      let buggerVotedOut :=
        shouldKick && optStringEqb playerToKick (Room.bugger room) in
      Some (VoteResult.mk shouldKick playerToKick kickedPlayerName maxVotes
              voteCount votedCount skipCount totalPlayers hasClearMajority
              buggerVotedOut)
  end.

Definition clearBuzzVote (rooms : Rooms) (roomCode : string)
    : option Room.t * Rooms :=
  match JsMap.get roomCode rooms with
  | None => (None, rooms)
  | Some room =>
      let room := Room.with_activeVote None room in
      (Some room, JsMap.set roomCode room rooms)
  end.

(** On success the reply is [isCorrect]; the room it also returns is the
    one of the store. *)
Definition validateFix (rooms : Rooms) (roomCode playerId fixedCode : string)
    : Reply bool :=
  match JsMap.get roomCode rooms with
  | None => Null
  | Some room =>
      if negb (optStringEqb (Room.buzzedPlayer room) (Some playerId)) then
        Error "Only the buzzed player can submit a fix"
      else
        match Room.activeVote room with
        | Some _ => Error "Wait for vote to complete"
        | None =>
            match Room.currentCode room with
            | Some code =>
                Ok (String.eqb (Str.trim fixedCode)
                               (Str.trim (Code.correctCode code)))
            | None => Throws
            end
        end
  end.

Definition playerEnabled (room : Room.t) (playerId : option string) : bool :=
  hasOpt playerId (Room.players room)
  && negb (match getOpt playerId (Room.players room) with
           | Some p => Player.disabled p
           | None => false
           end).

Definition checkBuggerWin (room : Room.t) : bool :=
  let enabledDebuggers :=
    List.filter (fun id => playerEnabled room (Some id)) (Room.debuggers room) in
  let buggerEnabled := playerEnabled room (Room.bugger room) in
  if (List.length enabledDebuggers =? 0) && buggerEnabled then true
  else if (List.length (enabledPlayers room) =? 2) && buggerEnabled then true
  else false.

Definition checkDebuggersWin (room : Room.t) : bool :=
  negb (hasOpt (Room.bugger room) (Room.players room))
  || match getOpt (Room.bugger room) (Room.players room) with
     | Some p => Player.disabled p
     | None => false
     end.

(** [/divide\([^)]*\)\s*{[^}]*return/s] *)
Definition divideBody : Regex.Pattern :=
  Regex.lit "divide(" ++ [Regex.Many (Regex.Not ")"%char)] ++ Regex.lit ")"
  ++ [Regex.Many Regex.Space] ++ Regex.lit "{"
  ++ [Regex.Many (Regex.Not "}"%char)] ++ Regex.lit "return".

(** [/squareRoot\([^)]*\)\s*{[^}]*return/s] *)
Definition squareRootBody : Regex.Pattern :=
  Regex.lit "squareRoot(" ++ [Regex.Many (Regex.Not ")"%char)] ++ Regex.lit ")"
  ++ [Regex.Many Regex.Space] ++ Regex.lit "{"
  ++ [Regex.Many (Regex.Not "}"%char)] ++ Regex.lit "return".

(** [codeHasErrors] and [errorDetails] of [endRound]. *)
Module Check.

Record t : Type := mk {
  codeHasErrors : bool;
  errorDetails : list string
}.

Definition init : t := mk false [].

Definition flag (detail : string) (c : t) : t :=
  mk true (errorDetails c ++ [detail]).

End Check.

Definition missingGuard (body : Regex.Pattern) (guard finalCode : string) : bool :=
  match Regex.match0 body finalCode with
  | Some m => negb (Str.includes guard m)
  | None => false
  end.

(** The checks on a truthy [finalCode].  [newFunction code] is [Some msg]
    when [new Function(code)] throws an error with that message. *)
Definition checkFinalCode (newFunction : string -> option string)
    (finalCode : string) : Check.t :=
  let c := Check.init in
  let c := if missingGuard divideBody "=== 0" finalCode
           then Check.flag "Divide bug: missing zero check" c else c in
  let c := if missingGuard squareRootBody "< 0" finalCode
           then Check.flag "SquareRoot bug: missing negative check" c else c in
  match newFunction finalCode with
  | Some message => Check.flag (String.append "Syntax error: " message) c
  | None => c
  end.

Definition finalVerdict (newFunction : string -> option string)
    (finalCode : option string) (room : Room.t) : Room.t :=
  let room := Room.with_gameState Results room in
  let c :=
    match truthy finalCode, Room.currentCode room with
    | Some code, Some _ => checkFinalCode newFunction code
    | _, _ => Check.init
    end in
  if Check.codeHasErrors c then
    let room := Room.with_winner (Some "bugger") room in
    Room.with_winReason
      (Some (String.append "Sabotager wins! "
               (if 0 <? List.length (Check.errorDetails c)
                then Str.join ", " (Check.errorDetails c)
                else "Bugs still in code"))) room
  else
    let room := Room.with_winner (Some "debuggers") room in
    Room.with_winReason (Some "Fixers win! All bugs resolved!") room.

Definition endRound (newFunction : string -> option string)
    (rooms : Rooms) (roomCode : string) (finalCode : option string)
    (shuffled : list string) (picks : list nat) (now : Z)
    : Reply Room.t * Rooms :=
  match JsMap.get roomCode rooms with
  | None => (Null, rooms)
  | Some room =>
      if Room.totalRounds room <=? Room.currentRound room then
        let room := finalVerdict newFunction finalCode room in
        (Ok room, JsMap.set roomCode room rooms)
      else
        let room := Room.with_currentRound (Room.currentRound room + 1) room in
        match assignRoles shuffled room with
        | Done room =>
            let room := startRound picks now room in
            (Ok room, JsMap.set roomCode room rooms)
        | Raised room => (Throws, JsMap.set roomCode room rooms)
        end
  end.

Definition resetPlayer (player : Player.t) : Player.t :=
  Player.with_disabled false
    (Player.with_role None (Player.with_isReady false player)).

Definition resetGame (rooms : Rooms) (roomCode : string)
    : option Room.t * Rooms :=
  match JsMap.get roomCode rooms with
  | None => (None, rooms)
  | Some room =>
      let room := Room.with_gameState Lobby room in
      let room := Room.with_currentRound 0 room in
      let room := Room.with_roundStartTime NoStart room in
      let room := Room.with_currentCode None room in
      let room := Room.with_bugger None room in
      let room := Room.with_debuggers [] room in
      let room := Room.with_buzzedPlayer None room in
      let room := Room.with_activeVote None room in
      let room := Room.with_winner None room in
      let room := Room.with_winReason None room in
      let room :=
        Room.with_players (JsMap.mapValues resetPlayer (Room.players room))
                          room in
      (Some room, JsMap.set roomCode room rooms)
  end.

Definition TWO_HOURS : Z := (2 * 60 * 60 * 1000)%Z.

Definition cleanupOldRooms (rooms : Rooms) (now : Z) : Rooms :=
  JsMap.filter
    (fun _ room => negb (TWO_HOURS <? now - Room.createdAt room)%Z) rooms.

(* ------------------------------------------------------------------ *)
(** ** socketHandlers.js: the round timer

    Broadcasts are left out, they do not touch the rooms; the only one
    kept is the [remaining] that [resumeRoundTimer] sends. *)

(** [Math.floor((now - room.roundStartTime) / 1000)]; [None] is [NaN]. *)
Definition elapsedAt (now : Z) (room : Room.t) : option Z :=
  match Room.roundStartTime room with
  | NoStart => Some (now / 1000)%Z
  | NotANumber => None
  | At start => Some ((now - start) / 1000)%Z
  end.

(** [room.roundDuration - elapsed] *)
Definition remainingAt (now : Z) (room : Room.t) : option Z :=
  match elapsedAt now room with
  | Some elapsed => Some (Room.roundDuration room - elapsed)%Z
  | None => None
  end.

Definition pauseRoundTimer (rooms : Rooms) (roomCode : string) (now : Z) : Rooms :=
  match getRoom rooms roomCode with
  | None => rooms
  | Some room =>
      if Room.paused room then rooms
      else
        let remaining := remainingAt now room in
        let room := Room.with_timerPaused (Some true) room in
        let room :=
          Room.with_pausedTimeRemaining
            (match remaining with
             | Some r => Some (Z.max 0 r)
             | None => None
             end) room in
        JsMap.set roomCode room rooms
  end.

(** [now] and [now'] are the two readings of the clock; the first
    component is the [remaining] of the [timerUpdate] sent. *)
Definition resumeRoundTimer (rooms : Rooms) (roomCode : string) (now now' : Z)
    : option (option Z) * Rooms :=
  match getRoom rooms roomCode with
  | None => (None, rooms)
  | Some room =>
      if negb (Room.paused room) then (None, rooms)
      else
        let room :=
          Room.with_roundStartTime
            (match Room.pausedTimeRemaining room with
             | Some p => At (now - (Room.roundDuration room - p) * 1000)%Z
             | None => NotANumber
             end) room in
        let room := Room.with_timerPaused (Some false) room in
        let room := Room.with_pausedTimeRemaining None room in
        (Some (remainingAt now' room), JsMap.set roomCode room rooms)
  end.

(** [handleEndRound], apart from its broadcasts; [finalCode] is what
    [getCurrentCode(roomCode)] returned. *)
Definition handleEndRound (newFunction : string -> option string)
    (rooms : Rooms) (roomCode : string) (finalCode : option string)
    (shuffled : list string) (picks : list nat) (now : Z) : Rooms :=
  snd (endRound newFunction rooms roomCode finalCode shuffled picks now).

(** One firing of the interval armed by [startRoundTimer]. *)
Definition roundTick (newFunction : string -> option string)
    (rooms : Rooms) (roomCode : string) (finalCode : option string)
    (shuffled : list string) (picks : list nat) (now : Z) : Rooms :=
  match getRoom rooms roomCode with
  | None => rooms
  | Some room =>
      if negb (isPlaying (Room.gameState room)) then rooms
      else if Room.paused room then rooms
      else
        match remainingAt now room with
        | Some remaining =>
            if (remaining <=? 0)%Z then
              handleEndRound newFunction rooms roomCode finalCode shuffled
                             picks now
            else rooms
        | None => rooms
        end
  end.

(** Writes on the room object held by a handler. *)
Definition updateRoom (f : Room.t -> Room.t) (rooms : Rooms) (roomCode : string)
    : Rooms :=
  match getRoom rooms roomCode with
  | Some room => JsMap.set roomCode (f room) rooms
  | None => rooms
  end.

Definition disablePlayer (playerToKick : option string) (room : Room.t) : Room.t :=
  match playerToKick with
  | Some k =>
      match JsMap.get k (Room.players room) with
      | Some player =>
          Room.with_players
            (JsMap.set k (Player.with_disabled true player) (Room.players room))
            room
      | None => room
      end
  | None => room
  end.

Definition handleBuzzVoteEnd (rooms : Rooms) (roomCode : string) (now now' : Z)
    : Rooms :=
  match getRoom rooms roomCode with
  | None => rooms
  | Some room =>
      match getBuzzVoteResult room with
      | None => rooms
      | Some voteResult =>
          if negb (VoteResult.hasClearMajority voteResult) then
            let rooms := updateRoom (Room.with_buzzedPlayer None) rooms roomCode in
            let rooms := snd (clearBuzzVote rooms roomCode) in
            snd (resumeRoundTimer rooms roomCode now now')
          else
            let room := disablePlayer (VoteResult.playerToKick voteResult) room in
            let rooms := JsMap.set roomCode room rooms in
            if VoteResult.buggerVotedOut voteResult then
              let rooms :=
                JsMap.set roomCode (Room.with_gameState Results room) rooms in
              snd (clearBuzzVote rooms roomCode)
            else if checkBuggerWin room then
              let rooms :=
                JsMap.set roomCode (Room.with_gameState Results room) rooms in
              snd (clearBuzzVote rooms roomCode)
            else
              let rooms :=
                JsMap.set roomCode (Room.with_buzzedPlayer None room) rooms in
              let rooms := snd (clearBuzzVote rooms roomCode) in
              snd (resumeRoundTimer rooms roomCode now now')
      end
  end.

(** ** socketHandlers.js: the handlers, from the point where
    [socketToPlayer] has given [{ playerId, roomCode }] *)

Definition onCreateRoom (rooms : Rooms) (roomCode playerId playerName : string)
    (now : Z) : Rooms :=
  snd (createRoom rooms roomCode playerId playerName now).

Definition onJoinRoom (rooms : Rooms) (roomCode playerId playerName : string)
    : Rooms :=
  match getRoom rooms roomCode with
  | None => rooms
  | Some _ => snd (addPlayerToRoom rooms roomCode playerId playerName)
  end.

Definition onPlayerReady (rooms : Rooms) (roomCode playerId : string) : Rooms :=
  match getRoom rooms roomCode with
  | None => rooms
  | Some room =>
      match JsMap.get playerId (Room.players room) with
      | Some player =>
          let player := Player.with_isReady (negb (Player.isReady player)) player in
          JsMap.set roomCode
            (Room.with_players (JsMap.set playerId player (Room.players room)) room)
            rooms
      | None => rooms
      end
  end.

Definition onStartGame (rooms : Rooms) (roomCode playerId : string)
    (shuffled : list string) (picks : list nat) (now : Z) : Rooms :=
  match getRoom rooms roomCode with
  | None => rooms
  | Some room =>
      if negb (optStringEqb (Room.hostId room) (Some playerId)) then rooms
      else snd (startGame rooms roomCode shuffled picks now)
  end.

Definition onBuzz (rooms : Rooms) (roomCode playerId : string) (now now' : Z)
    : Rooms :=
  match handleBuzz rooms roomCode playerId now with
  | (Ok _, rooms) => pauseRoundTimer rooms roomCode now'
  | (_, rooms) => rooms
  end.

Definition onCastBuzzVote (rooms : Rooms) (roomCode playerId targetPlayerId : string)
    (now now' : Z) : Rooms :=
  match castBuzzVote rooms roomCode playerId targetPlayerId with
  | (Ok (_, allVoted), rooms) =>
      if allVoted then handleBuzzVoteEnd rooms roomCode now now' else rooms
  | (_, rooms) => rooms
  end.

Definition onSubmitFix (rooms : Rooms) (roomCode playerId fixedCode : string)
    : Rooms :=
  match validateFix rooms roomCode playerId fixedCode with
  | Ok _ =>
      match getRoom rooms roomCode with
      | Some room =>
          match JsMap.get playerId (Room.players room) with
          | Some _ =>
              JsMap.set roomCode (Room.with_buzzedPlayer None room) rooms
          | None => rooms
          end
      | None => rooms
      end
  | _ => rooms
  end.

Definition onSubmitBug (rooms : Rooms) (roomCode playerId buggedCode : string)
    : Rooms :=
  match getRoom rooms roomCode with
  | None => rooms
  | Some room =>
      if negb (optStringEqb (Room.bugger room) (Some playerId)) then rooms
      else
        match Room.currentCode room with
        | Some code =>
            JsMap.set roomCode
              (Room.with_currentCode
                 (Some (Code.with_buggedCode (Some buggedCode) code)) room)
              rooms
        | None => rooms
        end
  end.

Definition onPlayAgain (rooms : Rooms) (roomCode : string) : Rooms :=
  snd (resetGame rooms roomCode).

(** [leaveRoom]; the [disconnect] handler makes the same calls. *)
Definition onLeaveRoom (rooms : Rooms) (roomCode playerId : string) : Rooms :=
  let rooms :=
    match getRoom rooms roomCode with
    | Some room =>
        match Room.activeVote room with
        | Some _ => snd (clearBuzzVote rooms roomCode)
        | None => rooms
        end
    | None => rooms
    end in
  snd (removePlayerFromRoom rooms roomCode playerId).

Definition onDisconnect (rooms : Rooms) (roomCode playerId : string) : Rooms :=
  let rooms :=
    match getRoom rooms roomCode with
    | Some room =>
        match Room.activeVote room with
        | Some _ => snd (clearBuzzVote rooms roomCode)
        | None => rooms
        end
    | None => rooms
    end in
  snd (removePlayerFromRoom rooms roomCode playerId).

(* ------------------------------------------------------------------ *)
(** ** The server as a transition system

    Every client action and every timer callback is one event.  The
    timers themselves are not tracked: a callback may fire at any time,
    which covers every schedule of the source, the callbacks guarding
    themselves against a missing room or an unexpected state.  The
    handlers of [chatMessage], [cursorUpdate], [validateBugFix] and
    [nextRound] write to no room and have no event.  A handler left by an
    exception keeps the writes it made before. *)

Inductive Event : Type :=
| CreateRoom (roomCode playerId playerName : string) (now : Z)
| JoinRoom (roomCode playerId playerName : string)
| PlayerReady (roomCode playerId : string)
| StartGame (roomCode playerId : string) (shuffled : list string)
            (picks : list nat) (now : Z)
| Buzz (roomCode playerId : string) (now now' : Z)
| CastBuzzVote (roomCode playerId targetPlayerId : string) (now now' : Z)
| SubmitFix (roomCode playerId fixedCode : string)
| SubmitBug (roomCode playerId buggedCode : string)
| PlayAgain (roomCode : string)
| LeaveRoom (roomCode playerId : string)
| Disconnect (roomCode playerId : string)
| RoundTick (roomCode : string) (finalCode : option string)
            (shuffled : list string) (picks : list nat) (now : Z)
| EndRoundTimeout (roomCode : string) (finalCode : option string)
                  (shuffled : list string) (picks : list nat) (now : Z)
| VoteTimeout (roomCode : string) (now now' : Z)
| EmptyTimeout (roomCode : string)
| CleanupInterval (now : Z).

Definition step (newFunction : string -> option string) (rooms : Rooms)
    (e : Event) : Rooms :=
  match e with
  | CreateRoom c p n now => onCreateRoom rooms c p n now
  | JoinRoom c p n => onJoinRoom rooms c p n
  | PlayerReady c p => onPlayerReady rooms c p
  | StartGame c p shuffled picks now => onStartGame rooms c p shuffled picks now
  | Buzz c p now now' => onBuzz rooms c p now now'
  | CastBuzzVote c p target now now' => onCastBuzzVote rooms c p target now now'
  | SubmitFix c p fixedCode => onSubmitFix rooms c p fixedCode
  | SubmitBug c p buggedCode => onSubmitBug rooms c p buggedCode
  | PlayAgain c => onPlayAgain rooms c
  | LeaveRoom c p => onLeaveRoom rooms c p
  | Disconnect c p => onDisconnect rooms c p
  | RoundTick c finalCode shuffled picks now =>
      roundTick newFunction rooms c finalCode shuffled picks now
  | EndRoundTimeout c finalCode shuffled picks now =>
      handleEndRound newFunction rooms c finalCode shuffled picks now
  | VoteTimeout c now now' => handleBuzzVoteEnd rooms c now now'
  | EmptyTimeout c => emptyTimeoutFired rooms c
  | CleanupInterval now => cleanupOldRooms rooms now
  end.

Definition run (newFunction : string -> option string) (events : list Event)
    : Rooms :=
  fold_left (step newFunction) events JsMap.empty.

(** The stores the server can be in. *)
Inductive Reachable (newFunction : string -> option string) : Rooms -> Prop :=
| reach_start : Reachable newFunction JsMap.empty
| reach_step rooms e :
    Reachable newFunction rooms ->
    Reachable newFunction (step newFunction rooms e).

(** The mutual exclusion of an open vote and a running round timer. *)
Definition votePausesTimer (room : Room.t) : bool :=
  match Room.activeVote room with
  | Some _ => Room.paused room
  | None => true
  end.

Definition timerRunning (room : Room.t) : bool := negb (Room.paused room).

Definition voteOpen (room : Room.t) : bool :=
  match Room.activeVote room with Some _ => true | None => false end.

(* ------------------------------------------------------------------ *)
(** ** A game of three players, used for the concrete checks *)

Module Demo.

Definition noSyntaxError (code : string) : option string := None.

(** Ann creates room ABCD, Bob and Cy join, Ann starts the game: Ann is
    the bugger, Bob gets the first bug and Cy the second. *)
Definition started : Rooms :=
  run noSyntaxError
    [ CreateRoom "ABCD" "p1" "Ann" 0;
      JoinRoom "ABCD" "p2" "Bob";
      JoinRoom "ABCD" "p3" "Cy";
      StartGame "ABCD" "p1" ["p1"; "p2"; "p3"] [0; 0] 1000 ].

(** Bob buzzes 30 s into the round. *)
Definition buzzed : Rooms := step noSyntaxError started (Buzz "ABCD" "p2" 31000 31000).

(** Cy votes for Ann. *)
Definition oneVote : Rooms :=
  step noSyntaxError buzzed (CastBuzzVote "ABCD" "p3" "p1" 32000 32000).

(** Ann votes for Bob: one vote each, Bob has not voted yet. *)
Definition twoVotes : Rooms :=
  step noSyntaxError oneVote (CastBuzzVote "ABCD" "p1" "p2" 33000 33000).

(** Another course of the vote: Cy and Ann both vote for Bob, Bob skips;
    Bob is eliminated and two enabled players are left. *)
Definition bobOut : Rooms :=
  fold_left (step noSyntaxError)
    [ CastBuzzVote "ABCD" "p3" "p2" 32000 32000;
      CastBuzzVote "ABCD" "p1" "p2" 33000 33000;
      CastBuzzVote "ABCD" "p2" "skip" 34000 34000 ] buzzed.

(** The room of a store that has one room. *)
Definition theRoom (rooms : Rooms) : Room.t :=
  match rooms with
  | (_, room) :: _ => room
  | [] => Room.mk "" None [] Lobby 0 1 NoStart 90%Z None None None []
                  None None None None 0%Z false None None
  end.

End Demo.

(** The conditions under which [castBuzzVote] must refuse a vote of
    [voterId] for [targetVoteId] in [room]. *)
Inductive Refused (room : Room.t) (voterId targetVoteId : string) : Prop :=
| NoActiveVote :
    Room.activeVote room = None -> Refused room voterId targetVoteId
| NotInRoom :
    JsMap.has voterId (Room.players room) = false ->
    Refused room voterId targetVoteId
| AlreadyDisabled voter :
    JsMap.get voterId (Room.players room) = Some voter ->
    Player.disabled voter = true ->
    Refused room voterId targetVoteId
| AlreadyVoted vote :
    Room.activeVote room = Some vote ->
    JsMap.has voterId (Vote.votes vote) = true
    \/ JsSet.has voterId (Vote.skips vote) = true ->
    Refused room voterId targetVoteId
| UnknownTarget :
    targetVoteId <> "skip" ->
    JsMap.has targetVoteId (Room.players room) = false ->
    Refused room voterId targetVoteId
| TargetDisabled target :
    targetVoteId <> "skip" ->
    JsMap.get targetVoteId (Room.players room) = Some target ->
    Player.disabled target = true ->
    Refused room voterId targetVoteId
| SelfVote :
    targetVoteId <> "skip" ->
    voterId = targetVoteId ->
    Refused room voterId targetVoteId.

(** The number of votes cast for [target] in a vote. *)
Definition votesFor (vote : Vote.t) (target : string) : nat :=
  count_occ string_dec (JsMap.values (Vote.votes vote)) target.

(** The count a map of counts holds for a key, 0 for an absent key. *)
Definition countOf (m : JsMap.t nat) (k : string) : nat :=
  match JsMap.get k m with Some n => n | None => 0 end.

(** What the second loop of [getBuzzVoteResult] has established once it
    has gone through the entries [l]. *)
Record TallyOf (l : JsMap.t nat) (s : Tally.t) : Prop := {
  tally_max : forall k n, In (k, n) l -> n <= Tally.maxVotes s;
  tally_order : Tally.secondMaxVotes s <= Tally.maxVotes s;
  tally_empty : l = [] -> s = Tally.init;
  tally_leader :
    l <> [] ->
    exists k, Tally.playerToKick s = Some k
              /\ In (k, Tally.maxVotes s) l /\ 0 < Tally.maxVotes s;
  tally_others :
    forall k n, In (k, n) l -> Tally.playerToKick s <> Some k ->
                n <= Tally.secondMaxVotes s;
  tally_second :
    Tally.secondMaxVotes s = 0
    \/ exists k, Tally.playerToKick s <> Some k
                 /\ In (k, Tally.secondMaxVotes s) l
}.

(** Every room of the store keeps an open vote and a running timer apart. *)
Definition StoreOk (rooms : Rooms) : Prop :=
  forall roomCode room,
    In (roomCode, room) rooms -> votePausesTimer room = true.

(* ------------------------------------------------------------------ *)
(** ** Statistics over the store *)

Definition getAllRooms (rooms : Rooms) : list Room.t := JsMap.values rooms.

Module Stats.

Record t : Type := mk {
  totalRooms : nat;
  totalPlayers : nat;
  activeGames : nat;
  lobbyRooms : nat;
  roomsInResults : nat
}.

End Stats.

Definition isResults (g : GameState) : bool :=
  match g with Results => true | _ => false end.

Definition getRoomStats (rooms : Rooms) : Stats.t :=
  let allRooms := JsMap.values rooms in
  let totalPlayers :=
    fold_left (fun sum room => sum + JsMap.size (Room.players room))
              allRooms 0 in
  let activeGames :=
    List.length (List.filter (fun r => isPlaying (Room.gameState r)) allRooms) in
  let lobbyRooms :=
    List.length (List.filter (fun r => isLobby (Room.gameState r)) allRooms) in
  Stats.mk (List.length allRooms) totalPlayers activeGames lobbyRooms
           (List.length
              (List.filter (fun r => isResults (Room.gameState r)) allRooms)).

(* ------------------------------------------------------------------ *)
(** ** Predicates used in the statements about the whole server *)

(** Where a player id stands in a room: [None] for an id that is not in
    the room, otherwise the [disabled] flag of the player. *)
Definition status (room : Room.t) (playerId : string) : option bool :=
  option_map Player.disabled (JsMap.get playerId (Room.players room)).

(** The entries of an open vote fit the room: voters and targets are
    enabled members, nobody votes for themselves, and a voter has one
    entry in all. *)
Record VoteOk (room : Room.t) (vote : Vote.t) : Prop := {
  vote_voters :
    forall voter target,
      In (voter, target) (Vote.votes vote) ->
      status room voter = Some false
      /\ status room target = Some false
      /\ voter <> target;
  vote_skippers :
    forall voter, In voter (Vote.skips vote) -> status room voter = Some false;
  vote_once : NoDup (JsMap.keys (Vote.votes vote) ++ Vote.skips vote)
}.

Record RoomInv (room : Room.t) : Prop := {
  inv_total : Room.totalRounds room = 1;
  inv_round : Room.currentRound room <= 1;
  inv_playing : Room.gameState room = Playing -> Room.currentRound room = 1;
  inv_size : JsMap.size (Room.players room) <= 6;
  inv_keys : NoDup (JsMap.keys (Room.players room));
  inv_lobby : Room.gameState room = Lobby -> Room.activeVote room = None;
  inv_vote : forall vote, Room.activeVote room = Some vote -> VoteOk room vote
}.

Definition StoreInv (rooms : Rooms) : Prop :=
  forall roomCode room, In (roomCode, room) rooms -> RoomInv room.

(* ------------------------------------------------------------------ *)
(** ** Lemmas on maps *)

Module JsMapFacts.

Import JsMap.

Lemma get_set_same {V} k (v : V) m : get k (set k v m) = Some v.
Proof.
  induction m as [|[k' v'] m IH]; simpl.
  - now rewrite String.eqb_refl.
  - destruct (String.eqb k k') eqn:E; simpl.
    + now rewrite String.eqb_refl.
    + now rewrite E.
Qed.

Lemma get_set_other {V} k k' (v : V) m :
  k <> k' -> get k (set k' v m) = get k m.
Proof.
  intros N. induction m as [|[k0 v0] m IH]; simpl.
  - destruct (String.eqb k k') eqn:E; [apply String.eqb_eq in E; easy | easy].
  - destruct (String.eqb k' k0) eqn:E0; simpl.
    + apply String.eqb_eq in E0; subst k0.
      destruct (String.eqb k k') eqn:E; [apply String.eqb_eq in E; easy | easy].
    + now rewrite IH.
Qed.

Lemma get_set {V} k k' (v : V) m :
  get k (set k' v m) = if String.eqb k k' then Some v else get k m.
Proof.
  destruct (String.eqb k k') eqn:E.
  - apply String.eqb_eq in E; subst; apply get_set_same.
  - apply String.eqb_neq in E. now apply get_set_other.
Qed.

Lemma set_set {V} k (v1 v2 : V) m : set k v2 (set k v1 m) = set k v2 m.
Proof.
  induction m as [|[k' v'] m IH]; simpl.
  - now rewrite String.eqb_refl.
  - destruct (String.eqb k k') eqn:E; simpl.
    + now rewrite String.eqb_refl.
    + now rewrite E, IH.
Qed.

Lemma get_In {V} k (v : V) m : get k m = Some v -> In (k, v) m.
Proof.
  induction m as [|[k' v'] m IH]; simpl; [discriminate|].
  destruct (String.eqb k k') eqn:E.
  - apply String.eqb_eq in E; subst. intros [= ->]. now left.
  - intros H; right; auto.
Qed.

Lemma In_set {V} k (v : V) m kv :
  In kv (set k v m) -> kv = (k, v) \/ In kv m.
Proof.
  induction m as [|[k' v'] m IH]; simpl.
  - intros [<-|[]]; now left.
  - destruct (String.eqb k k'); simpl.
    + intros [<-|H]; [now left | right; now right].
    + intros [<-|H]; [right; now left |].
      destruct (IH H) as [->|H']; [now left | right; now right].
Qed.

Lemma In_delete {V} k (m : t V) kv : In kv (delete k m) -> In kv m.
Proof.
  induction m as [|[k' v'] m IH]; simpl; [easy|].
  destruct (String.eqb k k'); simpl.
  - now right.
  - intros [<-|H]; [now left | right; auto].
Qed.

Lemma In_filter {V} f (m : t V) kv : In kv (filter f m) -> In kv m.
Proof. unfold filter. intros H. now apply filter_In in H. Qed.

Lemma keys_mapValues {V W} (f : V -> W) m : keys (mapValues f m) = keys m.
Proof.
  unfold keys, mapValues. rewrite map_map. now apply map_ext.
Qed.

Lemma get_mapValues {V W} (f : V -> W) k m :
  get k (mapValues f m) = option_map f (get k m).
Proof.
  induction m as [|[k' v'] m IH]; simpl; [easy|].
  now destruct (String.eqb k k').
Qed.

(** Writing [v'] under a key that holds [v] gives the same map back
    exactly when [v'] is [v]. *)
Lemma set_unchanged_iff {V} k (v v' : V) m :
  get k m = Some v -> (set k v' m = m <-> v' = v).
Proof.
  induction m as [|[k' w] m IH]; simpl; [discriminate|].
  destruct (String.eqb k k') eqn:E.
  - apply String.eqb_eq in E; subst k'. intros H.
    apply (f_equal (fun o => match o with Some x => x | None => v end)) in H.
    subst w. split.
    + intros H. apply (f_equal (fun l => match l with
                                         | (_, x) :: _ => x
                                         | [] => v
                                         end)) in H. exact H.
    + now intros ->.
  - intros G. split.
    + intros H. apply IH; [exact G|].
      apply (f_equal (@tl _)) in H. exact H.
    + intros ->. f_equal. now apply IH.
Qed.

End JsMapFacts.

(* ------------------------------------------------------------------ *)
(** ** Buzz *)

Section HandleBuzz.

Variables (rooms : Rooms) (roomCode playerId : string) (now : Z).
Variable room : Room.t.
Hypothesis Hroom : getRoom rooms roomCode = Some room.

Lemma handleBuzz_not_playing :
  isPlaying (Room.gameState room) = false ->
  handleBuzz rooms roomCode playerId now = (Null, rooms).
Proof.
  intros H. unfold handleBuzz. unfold getRoom in Hroom.
  now rewrite Hroom, H.
Qed.

Lemma handleBuzz_disabled player :
  isPlaying (Room.gameState room) = true ->
  JsMap.get playerId (Room.players room) = Some player ->
  Player.disabled player = true ->
  handleBuzz rooms roomCode playerId now
  = (Error "You are disabled and cannot buzz", rooms).
Proof.
  intros H Hp Hd. unfold handleBuzz. unfold getRoom in Hroom.
  now rewrite Hroom, H, Hp, Hd.
Qed.

Lemma handleBuzz_accepted player :
  isPlaying (Room.gameState room) = true ->
  JsMap.get playerId (Room.players room) = Some player ->
  Player.disabled player = false ->
  let room' :=
    Room.with_activeVote
      (Some (newVote playerId (Player.name player) now))
      (Room.with_buzzedPlayer (Some playerId) room) in
  handleBuzz rooms roomCode playerId now
  = (Ok room', JsMap.set roomCode room' rooms).
Proof.
  intros H Hp Hd. unfold handleBuzz. unfold getRoom in Hroom.
  now rewrite Hroom, H, Hp, Hd.
Qed.

End HandleBuzz.

Lemma handleBuzz_unknown_player rooms roomCode playerId now room :
  getRoom rooms roomCode = Some room ->
  isPlaying (Room.gameState room) = true ->
  JsMap.get playerId (Room.players room) = None ->
  handleBuzz rooms roomCode playerId now
  = (Throws,
     JsMap.set roomCode (Room.with_buzzedPlayer (Some playerId) room) rooms).
Proof.
  intros Hroom H Hp. unfold handleBuzz. unfold getRoom in Hroom.
  now rewrite Hroom, H, Hp.
Qed.

Lemma buzz_write_same (room : Room.t) buzzer vote :
  Room.with_activeVote vote (Room.with_buzzedPlayer buzzer room) = room
  <-> Room.buzzedPlayer room = buzzer /\ Room.activeVote room = vote.
Proof.
  destruct room. cbn. split.
  - intros H. split.
    + apply (f_equal Room.buzzedPlayer) in H. cbn in H. now symmetry.
    + apply (f_equal Room.activeVote) in H. cbn in H. now symmetry.
  - now intros [-> ->].
Qed.

Lemma buzzedPlayer_write_same (room : Room.t) buzzer :
  Room.with_buzzedPlayer buzzer room = room <-> Room.buzzedPlayer room = buzzer.
Proof.
  destruct room. cbn. split.
  - intros H. apply (f_equal Room.buzzedPlayer) in H. cbn in H. now symmetry.
  - now intros ->.
Qed.

(** C1, as the code has it: [handleBuzz] never looks at [activeVote].
    When the room is not playing the reply is [null], and when the buzzer
    is a disabled player of the room the reply is an error, the store
    unchanged in both cases.  In a playing room a buzz by an enabled
    player is accepted whether or not a vote is open: [buzzedPlayer]
    becomes the buzzer and [activeVote] a fresh vote of the buzzer with no
    votes and no skips, every other field of the room keeping its value.
    In a playing room a buzz under an id that is not in the room writes
    [buzzedPlayer] and then fails on the name of the player.  The store
    comes back unchanged exactly when the room is not playing, or the
    buzzer is a disabled player, or the writes store what is there
    already: [buzzedPlayer] is the buzzer and, for a player of the room,
    [activeVote] is that same fresh vote, start time included.  So an open
    vote that holds a vote or a skip is always lost to an accepted
    buzz. *)
Theorem handleBuzz_replaces_vote :
  forall rooms roomCode playerId now room,
    getRoom rooms roomCode = Some room ->
    (isPlaying (Room.gameState room) = false ->
     handleBuzz rooms roomCode playerId now = (Null, rooms))
    /\ (forall player,
          isPlaying (Room.gameState room) = true ->
          JsMap.get playerId (Room.players room) = Some player ->
          Player.disabled player = true ->
          exists msg, handleBuzz rooms roomCode playerId now = (Error msg, rooms))
    /\ (forall player,
          isPlaying (Room.gameState room) = true ->
          JsMap.get playerId (Room.players room) = Some player ->
          Player.disabled player = false ->
          exists room',
            handleBuzz rooms roomCode playerId now
            = (Ok room', JsMap.set roomCode room' rooms)
            /\ getRoom (JsMap.set roomCode room' rooms) roomCode = Some room'
            /\ Room.buzzedPlayer room' = Some playerId
            /\ Room.activeVote room'
               = Some (Vote.mk playerId (Player.name player) "vote_kick"
                               JsMap.empty JsSet.empty now 60000%Z)
            /\ Room.with_activeVote (Room.activeVote room)
                 (Room.with_buzzedPlayer (Room.buzzedPlayer room) room')
               = room)
    /\ (isPlaying (Room.gameState room) = true ->
        JsMap.get playerId (Room.players room) = None ->
        handleBuzz rooms roomCode playerId now
        = (Throws,
           JsMap.set roomCode (Room.with_buzzedPlayer (Some playerId) room)
                     rooms))
    /\ (snd (handleBuzz rooms roomCode playerId now) = rooms
        <-> isPlaying (Room.gameState room) = false
            \/ (exists player,
                   JsMap.get playerId (Room.players room) = Some player
                   /\ Player.disabled player = true)
            \/ (Room.buzzedPlayer room = Some playerId
                /\ forall player,
                     JsMap.get playerId (Room.players room) = Some player ->
                     Room.activeVote room
                     = Some (Vote.mk playerId (Player.name player) "vote_kick"
                                     JsMap.empty JsSet.empty now 60000%Z)))
    /\ (forall player vote,
          isPlaying (Room.gameState room) = true ->
          JsMap.get playerId (Room.players room) = Some player ->
          Player.disabled player = false ->
          Room.activeVote room = Some vote ->
          Vote.votes vote <> [] \/ Vote.skips vote <> [] ->
          snd (handleBuzz rooms roomCode playerId now) <> rooms).
Proof.
  intros rooms roomCode playerId now room Hroom.
  assert (Same :
    snd (handleBuzz rooms roomCode playerId now) = rooms
    <-> isPlaying (Room.gameState room) = false
        \/ (exists player,
               JsMap.get playerId (Room.players room) = Some player
               /\ Player.disabled player = true)
        \/ (Room.buzzedPlayer room = Some playerId
            /\ forall player,
                 JsMap.get playerId (Room.players room) = Some player ->
                 Room.activeVote room
                 = Some (Vote.mk playerId (Player.name player) "vote_kick"
                                 JsMap.empty JsSet.empty now 60000%Z))).
  { destruct (isPlaying (Room.gameState room)) eqn:G.
    - destruct (JsMap.get playerId (Room.players room)) as [player|] eqn:Hp.
      + destruct (Player.disabled player) eqn:Hd.
        * rewrite (handleBuzz_disabled rooms roomCode playerId now room Hroom
                     player G Hp Hd).
          split; [|reflexivity]. intros _. right. left. now exists player.
        * rewrite (handleBuzz_accepted rooms roomCode playerId now room Hroom
                     player G Hp Hd).
          cbn [snd]. unfold getRoom in Hroom.
          rewrite (JsMapFacts.set_unchanged_iff _ _ _ _ Hroom).
          rewrite buzz_write_same. unfold newVote. split.
          -- intros [B V]. right. right. split; [exact B|].
             intros player' E. apply (f_equal (fun o => match o with
                                                        | Some p => p
                                                        | None => player
                                                        end)) in E.
             subst player'. exact V.
          -- intros [F|[(player' & E & D)|[B V]]].
             ++ discriminate F.
             ++ apply (f_equal (fun o => match o with
                                         | Some p => p
                                         | None => player
                                         end)) in E.
                subst player'. rewrite Hd in D. discriminate D.
             ++ split; [exact B | now apply V].
      + rewrite (handleBuzz_unknown_player rooms roomCode playerId now room
                   Hroom G Hp).
        cbn [snd]. unfold getRoom in Hroom.
        rewrite (JsMapFacts.set_unchanged_iff _ _ _ _ Hroom).
        rewrite buzzedPlayer_write_same. split.
        * intros B. right. right. split; [exact B|]. intros player E.
          discriminate E.
        * intros [F|[(player' & E & _)|[B _]]];
            [discriminate F | discriminate E | exact B].
    - rewrite (handleBuzz_not_playing rooms roomCode playerId now room Hroom
                 G).
      split; [|reflexivity]. intros _. now left. }
  split; [now apply handleBuzz_not_playing|].
  split.
  { intros player H Hp Hd. eexists.
    now apply (handleBuzz_disabled rooms roomCode playerId now room Hroom player). }
  split.
  { intros player H Hp Hd. eexists. split; [|split; [|split; [|split]]].
    + now apply (handleBuzz_accepted rooms roomCode playerId now room Hroom player).
    + apply JsMapFacts.get_set_same.
    + reflexivity.
    + reflexivity.
    + now destruct room. }
  split; [now apply handleBuzz_unknown_player|].
  split; [exact Same|].
  intros player vote G Hp Hd V NE U.
  apply Same in U. destruct U as [F|[(player' & E & D)|[_ W]]].
  - rewrite G in F. discriminate F.
  - rewrite Hp in E.
    apply (f_equal (fun o => match o with Some p => p | None => player end)) in E.
    subst player'. rewrite Hd in D. discriminate D.
  - rewrite (W player Hp) in V.
    apply (f_equal (fun o => match o with Some v => v | None => vote end)) in V.
    subst vote. cbn in NE. destruct NE as [NE|NE]; now apply NE.
Qed.

Lemma handleBuzz_replaces_vote_witness :
  exists room',
    fst (handleBuzz Demo.oneVote "ABCD" "p3" 40000) = Ok room'
    /\ Room.buzzedPlayer room' = Some "p3"
    /\ Room.activeVote room'
       = Some (Vote.mk "p3" "Cy" "vote_kick" JsMap.empty JsSet.empty
                       40000%Z 60000%Z).
Proof.
  destruct (getRoom Demo.oneVote "ABCD") as [room|] eqn:Hroom;
    [|vm_compute in Hroom; discriminate].
  destruct (handleBuzz_replaces_vote Demo.oneVote "ABCD" "p3" 40000%Z room Hroom)
    as (_ & _ & Hok & _).
  destruct (JsMap.get "p3" (Room.players room)) as [player|] eqn:Hp;
    [|vm_compute in Hroom; injection Hroom as <-; vm_compute in Hp; discriminate].
  assert (Hname : Player.name player = "Cy").
  { vm_compute in Hroom. injection Hroom as <-. vm_compute in Hp.
    injection Hp as <-. reflexivity. }
  destruct (Hok player) as (room' & Heq & _ & Hb & Hv & _).
  - vm_compute in Hroom. injection Hroom as <-. reflexivity.
  - reflexivity.
  - vm_compute in Hroom. injection Hroom as <-. vm_compute in Hp.
    injection Hp as <-. reflexivity.
  - exists room'. rewrite Heq. rewrite Hname in Hv. auto.
Defined.

(** C1 as stated fails: in the demo game a vote is open and holds Cy's
    vote for Ann; Cy's buzz is accepted, the open vote is replaced by a
    fresh one and Cy's vote is gone. *)
Lemma handleBuzz_open_vote_not_noop :
  (exists room vote,
      getRoom Demo.oneVote "ABCD" = Some room
      /\ Room.activeVote room = Some vote
      /\ Vote.initiatorId vote = "p2"
      /\ Vote.votes vote = [("p3", "p1")])
  /\ (exists room' vote',
        handleBuzz Demo.oneVote "ABCD" "p3" 40000
        = (Ok room', JsMap.set "ABCD" room' Demo.oneVote)
        /\ snd (handleBuzz Demo.oneVote "ABCD" "p3" 40000) <> Demo.oneVote
        /\ Room.activeVote room' = Some vote'
        /\ Vote.initiatorId vote' = "p3"
        /\ Vote.votes vote' = []
        /\ Room.buzzedPlayer room' = Some "p3").
Proof.
  split.
  - do 2 eexists. vm_compute. repeat split; reflexivity.
  - do 2 eexists. split; [vm_compute; reflexivity|].
    split; [vm_compute; discriminate|].
    vm_compute. repeat split; reflexivity.
Qed.

(* ------------------------------------------------------------------ *)
(** ** Casting a vote *)

Lemma JsSet_has_add k s : JsSet.has k (JsSet.add k s) = true.
Proof.
  unfold JsSet.add. destruct (JsSet.has k s) eqn:E; [exact E|].
  unfold JsSet.has. rewrite existsb_app. simpl.
  rewrite String.eqb_refl. now rewrite orb_true_r.
Qed.

Lemma JsMap_has_set {V} k (v : V) m : JsMap.has k (JsMap.set k v m) = true.
Proof. unfold JsMap.has. now rewrite JsMapFacts.get_set_same. Qed.

Ltac break_match :=
  match goal with
  | |- context [match ?x with _ => _ end] => destruct x eqn:?
  end.

Ltac bool_facts :=
  repeat match goal with
  | H : (_ =? _)%string = true |- _ => apply String.eqb_eq in H
  | H : (_ =? _)%string = false |- _ => apply String.eqb_neq in H
  | H : negb _ = false |- _ => apply negb_false_iff in H
  | H : negb _ = true |- _ => apply negb_true_iff in H
  | H : (_ || _) = false |- _ => apply orb_false_iff in H as [? ?]
  | H : (_ && _) = true |- _ => apply andb_true_iff in H as [? ?]
  end.

Lemma castBuzzVote_refused rooms roomCode voterId targetVoteId room :
  getRoom rooms roomCode = Some room ->
  Refused room voterId targetVoteId ->
  exists msg,
    castBuzzVote rooms roomCode voterId targetVoteId = (Error msg, rooms).
Proof.
  unfold getRoom, castBuzzVote. intros Hroom R. rewrite Hroom.
  repeat break_match; try (eexists; reflexivity); exfalso; bool_facts;
    destruct R as [R1 | R1 | voter' R1 R2 | vote' R1 R2 | Rs R1
                  | target Rs R1 R2 | Rs R1];
    unfold JsMap.has in *;
    repeat match goal with
           | H : context [JsMap.get ?k ?m], E : JsMap.get ?k ?m = _ |- _ =>
               rewrite E in H
           end;
    try congruence;
    try match goal with
        | A : Room.activeVote ?r = Some ?a, B : Room.activeVote ?r = Some ?b
          |- _ =>
            assert (a = b) by congruence; subst; destruct R2; congruence
        end.
Qed.

Lemma castBuzzVote_twice rooms roomCode voterId targetVoteId vote allVoted rooms' :
  castBuzzVote rooms roomCode voterId targetVoteId = (Ok (vote, allVoted), rooms') ->
  forall targetVoteId',
    castBuzzVote rooms' roomCode voterId targetVoteId'
    = (Error "You have already voted", rooms').
Proof.
  unfold castBuzzVote at 1.
  repeat break_match; intros H target'; try discriminate H;
    injection H as <- <- <-;
    unfold castBuzzVote; rewrite JsMapFacts.get_set_same; simpl;
    repeat match goal with
           | E : _ = _ |- _ => rewrite E
           end; simpl.
  - now rewrite JsSet_has_add, orb_true_r.
  - now rewrite JsMap_has_set.
Qed.

(** C6: [castBuzzVote] answers with an error and leaves the store of
    rooms, hence the tallies and every other field, as it was when no vote
    is open, the voter is not in the room, the voter is disabled, the voter
    already has an entry in [votes] or [skips], or, for a vote that is not
    a skip, the target is not in the room, is disabled, or is the voter.
    After an accepted vote or skip, any further vote or skip of the same
    voter is answered "You have already voted" and changes nothing. *)
Theorem castBuzzVote_rejections :
  forall rooms roomCode voterId targetVoteId room,
    getRoom rooms roomCode = Some room ->
    (Refused room voterId targetVoteId ->
     exists msg,
       castBuzzVote rooms roomCode voterId targetVoteId = (Error msg, rooms))
    /\ (forall vote allVoted rooms',
          castBuzzVote rooms roomCode voterId targetVoteId
          = (Ok (vote, allVoted), rooms') ->
          forall targetVoteId',
            castBuzzVote rooms' roomCode voterId targetVoteId'
            = (Error "You have already voted", rooms')).
Proof.
  intros rooms roomCode voterId targetVoteId room Hroom. split.
  - now apply castBuzzVote_refused.
  - intros vote allVoted rooms'. apply castBuzzVote_twice.
Qed.

Lemma castBuzzVote_rejections_witness :
  (exists msg,
      castBuzzVote Demo.oneVote "ABCD" "p2" "p2" = (Error msg, Demo.oneVote))
  /\ (forall targetVoteId',
        castBuzzVote (snd (castBuzzVote Demo.buzzed "ABCD" "p3" "p1"))
                     "ABCD" "p3" targetVoteId'
        = (Error "You have already voted",
           snd (castBuzzVote Demo.buzzed "ABCD" "p3" "p1"))).
Proof.
  split.
  - apply (castBuzzVote_rejections Demo.oneVote "ABCD" "p2" "p2"
             (Demo.theRoom Demo.oneVote)).
    + vm_compute. reflexivity.
    + apply SelfVote; [discriminate | reflexivity].
  - assert (H : exists vote allVoted rooms',
               castBuzzVote Demo.buzzed "ABCD" "p3" "p1"
               = (Ok (vote, allVoted), rooms')).
    { do 3 eexists. vm_compute. reflexivity. }
    destruct H as (vote & allVoted & rooms' & H). rewrite H. cbn [snd].
    assert (G : getRoom Demo.buzzed "ABCD" = Some (Demo.theRoom Demo.buzzed))
      by (vm_compute; reflexivity).
    apply (proj2 (castBuzzVote_rejections Demo.buzzed "ABCD" "p3" "p1"
                    (Demo.theRoom Demo.buzzed) G)
             vote allVoted rooms' H).
Defined.

(* ------------------------------------------------------------------ *)
(** ** Win evaluation *)

Lemma playerEnabled_spec room k :
  playerEnabled room k = true <->
  exists playerId player,
    k = Some playerId
    /\ JsMap.get playerId (Room.players room) = Some player
    /\ Player.disabled player = false.
Proof.
  unfold playerEnabled, hasOpt, getOpt, JsMap.has. split.
  - destruct k as [playerId|]; [|discriminate].
    destruct (JsMap.get playerId (Room.players room)) as [player|] eqn:E;
      [|discriminate].
    simpl. intros H. apply negb_true_iff in H.
    exists playerId, player. auto.
  - intros (playerId & player & -> & -> & ->). reflexivity.
Qed.

Lemma playerEnabled_false room playerId :
  playerEnabled room (Some playerId) = false <->
  JsMap.get playerId (Room.players room) = None
  \/ exists player,
       JsMap.get playerId (Room.players room) = Some player
       /\ Player.disabled player = true.
Proof.
  unfold playerEnabled, hasOpt, getOpt, JsMap.has.
  destruct (JsMap.get playerId (Room.players room)) as [player|]; simpl.
  - rewrite negb_false_iff. split.
    + intros H. right. eauto.
    + intros [H | (p & [= <-] & H)]; [discriminate | exact H].
  - split; [now left | reflexivity].
Qed.

Lemma filter_nil_iff {A} (f : A -> bool) l :
  List.length (List.filter f l) = 0 <-> forall x, In x l -> f x = false.
Proof.
  induction l as [|a l IH]; simpl.
  - split; [intros _ x [] | reflexivity].
  - destruct (f a) eqn:E; simpl.
    + split; [discriminate |]. intros H. specialize (H a (or_introl eq_refl)).
      congruence.
    + rewrite IH. split.
      * intros H x [<-|Hx]; auto.
      * intros H x Hx. apply H. now right.
Qed.

(** C7: [checkBuggerWin] answers true exactly when the bugger is in the
    room and enabled, and either every debugger is disabled or gone from
    the room, or exactly two enabled players are left; so with two enabled
    players left, one of them the bugger, it answers true. *)
Theorem checkBuggerWin_iff :
  forall room,
    let buggerEnabled :=
      exists b player,
        Room.bugger room = Some b
        /\ JsMap.get b (Room.players room) = Some player
        /\ Player.disabled player = false in
    let debuggersOut :=
      forall d, In d (Room.debuggers room) ->
        JsMap.get d (Room.players room) = None
        \/ exists player,
             JsMap.get d (Room.players room) = Some player
             /\ Player.disabled player = true in
    let twoLeft :=
      List.length
        (List.filter (fun p => negb (Player.disabled p))
                     (JsMap.values (Room.players room))) = 2 in
    (checkBuggerWin room = true <-> buggerEnabled /\ (debuggersOut \/ twoLeft))
    /\ (buggerEnabled -> twoLeft -> checkBuggerWin room = true).
Proof.
  intros room buggerEnabled debuggersOut twoLeft.
  assert (Hb : playerEnabled room (Room.bugger room) = true <-> buggerEnabled).
  { apply playerEnabled_spec. }
  assert (Hd : List.length
                 (List.filter (fun id => playerEnabled room (Some id))
                              (Room.debuggers room)) = 0 <-> debuggersOut).
  { rewrite filter_nil_iff. unfold debuggersOut. split; intros H d Hin.
    - apply playerEnabled_false. auto.
    - apply playerEnabled_false. auto. }
  assert (Hiff : checkBuggerWin room = true
                 <-> buggerEnabled /\ (debuggersOut \/ twoLeft)).
  { unfold checkBuggerWin. fold (enabledPlayers room).
    destruct (playerEnabled room (Room.bugger room)) eqn:Eb.
    - rewrite !andb_true_r.
      destruct (List.length
                  (List.filter (fun id => playerEnabled room (Some id))
                               (Room.debuggers room)) =? 0) eqn:E0.
      + apply Nat.eqb_eq in E0. split; [|reflexivity].
        intros _. split; [now apply Hb | left; now apply Hd].
      + apply Nat.eqb_neq in E0.
        destruct (List.length (enabledPlayers room) =? 2) eqn:E2.
        * apply Nat.eqb_eq in E2. split; [|reflexivity].
          intros _. split; [now apply Hb | now right].
        * apply Nat.eqb_neq in E2. split; [discriminate|].
          intros [_ [H|H]]; [apply Hd in H; contradiction | contradiction].
    - rewrite !andb_false_r. split; [discriminate|].
      intros [H _]. apply Hb in H. discriminate. }
  split; [exact Hiff|].
  intros H1 H2. apply Hiff. auto.
Qed.

Lemma checkBuggerWin_iff_witness :
  checkBuggerWin (Demo.theRoom Demo.bobOut) = true.
Proof.
  apply (proj2 (checkBuggerWin_iff (Demo.theRoom Demo.bobOut))).
  - exists "p1", (Player.mk "p1" "Ann" true false (Some Bugger) false).
    vm_compute. repeat split; reflexivity.
  - vm_compute. reflexivity.
Defined.

(* ------------------------------------------------------------------ *)
(** ** End of the last round *)

Lemma finalVerdict_no_code newFunction room :
  finalVerdict newFunction None room
  = Room.with_winReason (Some "Fixers win! All bugs resolved!")
      (Room.with_winner (Some "debuggers")
         (Room.with_gameState Results room)).
Proof. reflexivity. Qed.

(** C9: on the last round, [endRound] called without a code snapshot runs
    neither the two signature checks nor the syntax check: whatever the
    parser would say and whatever code the room holds, the game goes to
    the results with winner "debuggers" and the reason
    "Fixers win! All bugs resolved!", nothing else in the room changing. *)
Theorem endRound_without_snapshot :
  forall newFunction rooms roomCode room shuffled picks now,
    getRoom rooms roomCode = Some room ->
    Room.totalRounds room <= Room.currentRound room ->
    exists room',
      endRound newFunction rooms roomCode None shuffled picks now
      = (Ok room', JsMap.set roomCode room' rooms)
      /\ Room.gameState room' = Results
      /\ Room.winner room' = Some "debuggers"
      /\ Room.winReason room' = Some "Fixers win! All bugs resolved!"
      /\ room' = Room.with_winReason (Room.winReason room')
                   (Room.with_winner (Room.winner room')
                      (Room.with_gameState Results room)).
Proof.
  intros newFunction rooms roomCode room shuffled picks now Hroom Hlast.
  unfold endRound. unfold getRoom in Hroom. rewrite Hroom.
  apply Nat.leb_le in Hlast. rewrite Hlast.
  eexists. split; [reflexivity|]. rewrite finalVerdict_no_code.
  repeat split.
Qed.

Lemma endRound_without_snapshot_witness :
  exists room',
    fst (endRound (fun _ => Some "Unexpected token") Demo.started "ABCD" None
                  [] [] 91000)
    = Ok room'
    /\ Room.winner room' = Some "debuggers"
    /\ Room.winReason room' = Some "Fixers win! All bugs resolved!".
Proof.
  destruct (endRound_without_snapshot (fun _ => Some "Unexpected token")
              Demo.started "ABCD" (Demo.theRoom Demo.started) [] [] 91000%Z)
    as (room' & Heq & _ & Hw & Hr & _).
  - vm_compute. reflexivity.
  - vm_compute. lia.
  - exists room'. rewrite Heq. auto.
Defined.

(* ------------------------------------------------------------------ *)
(** ** Play again *)

(** C10: [resetGame] puts the room back in the lobby with round 0 and
    clears the round start time, the code, the roles, the buzz, the vote
    and the verdict; every player is unready, without role and enabled
    again; the members of the room, their ids, names and host flags, and
    the host of the room stay as they were. *)
Theorem resetGame_frame :
  forall rooms roomCode room,
    getRoom rooms roomCode = Some room ->
    exists room',
      resetGame rooms roomCode = (Some room', JsMap.set roomCode room' rooms)
      /\ getRoom (JsMap.set roomCode room' rooms) roomCode = Some room'
      /\ Room.gameState room' = Lobby
      /\ Room.currentRound room' = 0
      /\ Room.roundStartTime room' = NoStart
      /\ Room.currentCode room' = None
      /\ Room.bugger room' = None
      /\ Room.debuggers room' = []
      /\ Room.buzzedPlayer room' = None
      /\ Room.activeVote room' = None
      /\ Room.winner room' = None
      /\ Room.winReason room' = None
      /\ Room.hostId room' = Room.hostId room
      /\ JsMap.keys (Room.players room') = JsMap.keys (Room.players room)
      /\ (forall k,
            match JsMap.get k (Room.players room),
                  JsMap.get k (Room.players room') with
            | Some p, Some p' =>
                Player.isReady p' = false
                /\ Player.role p' = None
                /\ Player.disabled p' = false
                /\ Player.id p' = Player.id p
                /\ Player.name p' = Player.name p
                /\ Player.isHost p' = Player.isHost p
            | None, None => True
            | _, _ => False
            end).
Proof.
  intros rooms roomCode room Hroom.
  unfold resetGame. unfold getRoom in Hroom. rewrite Hroom.
  eexists. split; [reflexivity|].
  split; [apply JsMapFacts.get_set_same|].
  repeat (split; [reflexivity|]).
  split; [apply JsMapFacts.keys_mapValues|].
  intros k. simpl. rewrite JsMapFacts.get_mapValues.
  destruct (JsMap.get k (Room.players room)); simpl; auto.
  repeat split.
Qed.

Lemma resetGame_frame_witness :
  exists room',
    fst (resetGame Demo.bobOut "ABCD") = Some room'
    /\ Room.gameState room' = Lobby
    /\ JsMap.keys (Room.players room') = ["p1"; "p2"; "p3"]
    /\ (exists p, JsMap.get "p2" (Room.players room') = Some p
                  /\ Player.disabled p = false).
Proof.
  destruct (resetGame_frame Demo.bobOut "ABCD" (Demo.theRoom Demo.bobOut))
    as (room' & Heq & _ & Hg & _ & _ & _ & _ & _ & _ & _ & _ & _ & _ & Hk & Hp).
  - vm_compute. reflexivity.
  - exists room'. rewrite Heq. repeat split; auto.
    specialize (Hp "p2").
    destruct (JsMap.get "p2" (Room.players room')) as [p'|] eqn:E.
    + exists p'. split; [reflexivity|].
      destruct (JsMap.get "p2" (Room.players (Demo.theRoom Demo.bobOut)));
        [tauto | contradiction].
    + exfalso.
      destruct (JsMap.get "p2" (Room.players (Demo.theRoom Demo.bobOut))) eqn:E';
        [exact Hp | vm_compute in E'; discriminate].
Defined.

(* ------------------------------------------------------------------ *)
(** ** The tally of a vote *)

Module TallyFacts.

Import JsMap JsMapFacts.

Lemma In_keys_set {V} k (v : V) m k' :
  In k' (keys (set k v m)) <-> k' = k \/ In k' (keys m).
Proof.
  induction m as [|[k0 v0] m IH]; simpl.
  - intuition.
  - destruct (String.eqb k k0) eqn:E; simpl.
    + apply String.eqb_eq in E; subst k0. intuition.
    + rewrite IH. intuition.
Qed.

Lemma NoDup_keys_set {V} k (v : V) m :
  NoDup (keys m) -> NoDup (keys (set k v m)).
Proof.
  induction m as [|[k0 v0] m IH]; simpl; intros N.
  - constructor; [easy | constructor].
  - inversion N as [|? ? Hn N']; subst.
    destruct (String.eqb k k0) eqn:E; simpl.
    + apply String.eqb_eq in E; subst k0. now constructor.
    + apply String.eqb_neq in E. constructor; [|now apply IH].
      rewrite In_keys_set. intros [->|H]; [now apply E | now apply Hn].
Qed.

Lemma In_get {V} k (v : V) m :
  NoDup (keys m) -> In (k, v) m -> get k m = Some v.
Proof.
  induction m as [|[k0 v0] m IH]; simpl; intros N; [easy|].
  inversion N as [|? ? Hn N']; subst.
  intros [[= -> ->]|H].
  - now rewrite String.eqb_refl.
  - destruct (String.eqb k k0) eqn:E; [|now apply IH].
    apply String.eqb_eq in E; subst k0. exfalso. apply Hn.
    unfold keys. change k with (fst (k, v)). now apply in_map.
Qed.

Lemma countOf_bump m x t :
  countOf (bump m x) t = countOf m t + (if string_dec x t then 1 else 0).
Proof.
  unfold countOf, bump. rewrite get_set.
  destruct (string_dec x t) as [->|N].
  - rewrite String.eqb_refl. reflexivity.
  - destruct (String.eqb t x) eqn:E.
    + apply String.eqb_eq in E. congruence.
    + lia.
Qed.

Lemma countOf_fold l : forall m t,
  countOf (fold_left bump l m) t = countOf m t + count_occ string_dec l t.
Proof.
  induction l as [|x l IH]; intros m t; simpl; [lia|].
  rewrite IH, countOf_bump. destruct (string_dec x t); lia.
Qed.

Lemma NoDup_fold l : forall m,
  NoDup (keys m) -> NoDup (keys (fold_left bump l m)).
Proof.
  induction l as [|x l IH]; intros m N; simpl; [exact N|].
  apply IH. now apply NoDup_keys_set.
Qed.

Lemma positive_fold l : forall m,
  (forall k n, In (k, n) m -> 0 < n) ->
  forall k n, In (k, n) (fold_left bump l m) -> 0 < n.
Proof.
  induction l as [|x l IH]; intros m P; simpl; [exact P|].
  apply IH. intros k n H. apply In_set in H as [[= -> ->]|H].
  - lia.
  - eauto.
Qed.

Lemma countVotes_fold targets : countVotes targets = fold_left bump targets empty.
Proof. reflexivity. Qed.

Lemma NoDup_countVotes targets : NoDup (keys (countVotes targets)).
Proof. rewrite countVotes_fold. apply NoDup_fold. constructor. Qed.

(** The entries of the count map are the targets that received a vote,
    each with the number of its votes. *)
Lemma In_countVotes targets t n :
  In (t, n) (countVotes targets)
  <-> n = count_occ string_dec targets t /\ 0 < n.
Proof.
  split.
  - intros H. split.
    + pose proof (In_get _ _ _ (NoDup_countVotes targets) H) as G.
      pose proof (countOf_fold targets empty t) as C.
      rewrite <- countVotes_fold in C. unfold countOf in C.
      rewrite G in C. simpl in C. exact C.
    + rewrite countVotes_fold in H.
      apply (positive_fold targets empty) in H; [exact H|].
      intros k m [].
  - intros [-> P].
    pose proof (countOf_fold targets empty t) as C.
    rewrite <- countVotes_fold in C. unfold countOf in C. simpl in C.
    destruct (get t (countVotes targets)) as [n|] eqn:G; [|lia].
    subst n. now apply get_In.
Qed.

Lemma countVotes_nil targets : countVotes targets = [] <-> targets = [].
Proof.
  split; [|now intros ->].
  destruct targets as [|x l]; [reflexivity|]. intros E. exfalso.
  assert (H : In (x, count_occ string_dec (x :: l) x) (countVotes (x :: l))).
  { apply In_countVotes. split; [reflexivity|].
    apply count_occ_In. now left. }
  rewrite E in H. exact H.
Qed.

(** One turn of the second loop keeps [TallyOf]. *)
Lemma TallyOf_step l s k n :
  TallyOf l s -> ~ In k (keys l) -> 0 < n ->
  TallyOf (l ++ [(k, n)]) (Tally.step s (k, n)).
Proof.
  intros [Hmax Hord Hempty Hlead Hoth Hsec] Hk Hn.
  assert (Hfresh : forall n', ~ In (k, n') l).
  { intros n' H. apply Hk. unfold keys. change k with (fst (k, n')).
    now apply in_map. }
  assert (Hkick : forall k', Tally.playerToKick s = Some k' -> k' <> k).
  { intros k' E ->. destruct l as [|e l'].
    - rewrite (Hempty eq_refl) in E. discriminate.
    - destruct Hlead as (k0 & E0 & H0 & _); [discriminate|].
      rewrite E in E0. injection E0 as <-. now apply (Hfresh _ H0). }
  unfold Tally.step.
  destruct (Tally.maxVotes s <? n) eqn:E1;
    [apply Nat.ltb_lt in E1 | apply Nat.ltb_ge in E1;
     destruct (Tally.secondMaxVotes s <? n) eqn:E2;
     [apply Nat.ltb_lt in E2 | apply Nat.ltb_ge in E2]];
    constructor; simpl.
  (* a new leader *)
  - intros k' n' H. apply in_app_or in H as [H|[[= <- <-]|[]]]; [|lia].
    apply Hmax in H. lia.
  - lia.
  - intros E. now destruct l.
  - intros _. exists k. repeat split; [|lia].
    apply in_or_app. right. now left.
  - intros k' n' H Hne. apply in_app_or in H as [H|[[= <- <-]|[]]].
    + now apply Hmax in H.
    + congruence.
  - destruct l as [|e l'].
    + left. now rewrite (Hempty eq_refl).
    + destruct Hlead as (k0 & E0 & H0 & _); [discriminate|].
      right. exists k0. split.
      * intros [= ->]. now apply (Hfresh _ H0).
      * apply in_or_app. now left.
  (* a new runner-up *)
  - intros k' n' H. apply in_app_or in H as [H|[[= <- <-]|[]]]; [|lia].
    now apply Hmax in H.
  - lia.
  - intros E. now destruct l.
  - intros _. destruct l as [|e l'].
    + rewrite (Hempty eq_refl) in E1, E2. simpl in E1, E2. lia.
    + destruct Hlead as (k0 & E0 & H0 & P0); [discriminate|].
      exists k0. repeat split; [exact E0| |exact P0].
      apply in_or_app. now left.
  - intros k' n' H Hne. apply in_app_or in H as [H|[[= <- <-]|[]]]; [|lia].
    apply (Hoth _ _ H) in Hne. lia.
  - right. exists k. split.
    + intros E. now apply (Hkick k).
    + apply in_or_app. right. now left.
  (* neither *)
  - intros k' n' H. apply in_app_or in H as [H|[[= <- <-]|[]]]; [|lia].
    now apply Hmax in H.
  - exact Hord.
  - intros E. now destruct l.
  - intros _. destruct l as [|e l'].
    + rewrite (Hempty eq_refl) in E1. simpl in E1. lia.
    + destruct Hlead as (k0 & E0 & H0 & P0); [discriminate|].
      exists k0. repeat split; [exact E0| |exact P0].
      apply in_or_app. now left.
  - intros k' n' H Hne. apply in_app_or in H as [H|[[= <- <-]|[]]]; [|lia].
    now apply (Hoth _ _ H).
  - destruct Hsec as [Z|(k0 & N0 & H0)]; [now left|].
    right. exists k0. split; [exact N0|]. apply in_or_app. now left.
Qed.

Lemma TallyOf_run l :
  NoDup (keys l) -> (forall k n, In (k, n) l -> 0 < n) ->
  TallyOf l (Tally.run l).
Proof.
  induction l as [|[k n] l IH] using rev_ind; intros N P.
  - constructor; simpl; try easy; try lia.
  - unfold Tally.run. rewrite fold_left_app. simpl.
    unfold keys in N. rewrite map_app in N. simpl in N.
    apply NoDup_remove in N as [N Hk]. rewrite app_nil_r in N, Hk.
    apply TallyOf_step.
    + apply IH; [exact N|]. intros k' n' H. apply (P k' n').
      apply in_or_app. now left.
    + exact Hk.
    + apply (P k n). apply in_or_app. right. now left.
Qed.

End TallyFacts.

Lemma tallyOf_spec vote :
  TallyOf (countVotes (JsMap.values (Vote.votes vote))) (tallyOf vote).
Proof.
  apply TallyFacts.TallyOf_run.
  - apply TallyFacts.NoDup_countVotes.
  - intros k n H. now apply TallyFacts.In_countVotes in H.
Qed.

Lemma votesFor_entry vote target :
  0 < votesFor vote target ->
  In (target, votesFor vote target)
     (countVotes (JsMap.values (Vote.votes vote))).
Proof. intros H. apply TallyFacts.In_countVotes. now split. Qed.

Lemma entry_votesFor vote target n :
  In (target, n) (countVotes (JsMap.values (Vote.votes vote))) ->
  n = votesFor vote target /\ 0 < n.
Proof. intros H. now apply TallyFacts.In_countVotes in H. Qed.

Lemma votesFor_le_max vote target :
  votesFor vote target <= Tally.maxVotes (tallyOf vote).
Proof.
  destruct (Nat.eq_dec (votesFor vote target) 0) as [->|N]; [lia|].
  apply (tally_max _ _ (tallyOf_spec vote) target).
  apply votesFor_entry. lia.
Qed.

Lemma no_votes_tally vote :
  JsMap.size (Vote.votes vote) = 0 -> tallyOf vote = Tally.init.
Proof.
  intros H. apply (tally_empty _ _ (tallyOf_spec vote)).
  apply TallyFacts.countVotes_nil. unfold JsMap.size in H.
  destruct (Vote.votes vote); [reflexivity | discriminate].
Qed.

Lemma some_votes_leader vote :
  0 < JsMap.size (Vote.votes vote) ->
  exists target,
    Tally.playerToKick (tallyOf vote) = Some target
    /\ votesFor vote target = Tally.maxVotes (tallyOf vote)
    /\ 0 < Tally.maxVotes (tallyOf vote).
Proof.
  intros H.
  destruct (tally_leader _ _ (tallyOf_spec vote)) as (k & E & Hin & P).
  - rewrite TallyFacts.countVotes_nil. unfold JsMap.size in H.
    destruct (Vote.votes vote); [simpl in H; lia | discriminate].
  - exists k. apply entry_votesFor in Hin as [Emax _].
    repeat split; [exact E | now rewrite <- Emax | exact P].
Qed.

Lemma clear_iff vote :
  Tally.clear (tallyOf vote) = true <->
  exists target,
    0 < votesFor vote target
    /\ forall other, other <> target ->
                     votesFor vote other < votesFor vote target.
Proof.
  pose proof (tallyOf_spec vote) as T. unfold Tally.clear.
  rewrite andb_true_iff, !Nat.ltb_lt. split.
  - intros [Hpos Hlt].
    destruct (tally_leader _ _ T) as (k & E & Hin & _).
    { intros E. rewrite (tally_empty _ _ T E) in Hpos. simpl in Hpos. lia. }
    apply entry_votesFor in Hin as [Emax _].
    exists k. split; [lia|]. intros other Hne.
    destruct (Nat.eq_dec (votesFor vote other) 0) as [Z|N]; [lia|].
    assert (H : votesFor vote other <= Tally.secondMaxVotes (tallyOf vote)).
    { apply (tally_others _ _ T other); [apply votesFor_entry; lia|].
      rewrite E. congruence. }
    lia.
  - intros (target & Hpos & Hothers).
    destruct (tally_leader _ _ T) as (k & E & Hin & P).
    { intros E. apply votesFor_entry in Hpos. now rewrite E in Hpos. }
    apply entry_votesFor in Hin as [Emax _].
    assert (k = target) as ->.
    { destruct (string_dec k target) as [e|N]; [exact e|].
      pose proof (Hothers k N). pose proof (votesFor_le_max vote target). lia. }
    split; [exact P|].
    destruct (tally_second _ _ T) as [Z|(k' & N' & Hin')]; [lia|].
    apply entry_votesFor in Hin' as [E2 _].
    assert (k' <> target) by (rewrite E in N'; congruence).
    pose proof (Hothers k' H). lia.
Qed.

(** C3: for a room with an open vote, [getBuzzVoteResult] answers with
    [maxVotes] the highest number of votes a target received (0 without
    votes) and [hasClearMajority = (maxVotes > 0 && maxVotes >
    secondMaxVotes)], [secondMaxVotes] being the highest count among the
    other targets; [hasClearMajority] is true exactly when one target has
    more votes than every other target, hence false when no vote names a
    target and false when two targets share the highest count. *)
Theorem getBuzzVoteResult_majority :
  forall room vote,
    Room.activeVote room = Some vote ->
    exists result,
      getBuzzVoteResult room = Some result
      /\ VoteResult.maxVotes result = Tally.maxVotes (tallyOf vote)
      /\ (forall target, votesFor vote target <= VoteResult.maxVotes result)
      /\ (0 < JsMap.size (Vote.votes vote) ->
          exists target, votesFor vote target = VoteResult.maxVotes result)
      /\ (JsMap.size (Vote.votes vote) = 0 -> VoteResult.maxVotes result = 0)
      /\ (forall other,
            VoteResult.playerToKick result <> Some other ->
            votesFor vote other <= Tally.secondMaxVotes (tallyOf vote))
      /\ (Tally.secondMaxVotes (tallyOf vote) = 0
          \/ exists other,
               VoteResult.playerToKick result <> Some other
               /\ votesFor vote other = Tally.secondMaxVotes (tallyOf vote))
      /\ VoteResult.hasClearMajority result
         = ((0 <? VoteResult.maxVotes result)
            && (Tally.secondMaxVotes (tallyOf vote)
                <? VoteResult.maxVotes result))
      /\ VoteResult.shouldKick result = VoteResult.hasClearMajority result
      /\ (VoteResult.hasClearMajority result = true <->
          exists target,
            0 < votesFor vote target
            /\ forall other, other <> target ->
                             votesFor vote other < votesFor vote target)
      /\ (JsMap.size (Vote.votes vote) = 0 ->
          VoteResult.hasClearMajority result = false)
      /\ (forall a b,
            a <> b ->
            votesFor vote a = VoteResult.maxVotes result ->
            votesFor vote b = VoteResult.maxVotes result ->
            VoteResult.hasClearMajority result = false).
Proof.
  intros room vote Hvote. unfold getBuzzVoteResult. rewrite Hvote.
  eexists. split; [reflexivity|]. simpl. fold (tallyOf vote).
  pose proof (tallyOf_spec vote) as T.
  split; [reflexivity|].
  split; [apply votesFor_le_max|].
  split.
  { intros H. destruct (some_votes_leader vote H) as (k & _ & E & _). eauto. }
  split.
  { intros H. now rewrite (no_votes_tally vote H). }
  split.
  { intros other Hne.
    destruct (Nat.eq_dec (votesFor vote other) 0) as [Z|N]; [lia|].
    apply (tally_others _ _ T other); [apply votesFor_entry; lia | exact Hne]. }
  split.
  { destruct (tally_second _ _ T) as [Z|(k & N & Hin)]; [now left|].
    right. exists k. split; [exact N|].
    apply entry_votesFor in Hin as [E _]. now rewrite <- E. }
  split; [reflexivity|].
  split; [reflexivity|].
  split; [apply clear_iff|].
  split.
  { intros H. now rewrite (no_votes_tally vote H). }
  intros a b Hne Ha Hb.
  destruct (Tally.clear (tallyOf vote)) eqn:C; [|reflexivity].
  apply clear_iff in C as (target & Hpos & Hothers).
  pose proof (votesFor_le_max vote target).
  destruct (string_dec a target) as [->|Na].
  - pose proof (Hothers b (not_eq_sym Hne)). lia.
  - pose proof (Hothers a Na). lia.
Qed.

(** The scenario of C3 on the demo game: three enabled players, Cy votes
    for Ann, Ann votes for Bob, Bob skips. *)
Lemma getBuzzVoteResult_majority_witness :
  let rooms := snd (castBuzzVote Demo.twoVotes "ABCD" "p2" "skip") in
  let room := Demo.theRoom rooms in
  List.length (enabledPlayers room) = 3
  /\ exists vote result,
       Room.activeVote room = Some vote
       /\ Vote.votes vote = [("p3", "p1"); ("p1", "p2")]
       /\ Vote.skips vote = ["p2"]
       /\ getBuzzVoteResult room = Some result
       /\ VoteResult.maxVotes result = 1
       /\ Tally.secondMaxVotes (tallyOf vote) = 1
       /\ VoteResult.hasClearMajority result = false.
Proof.
  intros rooms room. split; [vm_compute; reflexivity|].
  destruct (Room.activeVote room) as [vote|] eqn:Hvote;
    [|vm_compute in Hvote; discriminate].
  assert (Hv : vote = Vote.mk "p2" "Bob" "vote_kick"
                        [("p3", "p1"); ("p1", "p2")] ["p2"] 31000 60000).
  { vm_compute in Hvote. now injection Hvote as <-. }
  destruct (getBuzzVoteResult_majority room vote Hvote)
    as (result & Hres & Hmax & _ & _ & _ & _ & _ & _ & _ & _ & _ & Htie).
  exists vote, result. repeat split.
  - now rewrite Hv.
  - now rewrite Hv.
  - exact Hres.
  - rewrite Hmax, Hv. vm_compute. reflexivity.
  - rewrite Hv. vm_compute. reflexivity.
  - apply (Htie "p1" "p2"); [discriminate| |]; rewrite Hmax, Hv; vm_compute;
      reflexivity.
Defined.

(* ------------------------------------------------------------------ *)
(** ** An open vote keeps the round timer paused *)

Module Exclusion.

Lemma ok_empty : StoreOk JsMap.empty.
Proof. intros c r []. Qed.

Lemma ok_get rooms roomCode room :
  StoreOk rooms -> JsMap.get roomCode rooms = Some room ->
  votePausesTimer room = true.
Proof. intros H G. apply (H roomCode). now apply JsMapFacts.get_In. Qed.

Lemma ok_set rooms roomCode room :
  StoreOk rooms -> votePausesTimer room = true ->
  StoreOk (JsMap.set roomCode room rooms).
Proof.
  intros H P c r Hin. apply JsMapFacts.In_set in Hin as [[= -> ->]|Hin].
  - exact P.
  - now apply (H c).
Qed.

Lemma ok_delete rooms roomCode :
  StoreOk rooms -> StoreOk (JsMap.delete roomCode rooms).
Proof. intros H c r Hin. apply (H c). now apply JsMapFacts.In_delete in Hin. Qed.

Lemma ok_filter rooms f :
  StoreOk rooms -> StoreOk (JsMap.filter f rooms).
Proof. intros H c r Hin. apply (H c). now apply JsMapFacts.In_filter in Hin. Qed.

(** A write that touches neither the vote nor the pause flag. *)
Lemma ok_frame room room' :
  Room.activeVote room' = Room.activeVote room ->
  Room.timerPaused room' = Room.timerPaused room ->
  votePausesTimer room = true -> votePausesTimer room' = true.
Proof.
  unfold votePausesTimer, Room.paused. now intros -> ->.
Qed.

Lemma setRole_frame role k room :
  Room.activeVote (roomOf (setRole role k room)) = Room.activeVote room
  /\ Room.timerPaused (roomOf (setRole role k room)) = Room.timerPaused room.
Proof.
  unfold setRole.
  destruct (getOpt k (Room.players room)), k; simpl; auto.
Qed.

Lemma setDebuggerRoles_frame ids : forall room,
  Room.activeVote (roomOf (setDebuggerRoles ids room)) = Room.activeVote room
  /\ Room.timerPaused (roomOf (setDebuggerRoles ids room))
     = Room.timerPaused room.
Proof.
  induction ids as [|i ids IH]; intros room; simpl; [auto|].
  pose proof (setRole_frame Debugger (Some i) room) as [Ha Hp].
  destruct (setRole Debugger (Some i) room) as [r|r]; simpl in *.
  - destruct (IH r) as [Ha' Hp']. split; congruence.
  - auto.
Qed.

Lemma assignRoles_frame shuffled room :
  Room.activeVote (roomOf (assignRoles shuffled room)) = Room.activeVote room
  /\ Room.timerPaused (roomOf (assignRoles shuffled room))
     = Room.timerPaused room.
Proof.
  unfold assignRoles.
  set (room1 := Room.with_debuggers (tl shuffled)
                  (Room.with_bugger (hd_error shuffled) room)).
  pose proof (setRole_frame Bugger (Room.bugger room1) room1) as [Ha Hp].
  destruct (setRole Bugger (Room.bugger room1) room1) as [r|r]; simpl in *.
  - destruct (setDebuggerRoles_frame (Room.debuggers r) r) as [Ha' Hp'].
    split; congruence.
  - auto.
Qed.

Lemma assignRoles_ok shuffled room :
  votePausesTimer room = true ->
  votePausesTimer (roomOf (assignRoles shuffled room)) = true.
Proof.
  destruct (assignRoles_frame shuffled room) as [Ha Hp].
  now apply ok_frame.
Qed.

Lemma startRound_ok picks now room :
  votePausesTimer (startRound picks now room) = true.
Proof. reflexivity. Qed.

End Exclusion.

Module ExclusionSteps.
Import Exclusion.

Ltac room_ok :=
  match goal with
  | O : StoreOk ?rooms, G : JsMap.get ?c ?rooms = Some ?room |- _ =>
      let H := fresh "Hok" in
      pose proof (ok_get rooms c room O G) as H;
      clear G
  end.

Ltac close_room :=
  cbn [snd fst] in *;
  repeat match goal with
         | H : JsMap.get ?k (JsMap.set ?k _ _) = _ |- _ =>
             rewrite JsMapFacts.get_set_same in H;
             first [injection H as <- | discriminate H]
         end;
  repeat room_ok;
  unfold votePausesTimer, Room.paused in *; simpl in *;
  repeat match goal with
         | E : Room.activeVote ?r = _,
           H : context [match Room.activeVote ?r with _ => _ end] |- _ =>
             rewrite E in H
         end;
  repeat match goal with
         | H : ?x = _ |- context [?x] => rewrite H
         | |- context [match Room.activeVote ?r with _ => _ end] =>
             destruct (Room.activeVote r)
         end;
  auto; try congruence.

Ltac ok_step :=
  match goal with
  | |- context [JsMap.get ?k (JsMap.set ?k _ _)] =>
      rewrite JsMapFacts.get_set_same
  | |- context [JsMap.set ?k _ (JsMap.set ?k _ _)] =>
      rewrite JsMapFacts.set_set
  | |- StoreOk (JsMap.set _ _ _) => apply ok_set
  | |- StoreOk (JsMap.delete _ _) => apply ok_delete
  | |- StoreOk (JsMap.filter _ _) => apply ok_filter
  | |- StoreOk (snd (_, _)) => cbn [snd]
  | |- StoreOk _ => assumption
  | |- context [match ?x with _ => _ end] =>
      lazymatch x with
      | context [match _ with _ => _ end] => fail
      | _ => destruct x eqn:?
      end
  end.

Lemma createRoom_ok rooms c p n now :
  StoreOk rooms -> StoreOk (onCreateRoom rooms c p n now).
Proof.
  intros O. unfold onCreateRoom, createRoom. repeat ok_step. reflexivity.
Qed.

Lemma joinRoom_ok rooms c p n :
  StoreOk rooms -> StoreOk (onJoinRoom rooms c p n).
Proof.
  intros O. unfold onJoinRoom, addPlayerToRoom, getRoom. repeat ok_step.
  all: close_room.
Qed.

Lemma playerReady_ok rooms c p :
  StoreOk rooms -> StoreOk (onPlayerReady rooms c p).
Proof.
  intros O. unfold onPlayerReady, getRoom. repeat ok_step. all: close_room.
Qed.

Lemma removePlayer_ok rooms c p :
  StoreOk rooms -> StoreOk (snd (removePlayerFromRoom rooms c p)).
Proof.
  intros O. unfold removePlayerFromRoom. repeat ok_step. all: close_room.
Qed.

Lemma clearBuzzVote_ok rooms c :
  StoreOk rooms -> StoreOk (snd (clearBuzzVote rooms c)).
Proof.
  intros O. unfold clearBuzzVote. repeat ok_step. all: close_room.
Qed.

Lemma emptyTimeout_ok rooms c :
  StoreOk rooms -> StoreOk (emptyTimeoutFired rooms c).
Proof. intros O. unfold emptyTimeoutFired. repeat ok_step. Qed.

Lemma cleanup_ok rooms now :
  StoreOk rooms -> StoreOk (cleanupOldRooms rooms now).
Proof. intros O. unfold cleanupOldRooms. repeat ok_step. Qed.

Lemma startGame_ok rooms c shuffled picks now :
  StoreOk rooms -> StoreOk (snd (startGame rooms c shuffled picks now)).
Proof.
  intros O. unfold startGame.
  destruct (JsMap.get c rooms) as [room|] eqn:G; [|exact O].
  destruct (JsMap.size (Room.players room) <? 3); [exact O|].
  pose proof (assignRoles_ok shuffled
                (Room.with_currentRound 1 (Room.with_gameState Playing room)))
    as A.
  destruct (assignRoles shuffled _) as [r|r]; cbn [snd]; apply ok_set;
    try exact O.
  - apply startRound_ok.
  - apply A. close_room.
Qed.

Lemma onStartGame_ok rooms c p shuffled picks now :
  StoreOk rooms -> StoreOk (onStartGame rooms c p shuffled picks now).
Proof.
  intros O. unfold onStartGame, getRoom.
  destruct (JsMap.get c rooms); [|exact O].
  destruct (negb _); [exact O|]. now apply startGame_ok.
Qed.

Lemma endRound_ok nf rooms c finalCode shuffled picks now :
  StoreOk rooms ->
  StoreOk (snd (endRound nf rooms c finalCode shuffled picks now)).
Proof.
  intros O. unfold endRound.
  destruct (JsMap.get c rooms) as [room|] eqn:G; [|exact O].
  destruct (Room.totalRounds room <=? Room.currentRound room).
  - cbn [snd]. apply ok_set; [exact O|].
    unfold finalVerdict. destruct (Check.codeHasErrors _); close_room.
  - pose proof (assignRoles_ok shuffled
                  (Room.with_currentRound (Room.currentRound room + 1) room))
      as A.
    destruct (assignRoles shuffled _) as [r|r]; cbn [snd]; apply ok_set;
      try exact O.
    + apply startRound_ok.
    + apply A. close_room.
Qed.

Lemma roundTick_ok nf rooms c finalCode shuffled picks now :
  StoreOk rooms ->
  StoreOk (roundTick nf rooms c finalCode shuffled picks now).
Proof.
  intros O. unfold roundTick, handleEndRound, getRoom.
  repeat break_match; try exact O. now apply endRound_ok.
Qed.

Lemma onBuzz_ok rooms c p now now' :
  StoreOk rooms -> StoreOk (onBuzz rooms c p now now').
Proof.
  intros O. unfold onBuzz, handleBuzz, pauseRoundTimer, getRoom.
  repeat ok_step. all: close_room.
Qed.

Lemma castBuzzVote_ok rooms c p target :
  StoreOk rooms -> StoreOk (snd (castBuzzVote rooms c p target)).
Proof.
  intros O. unfold castBuzzVote. repeat ok_step. all: close_room.
Qed.

Lemma handleBuzzVoteEnd_ok rooms c now now' :
  StoreOk rooms -> StoreOk (handleBuzzVoteEnd rooms c now now').
Proof.
  intros O.
  unfold handleBuzzVoteEnd, resumeRoundTimer, clearBuzzVote, updateRoom,
    getRoom.
  repeat ok_step. all: close_room.
Qed.

Lemma onCastBuzzVote_ok rooms c p target now now' :
  StoreOk rooms -> StoreOk (onCastBuzzVote rooms c p target now now').
Proof.
  intros O. unfold onCastBuzzVote.
  pose proof (castBuzzVote_ok rooms c p target O) as H.
  destruct (castBuzzVote rooms c p target) as [[| |[v allVoted]|] rooms'];
    cbn [snd] in H; try exact H.
  destruct allVoted; [now apply handleBuzzVoteEnd_ok | exact H].
Qed.

Lemma onSubmitFix_ok rooms c p fixedCode :
  StoreOk rooms -> StoreOk (onSubmitFix rooms c p fixedCode).
Proof.
  intros O. unfold onSubmitFix, getRoom.
  destruct (validateFix rooms c p fixedCode); try exact O.
  repeat ok_step. all: close_room.
Qed.

Lemma onSubmitBug_ok rooms c p buggedCode :
  StoreOk rooms -> StoreOk (onSubmitBug rooms c p buggedCode).
Proof.
  intros O. unfold onSubmitBug, getRoom. repeat ok_step. all: close_room.
Qed.

Lemma onPlayAgain_ok rooms c :
  StoreOk rooms -> StoreOk (onPlayAgain rooms c).
Proof.
  intros O. unfold onPlayAgain, resetGame. repeat ok_step. all: close_room.
Qed.

Lemma onLeaveRoom_ok rooms c p :
  StoreOk rooms -> StoreOk (onLeaveRoom rooms c p).
Proof.
  intros O. unfold onLeaveRoom, getRoom. apply removePlayer_ok.
  repeat break_match; try exact O. now apply clearBuzzVote_ok.
Qed.

Lemma onDisconnect_ok rooms c p :
  StoreOk rooms -> StoreOk (onDisconnect rooms c p).
Proof. apply onLeaveRoom_ok. Qed.

Lemma step_ok nf rooms e :
  StoreOk rooms -> StoreOk (step nf rooms e).
Proof.
  intros O. destruct e; simpl.
  - now apply createRoom_ok.
  - now apply joinRoom_ok.
  - now apply playerReady_ok.
  - now apply onStartGame_ok.
  - now apply onBuzz_ok.
  - now apply onCastBuzzVote_ok.
  - now apply onSubmitFix_ok.
  - now apply onSubmitBug_ok.
  - now apply onPlayAgain_ok.
  - now apply onLeaveRoom_ok.
  - now apply onDisconnect_ok.
  - now apply roundTick_ok.
  - unfold handleEndRound. now apply endRound_ok.
  - now apply handleBuzzVoteEnd_ok.
  - now apply emptyTimeout_ok.
  - now apply cleanup_ok.
Qed.

End ExclusionSteps.

(** C4: in every store the server can reach, a room with an open vote has
    [timerPaused] true, so that an open vote and a running round timer
    never hold together; and every event of the server (buzz, vote cast,
    vote resolution, round start and end, and all the others) keeps it
    so. *)
Theorem open_vote_pauses_timer :
  forall newFunction,
    (forall rooms e,
        StoreOk rooms -> StoreOk (step newFunction rooms e))
    /\ (forall rooms,
          Reachable newFunction rooms ->
          forall roomCode room,
            getRoom rooms roomCode = Some room ->
            (Room.activeVote room <> None -> Room.timerPaused room = Some true)
            /\ voteOpen room && timerRunning room = false).
Proof.
  intros newFunction. split.
  - intros rooms e. apply ExclusionSteps.step_ok.
  - intros rooms R.
    assert (O : StoreOk rooms).
    { induction R; [apply Exclusion.ok_empty | now apply ExclusionSteps.step_ok]. }
    intros roomCode room G. pose proof (Exclusion.ok_get _ _ _ O G) as H.
    unfold votePausesTimer, voteOpen, timerRunning, Room.paused in *.
    destruct (Room.activeVote room); [|split; [congruence | reflexivity]].
    destruct (Room.timerPaused room) as [[|]|]; try discriminate.
    split; reflexivity.
Qed.

Lemma demo_reachable : Reachable Demo.noSyntaxError Demo.twoVotes.
Proof.
  unfold Demo.twoVotes. apply reach_step.
  unfold Demo.oneVote. apply reach_step.
  unfold Demo.buzzed. apply reach_step.
  unfold Demo.started, run. cbn [fold_left].
  repeat apply reach_step. apply reach_start.
Qed.

Lemma open_vote_pauses_timer_witness :
  StoreOk (step Demo.noSyntaxError Demo.twoVotes
                (CastBuzzVote "ABCD" "p2" "skip" 40000 40000))
  /\ Room.activeVote (Demo.theRoom Demo.twoVotes) <> None
  /\ Room.timerPaused (Demo.theRoom Demo.twoVotes) = Some true.
Proof.
  assert (G : getRoom Demo.twoVotes "ABCD" = Some (Demo.theRoom Demo.twoVotes))
    by (vm_compute; reflexivity).
  assert (N : Room.activeVote (Demo.theRoom Demo.twoVotes) <> None)
    by (vm_compute; discriminate).
  split; [|split; [exact N|]].
  - pose proof (fun rooms e =>
                  proj1 (open_vote_pauses_timer Demo.noSyntaxError) rooms e)
      as Step.
    apply Step. unfold Demo.twoVotes. apply Step.
    unfold Demo.oneVote. apply Step. unfold Demo.buzzed. apply Step.
    unfold Demo.started, run. cbn [fold_left]. repeat apply Step.
    intros c r [].
  - now apply (proj2 (open_vote_pauses_timer Demo.noSyntaxError)
                 Demo.twoVotes demo_reachable "ABCD"
                 (Demo.theRoom Demo.twoVotes) G).
Defined.

(* ------------------------------------------------------------------ *)
(** ** Pausing and resuming the round timer *)

Section Timer.

Variables (rooms : Rooms) (roomCode : string) (room : Room.t).
Hypothesis Hroom : getRoom rooms roomCode = Some room.

Lemma pauseRoundTimer_running now rem :
  Room.paused room = false ->
  remainingAt now room = Some rem ->
  pauseRoundTimer rooms roomCode now
  = JsMap.set roomCode
      (Room.with_pausedTimeRemaining (Some (Z.max 0 rem))
         (Room.with_timerPaused (Some true) room)) rooms.
Proof.
  intros P R. unfold pauseRoundTimer. now rewrite Hroom, P, R.
Qed.

Lemma remainingAt_resumed now now' p (r : Room.t) :
  (now <= now' < now + 1000)%Z ->
  Room.roundStartTime r = At (now - (Room.roundDuration r - p) * 1000)%Z ->
  remainingAt now' r = Some p.
Proof.
  intros T E. unfold remainingAt, elapsedAt. rewrite E. f_equal.
  replace (now' - (now - (Room.roundDuration r - p) * 1000))%Z
    with ((Room.roundDuration r - p) * 1000 + (now' - now))%Z by lia.
  rewrite Z.div_add_l by lia.
  rewrite (Z.div_small (now' - now) 1000) by lia. lia.
Qed.

Lemma resumeRoundTimer_paused now now' p :
  Room.paused room = true ->
  Room.pausedTimeRemaining room = Some p ->
  (now <= now' < now + 1000)%Z ->
  let room' :=
    Room.with_pausedTimeRemaining None
      (Room.with_timerPaused (Some false)
         (Room.with_roundStartTime
            (At (now - (Room.roundDuration room - p) * 1000)%Z) room)) in
  resumeRoundTimer rooms roomCode now now'
  = (Some (Some p), JsMap.set roomCode room' rooms)
  /\ remainingAt now' room' = Some p.
Proof.
  intros P E T room'.
  assert (R : remainingAt now' room' = Some p).
  { now apply (remainingAt_resumed now). }
  split; [|exact R].
  unfold resumeRoundTimer. rewrite Hroom, P, E. cbn [negb].
  fold room'. now rewrite R.
Qed.

(** A vote without a clear majority closes and the timer takes up the
    frozen remaining time; nobody is eliminated. *)
Lemma handleBuzzVoteEnd_undecided vote now now' p :
  Room.activeVote room = Some vote ->
  Tally.clear (tallyOf vote) = false ->
  Room.paused room = true ->
  Room.pausedTimeRemaining room = Some p ->
  (now <= now' < now + 1000)%Z ->
  exists room',
    getRoom (handleBuzzVoteEnd rooms roomCode now now') roomCode = Some room'
    /\ Room.activeVote room' = None
    /\ Room.timerPaused room' = Some false
    /\ remainingAt now' room' = Some p
    /\ Room.players room' = Room.players room
    /\ Room.roundDuration room' = Room.roundDuration room.
Proof.
  intros V C P E T.
  unfold handleBuzzVoteEnd. rewrite Hroom.
  unfold getBuzzVoteResult. rewrite V. cbn [VoteResult.hasClearMajority].
  fold (tallyOf vote). rewrite C. cbn [negb].
  unfold updateRoom. rewrite Hroom.
  unfold clearBuzzVote. rewrite JsMapFacts.get_set_same. cbn [snd].
  rewrite JsMapFacts.set_set.
  set (room1 := Room.with_activeVote None (Room.with_buzzedPlayer None room)).
  unfold resumeRoundTimer, getRoom. rewrite JsMapFacts.get_set_same.
  replace (Room.paused room1) with true by (symmetry; exact P).
  replace (Room.pausedTimeRemaining room1) with (Some p)
    by (symmetry; exact E).
  cbn [negb snd]. rewrite JsMapFacts.set_set, JsMapFacts.get_set_same.
  eexists. split; [reflexivity|].
  repeat split. now apply (remainingAt_resumed now).
Qed.

End Timer.

Lemma pauseRoundTimer_paused rooms roomCode room now :
  getRoom rooms roomCode = Some room ->
  Room.paused room = true ->
  pauseRoundTimer rooms roomCode now = rooms.
Proof.
  intros Hroom P. unfold pauseRoundTimer. now rewrite Hroom, P.
Qed.

(** C5, as the code has it.  Pausing a round timer that is running stores
    [pausedTimeRemaining = max(0, roundDuration - elapsed)], with
    [elapsed] the whole seconds since [roundStartTime]; pausing a timer
    that is paused already writes nothing, so the snapshot of the first
    pause is the one kept, whatever the time elapsed since.  Resuming
    rewrites [roundStartTime] so that [roundDuration - elapsed], computed
    again at that moment, is the snapshot kept; and a vote that ends
    without a clear majority resumes the timer with that value, not with
    the full duration, eliminating nobody. *)
Theorem timer_resumes_where_it_paused :
  forall rooms roomCode room now,
    getRoom rooms roomCode = Some room ->
    let paused := pauseRoundTimer rooms roomCode now in
    let kept :=
      if Room.paused room then Room.pausedTimeRemaining room
      else option_map (Z.max 0) (remainingAt now room) in
    (forall start,
        Room.roundStartTime room = At start ->
        remainingAt now room
        = Some (Room.roundDuration room - (now - start) / 1000)%Z)
    /\ (Room.paused room = true -> paused = rooms)
    /\ (exists room1,
          getRoom paused roomCode = Some room1
          /\ Room.paused room1 = true
          /\ Room.pausedTimeRemaining room1 = kept
          /\ Room.with_pausedTimeRemaining (Room.pausedTimeRemaining room)
               (Room.with_timerPaused (Room.timerPaused room) room1)
             = room)
    /\ (forall p now1 now2,
          kept = Some p ->
          (now1 <= now2 < now1 + 1000)%Z ->
          (exists room2,
              resumeRoundTimer paused roomCode now1 now2
              = (Some (Some p), JsMap.set roomCode room2 paused)
              /\ Room.timerPaused room2 = Some false
              /\ remainingAt now2 room2 = Some p)
          /\ (forall vote,
                Tally.clear (tallyOf vote) = false ->
                let voting :=
                  updateRoom (Room.with_activeVote (Some vote)) paused roomCode in
                exists room3,
                  getRoom (handleBuzzVoteEnd voting roomCode now1 now2) roomCode
                  = Some room3
                  /\ Room.activeVote room3 = None
                  /\ Room.timerPaused room3 = Some false
                  /\ remainingAt now2 room3 = Some p
                  /\ Room.players room3 = Room.players room)).
Proof.
  intros rooms roomCode room now Hroom paused kept.
  assert (Hp : exists room1,
             paused = JsMap.set roomCode room1 rooms
             /\ Room.paused room1 = true
             /\ Room.pausedTimeRemaining room1 = kept
             /\ Room.players room1 = Room.players room
             /\ Room.with_pausedTimeRemaining (Room.pausedTimeRemaining room)
                  (Room.with_timerPaused (Room.timerPaused room) room1)
                = room).
  { unfold paused, kept, pauseRoundTimer. rewrite Hroom.
    destruct (Room.paused room) eqn:P.
    - exists room. split.
      + symmetry. unfold getRoom in Hroom.
        now apply (JsMapFacts.set_unchanged_iff _ _ _ _ Hroom).
      + repeat split; [exact P | now destruct room].
    - eexists. split; [reflexivity|].
      split; [reflexivity|]. split.
      + now destruct (remainingAt now room).
      + split; [reflexivity | now destruct room]. }
  destruct Hp as (room1 & Ep & P1 & K1 & Pl & Fr).
  assert (G1 : getRoom paused roomCode = Some room1).
  { rewrite Ep. apply JsMapFacts.get_set_same. }
  split; [|split; [|split]].
  - intros start E. unfold remainingAt, elapsedAt. now rewrite E.
  - intros P. now apply (pauseRoundTimer_paused rooms roomCode room).
  - exists room1. auto.
  - intros p now1 now2 Ek T. rewrite Ek in K1. split.
    + destruct (resumeRoundTimer_paused paused roomCode room1 G1 now1 now2
                  p P1 K1 T) as [H1 H2].
      eexists. split; [exact H1|]. split; [reflexivity | exact H2].
    + intros vote C voting.
      assert (G2 : getRoom voting roomCode
                   = Some (Room.with_activeVote (Some vote) room1)).
      { unfold voting, updateRoom. rewrite G1. apply JsMapFacts.get_set_same. }
      destruct (handleBuzzVoteEnd_undecided voting roomCode _ G2 vote now1 now2
                  p eq_refl C P1 K1 T)
        as (room3 & H1 & H2 & H3 & H4 & H5 & _).
      exists room3. rewrite <- Pl. auto.
Qed.

Lemma timer_resumes_where_it_paused_witness :
  let paused := pauseRoundTimer Demo.started "ABCD" 31000 in
  (exists room1,
      getRoom paused "ABCD" = Some room1
      /\ Room.pausedTimeRemaining room1 = Some 60%Z)
  /\ (exists room2,
        resumeRoundTimer paused "ABCD" 50000 50003
        = (Some (Some 60%Z), JsMap.set "ABCD" room2 paused)
        /\ remainingAt 50003 room2 = Some 60%Z).
Proof.
  intros paused.
  assert (G : getRoom Demo.started "ABCD" = Some (Demo.theRoom Demo.started))
    by (vm_compute; reflexivity).
  assert (K : (if Room.paused (Demo.theRoom Demo.started)
               then Room.pausedTimeRemaining (Demo.theRoom Demo.started)
               else option_map (Z.max 0)
                      (remainingAt 31000 (Demo.theRoom Demo.started)))
              = Some 60%Z)
    by (vm_compute; reflexivity).
  destruct (timer_resumes_where_it_paused Demo.started "ABCD"
              (Demo.theRoom Demo.started) 31000%Z G)
    as (_ & _ & (room1 & H1 & _ & H2 & _) & H3).
  split.
  - exists room1. rewrite <- K. auto.
  - destruct (H3 60%Z 50000%Z 50003%Z K ltac:(lia)) as [(room2 & E & _ & H4) _].
    exists room2. auto.
Defined.

(** C5 as stated fails on a playing room whose timer was left paused.  In
    the demo game Cy leaves while the vote is open: the room stays in the
    round with the timer paused at 60 s.  A pause 130 s into the round of
    90 s stores nothing: the snapshot is still 60 where
    [max(0, roundDuration - elapsed)] is 0, and a vote without a majority
    then resumes the round with 60 s. *)
Lemma pauseRoundTimer_keeps_stale_snapshot :
  let stale :=
    step Demo.noSyntaxError Demo.twoVotes (LeaveRoom "ABCD" "p3") in
  let room := Demo.theRoom stale in
  Reachable Demo.noSyntaxError stale
  /\ getRoom stale "ABCD" = Some room
  /\ Room.gameState room = Playing
  /\ Room.roundDuration room = 90%Z
  /\ elapsedAt 131000 room = Some 130%Z
  /\ option_map (Z.max 0) (remainingAt 131000 room) = Some 0%Z
  /\ pauseRoundTimer stale "ABCD" 131000 = stale
  /\ Room.pausedTimeRemaining
       (Demo.theRoom (pauseRoundTimer stale "ABCD" 131000)) = Some 60%Z
  /\ option_map (remainingAt 191000)
       (getRoom
          (handleBuzzVoteEnd (onBuzz stale "ABCD" "p1" 131000 131000)
                             "ABCD" 191000 191000) "ABCD")
     = Some (Some 60%Z).
Proof.
  split.
  - apply reach_step. exact demo_reachable.
  - vm_compute. repeat split; reflexivity.
Qed.

(* ------------------------------------------------------------------ *)
(** ** Leaving during a vote *)

Lemma removePlayerFromRoom_frame rooms roomCode playerId room :
  getRoom rooms roomCode = Some room ->
  exists room',
    removePlayerFromRoom rooms roomCode playerId
    = (Some room', JsMap.set roomCode room' rooms)
    /\ Room.activeVote room' = Room.activeVote room
    /\ Room.timerPaused room' = Room.timerPaused room
    /\ Room.pausedTimeRemaining room' = Room.pausedTimeRemaining room
    /\ Room.roundStartTime room' = Room.roundStartTime room
    /\ (forall k q',
          In (k, q') (Room.players room') ->
          exists q, In (k, q) (Room.players room)
                    /\ Player.disabled q' = Player.disabled q).
Proof.
  unfold getRoom, removePlayerFromRoom. intros ->.
  eexists. split; [reflexivity|].
  repeat break_match; cbn in *; repeat split; try reflexivity;
    intros k q' Hin;
    try (apply JsMapFacts.In_delete in Hin; eauto);
    try contradiction.
  all: match goal with
       | E : JsMap.delete _ _ = _ :: _ |- _ =>
           rewrite String.eqb_refl in Hin;
           assert (D : forall kv, In kv (JsMap.delete playerId (Room.players room))
                                  -> In kv (Room.players room))
             by (intros kv; apply JsMapFacts.In_delete);
           rewrite E in D;
           destruct Hin as [[= <- <-]|Hin];
           [ eexists; split; [apply D; left; reflexivity | reflexivity]
           | eexists; split; [apply D; right; exact Hin | reflexivity] ]
       end.
Qed.

(** What the [leaveRoom] and [disconnect] handlers do to a room with an
    open vote: the vote is dropped without a tally and nobody is
    eliminated, but the three timer fields are not touched. *)
Lemma onLeaveRoom_open_vote rooms roomCode playerId room vote :
  getRoom rooms roomCode = Some room ->
  Room.activeVote room = Some vote ->
  exists room',
    getRoom (onLeaveRoom rooms roomCode playerId) roomCode = Some room'
    /\ onDisconnect rooms roomCode playerId = onLeaveRoom rooms roomCode playerId
    /\ Room.activeVote room' = None
    /\ Room.timerPaused room' = Room.timerPaused room
    /\ Room.pausedTimeRemaining room' = Room.pausedTimeRemaining room
    /\ Room.roundStartTime room' = Room.roundStartTime room
    /\ (forall k q',
          In (k, q') (Room.players room') ->
          exists q, In (k, q) (Room.players room)
                    /\ Player.disabled q' = Player.disabled q).
Proof.
  intros G V.
  assert (D : onDisconnect rooms roomCode playerId
              = onLeaveRoom rooms roomCode playerId) by reflexivity.
  rewrite D. clear D. unfold onLeaveRoom. rewrite G, V.
  unfold clearBuzzVote. unfold getRoom in G. rewrite G. cbn [snd].
  destruct (removePlayerFromRoom_frame
              (JsMap.set roomCode (Room.with_activeVote None room) rooms)
              roomCode playerId (Room.with_activeVote None room))
    as (room' & E & Ha & Hp & Hr & Hs & Hd).
  { apply JsMapFacts.get_set_same. }
  exists room'. rewrite E. cbn [snd].
  split; [apply JsMapFacts.get_set_same|].
  split; [reflexivity|]. auto.
Qed.

(** C2 on the demo game: Bob leaves while the vote he opened holds one
    vote for Ann and one for himself.  The vote is cancelled and nobody is
    eliminated, but the round timer is not resumed: [timerPaused] stays
    true with the frozen 60 s, and a later tick of the round timer, long
    after the round should have ended, does nothing.  The handler of a
    disconnect makes the same calls. *)
Theorem leave_during_vote_keeps_timer_paused :
  let before := Demo.theRoom Demo.twoVotes in
  let left := onLeaveRoom Demo.twoVotes "ABCD" "p2" in
  let after := Demo.theRoom left in
  getRoom left "ABCD" = Some after
  /\ onDisconnect Demo.twoVotes "ABCD" "p2" = left
  /\ Room.gameState after = Playing
  /\ (exists vote, Room.activeVote before = Some vote)
  /\ Room.timerPaused before = Some true
  /\ Room.activeVote after = None
  /\ JsMap.keys (Room.players after) = ["p1"; "p3"]
  /\ map Player.disabled (JsMap.values (Room.players after)) = [false; false]
  /\ Room.timerPaused after = Some true
  /\ Room.pausedTimeRemaining after = Some 60%Z
  /\ Room.roundStartTime after = At 1000
  /\ roundTick Demo.noSyntaxError left "ABCD" None [] [] 1000000 = left.
Proof.
  vm_compute. repeat split; try reflexivity. eexists. reflexivity.
Qed.

(* ------------------------------------------------------------------ *)
(** ** The verdict on the final code *)

(** What [endRound] decides on a snapshot: the bugger wins exactly when a
    text matching the [divide] pattern lacks ["=== 0"], or a text matching
    the [squareRoot] pattern lacks ["< 0"], or the parser rejects the
    code.  A method that the pattern does not match is not examined. *)
Lemma finalVerdict_winner newFunction code room current :
  code <> "" ->
  Room.currentCode room = Some current ->
  Room.winner (finalVerdict newFunction (Some code) room)
  = Some (if missingGuard divideBody "=== 0" code
             || missingGuard squareRootBody "< 0" code
             || match newFunction code with Some _ => true | None => false end
          then "bugger" else "debuggers").
Proof.
  intros N C. unfold finalVerdict, truthy.
  apply String.eqb_neq in N. rewrite N.
  cbn [Room.currentCode Room.with_gameState]. rewrite C.
  unfold checkFinalCode.
  destruct (missingGuard divideBody "=== 0" code),
           (missingGuard squareRootBody "< 0" code),
           (newFunction code); reflexivity.
Qed.

(** C8 on the code of the game itself.  [unfixed] is the sample with the
    zero check of [divide] stripped by [injectBug], the other guard in
    place; [unfixed2] has both guards stripped and is the
    [initialBuggyCode] of the demo round.  Neither contains ["=== 0"], yet
    neither pattern of [endRound] matches them (the first closing brace
    after the method head is the one of [${a}] or [${n}], before any
    [return]), so that with a parser that accepts the code the last round
    ends with winner "debuggers" and no defect listed. *)
Theorem endRound_misses_unfixed_bug :
  let unfixed := injectBug correctCode1 "bug1" in
  let unfixed2 := injectBug unfixed "bug2" in
  let room := Demo.theRoom Demo.started in
  Room.totalRounds room <= Room.currentRound room
  /\ option_map Code.initialBuggyCode (Room.currentCode room) = Some unfixed2
  /\ Str.includes "=== 0" correctCode1 = true
  /\ Str.includes "=== 0" unfixed = false
  /\ Str.includes "=== 0" unfixed2 = false
  /\ Str.includes "< 0" unfixed2 = false
  /\ Regex.match0 divideBody unfixed = None
  /\ Regex.match0 divideBody unfixed2 = None
  /\ Regex.match0 squareRootBody unfixed2 = None
  /\ (forall code, In code [unfixed; unfixed2] ->
        let ended :=
          handleEndRound Demo.noSyntaxError Demo.started "ABCD" (Some code)
                         [] [] 91000 in
        Room.gameState (Demo.theRoom ended) = Results
        /\ Room.winner (Demo.theRoom ended) = Some "debuggers"
        /\ Room.winReason (Demo.theRoom ended)
           = Some "Fixers win! All bugs resolved!").
Proof.
  cbv zeta.
  split; [vm_compute; lia|].
  repeat (split; [vm_compute; reflexivity|]).
  intros code [<-|[<-|[]]]; vm_compute; repeat split; reflexivity.
Qed.

(** The same check on a [divide] the pattern does match. *)
Example endRound_detects_short_divide :
  checkFinalCode Demo.noSyntaxError "divide(a, b) { return a / b; }"
  = Check.mk true ["Divide bug: missing zero check"].
Proof. vm_compute. reflexivity. Qed.

(* ------------------------------------------------------------------ *)
(** ** More on maps and sets *)

Module JsMapMore.

Import JsMap JsMapFacts.

Lemma get_None_keys {V} k (m : t V) : get k m = None <-> ~ In k (keys m).
Proof.
  induction m as [|[k' v'] m IH]; simpl; [tauto|].
  destruct (String.eqb k k') eqn:E.
  - apply String.eqb_eq in E; subst. split; [discriminate|]. intros H.
    exfalso. apply H. now left.
  - apply String.eqb_neq in E. rewrite IH. split.
    + intros H [->|H']; [now apply E | now apply H].
    + intros H H'. apply H. now right.
Qed.

Lemma has_true_keys {V} k (m : t V) : has k m = true <-> In k (keys m).
Proof.
  unfold has. destruct (get k m) eqn:G.
  - split; [|reflexivity]. intros _.
    apply get_In in G. unfold keys. change k with (fst (k, v)).
    now apply in_map.
  - apply get_None_keys in G. split; [discriminate | contradiction].
Qed.

Lemma set_present {V} k (v v0 : V) m :
  get k m = Some v0 -> keys (set k v m) = keys m.
Proof.
  induction m as [|[k' v'] m IH]; simpl; [discriminate|].
  destruct (String.eqb k k') eqn:E; simpl.
  - apply String.eqb_eq in E. now subst.
  - intros H. now rewrite IH.
Qed.

Lemma set_absent {V} k (v : V) m :
  get k m = None -> set k v m = m ++ [(k, v)].
Proof.
  induction m as [|[k' v'] m IH]; simpl; [reflexivity|].
  destruct (String.eqb k k'); [discriminate|]. intros H. now rewrite IH.
Qed.

Lemma size_set {V} k (v : V) m :
  size (set k v m) = if has k m then size m else S (size m).
Proof.
  unfold has, size. destruct (get k m) eqn:G.
  - pose proof (set_present k v v0 m G) as H. unfold keys in H.
    rewrite <- (length_map fst (set k v m)), H. apply length_map.
  - rewrite (set_absent k v m G), length_app. simpl. lia.
Qed.

Lemma get_delete_other {V} k k' (m : t V) :
  k <> k' -> get k (delete k' m) = get k m.
Proof.
  intros N. induction m as [|[k0 v0] m IH]; simpl; [reflexivity|].
  destruct (String.eqb k' k0) eqn:E; simpl.
  - apply String.eqb_eq in E; subst k0.
    destruct (String.eqb k k') eqn:E'; [|reflexivity].
    apply String.eqb_eq in E'. contradiction.
  - now rewrite IH.
Qed.

Lemma get_delete_same {V} k (m : t V) :
  NoDup (keys m) -> get k (delete k m) = None.
Proof.
  induction m as [|[k0 v0] m IH]; simpl; intros N; [reflexivity|].
  inversion N as [|? ? Hn N']; subst.
  destruct (String.eqb k k0) eqn:E; simpl.
  - apply String.eqb_eq in E; subst k0. now apply get_None_keys.
  - rewrite E. now apply IH.
Qed.

Lemma In_keys_delete {V} k k' (m : t V) :
  In k' (keys (delete k m)) -> In k' (keys m).
Proof.
  unfold keys. rewrite !in_map_iff. intros (kv & E & H).
  exists kv. split; [exact E|]. now apply In_delete in H.
Qed.

Lemma NoDup_keys_delete {V} k (m : t V) :
  NoDup (keys m) -> NoDup (keys (delete k m)).
Proof.
  induction m as [|[k0 v0] m IH]; simpl; intros N; [constructor|].
  inversion N as [|? ? Hn N']; subst.
  destruct (String.eqb k k0); simpl; [exact N'|].
  constructor; [|now apply IH].
  intros H. apply Hn. now apply In_keys_delete in H.
Qed.

Lemma size_delete {V} k (m : t V) : size (delete k m) <= size m.
Proof.
  unfold size. induction m as [|[k0 v0] m IH]; simpl; [lia|].
  destruct (String.eqb k k0); simpl; lia.
Qed.

Lemma JsSet_has_In k s : JsSet.has k s = true <-> In k s.
Proof.
  unfold JsSet.has. rewrite existsb_exists. split.
  - intros (x & H & E). apply String.eqb_eq in E. now subst.
  - intros H. exists k. split; [exact H | apply String.eqb_refl].
Qed.

Lemma JsSet_has_false k s : JsSet.has k s = false <-> ~ In k s.
Proof.
  rewrite <- JsSet_has_In. destruct (JsSet.has k s); split; congruence.
Qed.

End JsMapMore.

(* ------------------------------------------------------------------ *)
(** ** The room store *)

(** X1: [createRoom] never refuses.  The store afterwards holds under
    [roomCode] a lobby room whose only player is the host; a room that was
    stored under the same code is replaced, at its old place in the
    iteration order, and every other room is untouched. *)
Theorem createRoom_replaces :
  forall rooms roomCode hostId hostName now,
    let room := fst (createRoom rooms roomCode hostId hostName now) in
    let rooms' := snd (createRoom rooms roomCode hostId hostName now) in
    getRoom rooms' roomCode = Some room
    /\ Room.players room
       = [(hostId, Player.mk hostId hostName true false None false)]
    /\ Room.hostId room = Some hostId
    /\ Room.gameState room = Lobby
    /\ Room.activeVote room = None
    /\ Room.createdAt room = now
    /\ (forall other, other <> roomCode ->
                      getRoom rooms' other = getRoom rooms other)
    /\ JsMap.keys rooms'
       = (if JsMap.has roomCode rooms then JsMap.keys rooms
          else JsMap.keys rooms ++ [roomCode]).
Proof.
  intros rooms roomCode hostId hostName now room rooms'.
  unfold rooms', room, createRoom, getRoom. cbn [fst snd].
  split; [apply JsMapFacts.get_set_same|].
  repeat (split; [reflexivity|]).
  split.
  - intros other N. now apply JsMapFacts.get_set_other.
  - unfold JsMap.has. destruct (JsMap.get roomCode rooms) eqn:G.
    + now apply (JsMapMore.set_present _ _ t).
    + rewrite (JsMapMore.set_absent _ _ _ G). unfold JsMap.keys.
      now rewrite map_app.
Qed.

(** X2: [addPlayerToRoom] answers "Room is full" for a room of six or
    more players, before it looks at the state of the game, and "Game
    already in progress" outside the lobby, the store unchanged in both
    cases.  Otherwise the player enters unready, without role and enabled,
    as host exactly when the room was empty; the other players are
    untouched and a pending deletion of the room is called off. *)
Theorem addPlayerToRoom_cases :
  forall rooms roomCode playerId playerName room,
    getRoom rooms roomCode = Some room ->
    (6 <= JsMap.size (Room.players room) ->
     addPlayerToRoom rooms roomCode playerId playerName
     = (Error "Room is full", rooms))
    /\ (JsMap.size (Room.players room) < 6 ->
        Room.gameState room <> Lobby ->
        addPlayerToRoom rooms roomCode playerId playerName
        = (Error "Game already in progress", rooms))
    /\ (JsMap.size (Room.players room) < 6 ->
        Room.gameState room = Lobby ->
        exists room',
          addPlayerToRoom rooms roomCode playerId playerName
          = (Ok room', JsMap.set roomCode room' rooms)
          /\ JsMap.get playerId (Room.players room')
             = Some (Player.mk playerId playerName
                               (JsMap.size (Room.players room) =? 0)
                               false None false)
          /\ (forall other, other <> playerId ->
                JsMap.get other (Room.players room')
                = JsMap.get other (Room.players room))
          /\ JsMap.size (Room.players room')
             = (if JsMap.has playerId (Room.players room)
                then JsMap.size (Room.players room)
                else S (JsMap.size (Room.players room)))
          /\ Room.hostId room'
             = (if JsMap.size (Room.players room) =? 0
                then Some playerId else Room.hostId room)
          /\ Room.emptyTimeout room' = false
          /\ Room.gameState room' = Lobby
          /\ Room.activeVote room' = Room.activeVote room).
Proof.
  intros rooms roomCode playerId playerName room G. unfold getRoom in G.
  unfold addPlayerToRoom. rewrite G. split; [|split].
  - intros H. apply Nat.leb_le in H. now rewrite H.
  - intros H L. apply Nat.leb_gt in H. rewrite H.
    destruct (Room.gameState room); [contradiction| |]; reflexivity.
  - intros H L. apply Nat.leb_gt in H. rewrite H, L. cbn [isLobby negb].
    eexists. split; [reflexivity|].
    pose proof (JsMapMore.size_set playerId
                  (newPlayer playerId playerName
                     (JsMap.size (Room.players room) =? 0))
                  (Room.players room)) as S.
    unfold JsMap.size in *.
    destruct (Room.emptyTimeout room) eqn:T;
      destruct (List.length (Room.players room) =? 0) eqn:Z; cbn;
      rewrite ?Z; cbn;
      (split; [apply JsMapFacts.get_set_same|]);
      (split; [intros other N; now apply JsMapFacts.get_set_other|]);
      (split; [exact S|]);
      auto.
Qed.

Lemma addPlayerToRoom_cases_witness :
  fst (addPlayerToRoom Demo.started "ABCD" "p4" "Dee")
  = Error "Game already in progress"
  /\ snd (addPlayerToRoom Demo.started "ABCD" "p4" "Dee") = Demo.started.
Proof.
  assert (G : getRoom Demo.started "ABCD" = Some (Demo.theRoom Demo.started))
    by (vm_compute; reflexivity).
  destruct (addPlayerToRoom_cases Demo.started "ABCD" "p4" "Dee" _ G)
    as (_ & H & _).
  rewrite H; [split; reflexivity | vm_compute; lia | vm_compute; discriminate].
Defined.

Lemma optStringEqb_Some a k : optStringEqb a (Some k) = true <-> a = Some k.
Proof.
  destruct a as [x|]; simpl; [|split; discriminate].
  rewrite String.eqb_eq. split; [now intros -> | now intros [= ->]].
Qed.

(** X3: [removePlayerFromRoom], for a room in the store.  The player is
    gone from [players] and the others keep their order.  When the one
    removed was the host, the first of the remaining players in joining
    order becomes host, with [isHost] set, or [hostId] becomes null when
    nobody is left; otherwise the host stays.  The deletion of the room is
    armed exactly when the room is left empty.  Vote and game state are
    not touched. *)
Theorem removePlayerFromRoom_host :
  forall rooms roomCode playerId room,
    getRoom rooms roomCode = Some room ->
    NoDup (JsMap.keys (Room.players room)) ->
    let remaining := JsMap.delete playerId (Room.players room) in
    exists room',
      removePlayerFromRoom rooms roomCode playerId
      = (Some room', JsMap.set roomCode room' rooms)
      /\ JsMap.get playerId (Room.players room') = None
      /\ JsMap.keys (Room.players room') = JsMap.keys remaining
      /\ (Room.hostId room <> Some playerId ->
          Room.hostId room' = Room.hostId room
          /\ Room.players room' = remaining)
      /\ (Room.hostId room = Some playerId ->
          match remaining with
          | [] => Room.hostId room' = None /\ Room.players room' = []
          | (k, first) :: rest =>
              Room.hostId room' = Some (Player.id first)
              /\ Room.players room' = (k, Player.with_isHost true first) :: rest
          end)
      /\ Room.emptyTimeout room'
         = (if JsMap.size remaining =? 0 then true else Room.emptyTimeout room)
      /\ Room.activeVote room' = Room.activeVote room
      /\ Room.gameState room' = Room.gameState room.
Proof.
  intros rooms roomCode playerId room G N remaining. unfold getRoom in G.
  unfold removePlayerFromRoom. rewrite G. eexists. split; [reflexivity|].
  pose proof (JsMapMore.get_delete_same playerId (Room.players room) N) as D.
  fold remaining in D.
  cbn [Room.hostId Room.players Room.with_players].
  fold remaining.
  destruct (optStringEqb (Room.hostId room) (Some playerId)) eqn:H.
  - apply optStringEqb_Some in H.
    destruct remaining as [|[k first] rest] eqn:R; cbn.
    + repeat split; auto; try congruence.
    + rewrite String.eqb_refl. cbn. simpl in D.
      repeat split; auto; try congruence.
      destruct (String.eqb playerId k); [discriminate | exact D].
  - assert (H' : Room.hostId room <> Some playerId).
    { intros E. apply optStringEqb_Some in E. congruence. }
    destruct (JsMap.size remaining =? 0) eqn:Z; cbn; unfold JsMap.size in Z;
      rewrite ?Z; repeat split; auto; try contradiction.
Qed.

Lemma removePlayerFromRoom_host_witness :
  exists room',
    fst (removePlayerFromRoom Demo.started "ABCD" "p1") = Some room'
    /\ Room.hostId room' = Some "p2"
    /\ JsMap.keys (Room.players room') = ["p2"; "p3"]
    /\ option_map Player.isHost (JsMap.get "p2" (Room.players room'))
       = Some true.
Proof.
  assert (G : getRoom Demo.started "ABCD" = Some (Demo.theRoom Demo.started))
    by (vm_compute; reflexivity).
  assert (N : NoDup (JsMap.keys (Room.players (Demo.theRoom Demo.started)))).
  { vm_compute. repeat constructor; simpl; intuition discriminate. }
  destruct (removePlayerFromRoom_host Demo.started "ABCD" "p1" _ G N)
    as (room' & E & _ & K & _ & H & _).
  exists room'. rewrite E. split; [reflexivity|].
  assert (Hh : Room.hostId (Demo.theRoom Demo.started) = Some "p1")
    by (vm_compute; reflexivity).
  specialize (H Hh). cbv zeta in H, K.
  remember (JsMap.delete "p1" (Room.players (Demo.theRoom Demo.started)))
    as remaining eqn:R.
  vm_compute in R. subst remaining. destruct H as [H1 H2].
  rewrite H1, H2. repeat split.
Defined.

(** X4: a room that has become empty in the lobby and is joined again
    before its deletion timer fires survives the timer, the joiner being
    its host; an empty room that nobody joined is deleted by the timer,
    and the timer leaves a room with players alone. *)
Theorem emptyTimeout_after_rejoin :
  forall rooms roomCode playerId playerName room,
    getRoom rooms roomCode = Some room ->
    Room.players room = [] ->
    Room.gameState room = Lobby ->
    let rooms' := snd (addPlayerToRoom rooms roomCode playerId playerName) in
    emptyTimeoutFired rooms roomCode = JsMap.delete roomCode rooms
    /\ emptyTimeoutFired rooms' roomCode = rooms'
    /\ exists room',
         getRoom rooms' roomCode = Some room'
         /\ Room.hostId room' = Some playerId
         /\ Room.players room'
            = [(playerId, Player.mk playerId playerName true false None false)]
         /\ Room.emptyTimeout room' = false.
Proof.
  intros rooms roomCode playerId playerName room G E L rooms'.
  unfold getRoom in G.
  assert (A : exists room',
             addPlayerToRoom rooms roomCode playerId playerName
             = (Ok room', JsMap.set roomCode room' rooms)
             /\ Room.hostId room' = Some playerId
             /\ Room.players room'
                = [(playerId,
                    Player.mk playerId playerName true false None false)]
             /\ Room.emptyTimeout room' = false).
  { unfold addPlayerToRoom. rewrite G, E, L. cbn.
    destruct (Room.emptyTimeout room) eqn:T; cbn; rewrite ?E; cbn; eexists;
      (split; [reflexivity|]); cbn; rewrite ?E; auto. }
  destruct A as (room' & A & Hh & Hp & Ht).
  split; [unfold emptyTimeoutFired; now rewrite G, E|].
  unfold rooms'. rewrite A. cbn [snd]. split.
  - unfold emptyTimeoutFired. now rewrite JsMapFacts.get_set_same, Hp.
  - exists room'. split; [apply JsMapFacts.get_set_same | auto].
Qed.

Lemma emptyTimeout_after_rejoin_witness :
  let emptied :=
    snd (removePlayerFromRoom
           (snd (createRoom JsMap.empty "ABCD" "p1" "Ann" 0)) "ABCD" "p1") in
  let rejoined := snd (addPlayerToRoom emptied "ABCD" "p2" "Bob") in
  emptyTimeoutFired emptied "ABCD" = []
  /\ emptyTimeoutFired rejoined "ABCD" = rejoined.
Proof.
  intros emptied rejoined.
  destruct (emptyTimeout_after_rejoin emptied "ABCD" "p2" "Bob"
              (Demo.theRoom emptied)) as (H1 & H2 & _); try reflexivity.
  split; [rewrite H1; reflexivity | exact H2].
Defined.

(* ------------------------------------------------------------------ *)
(** ** The two win checks *)

(** X5: [checkDebuggersWin] answers true exactly when the bugger is not in
    the room (or no bugger is set) or is disabled; it is the negation of
    the "bugger enabled" test of [checkBuggerWin], so the two checks never
    answer true for the same room. *)
Theorem win_checks_exclusive :
  forall room,
    (checkDebuggersWin room = true <->
     getOpt (Room.bugger room) (Room.players room) = None
     \/ exists player,
          getOpt (Room.bugger room) (Room.players room) = Some player
          /\ Player.disabled player = true)
    /\ checkDebuggersWin room = negb (playerEnabled room (Room.bugger room))
    /\ (checkBuggerWin room = true -> checkDebuggersWin room = false).
Proof.
  intros room.
  assert (E : checkDebuggersWin room
              = negb (playerEnabled room (Room.bugger room))).
  { unfold checkDebuggersWin, playerEnabled, hasOpt, getOpt, JsMap.has.
    destruct (Room.bugger room) as [b|]; [|reflexivity].
    destruct (JsMap.get b (Room.players room)) as [p|]; [|reflexivity].
    cbn. now rewrite negb_involutive. }
  split; [|split; [exact E|]].
  - unfold checkDebuggersWin, hasOpt, getOpt, JsMap.has.
    destruct (Room.bugger room) as [b|]; cbn.
    + destruct (JsMap.get b (Room.players room)) as [p|]; cbn.
      * split; [intros H; right; eauto|].
        intros [H|(q & [= <-] & H)]; [discriminate | exact H].
      * split; [now left | reflexivity].
    + split; [now left | reflexivity].
  - rewrite E. unfold checkBuggerWin.
    destruct (playerEnabled room (Room.bugger room)); [reflexivity|].
    now rewrite !andb_false_r.
Qed.

(* ------------------------------------------------------------------ *)
(** ** Statistics *)

Lemma fold_sum_sizes (l : list Room.t) : forall acc,
  fold_left (fun sum room => sum + JsMap.size (Room.players room)) l acc
  = acc + list_sum (map (fun room => JsMap.size (Room.players room)) l).
Proof.
  induction l as [|r l IH]; intros acc; simpl; [lia|]. rewrite IH. lia.
Qed.

(** X6: in the figures of [getRoomStats] every room is counted in exactly
    one of the three states, so [totalRooms] is the sum of [activeGames],
    [lobbyRooms] and [roomsInResults]; [totalPlayers] is the sum of the
    sizes of the rooms, and an empty store gives zeros. *)
Theorem getRoomStats_partition :
  forall rooms,
    let stats := getRoomStats rooms in
    Stats.totalRooms stats = JsMap.size rooms
    /\ Stats.totalRooms stats
       = Stats.activeGames stats + Stats.lobbyRooms stats
         + Stats.roomsInResults stats
    /\ Stats.totalPlayers stats
       = list_sum (map (fun room => JsMap.size (Room.players room))
                       (getAllRooms rooms))
    /\ (rooms = [] -> stats = Stats.mk 0 0 0 0 0).
Proof.
  intros rooms stats. unfold stats, getRoomStats, getAllRooms.
  cbn [Stats.totalRooms Stats.activeGames Stats.lobbyRooms
       Stats.roomsInResults Stats.totalPlayers].
  split; [apply length_map|]. split; [|split].
  - induction (JsMap.values rooms) as [|r l IH]; [reflexivity|].
    simpl. destruct (Room.gameState r); simpl; lia.
  - apply fold_sum_sizes.
  - now intros ->.
Qed.

(* ------------------------------------------------------------------ *)
(** ** Roles and bugs of a round *)

Lemma setRole_member role k room p :
  JsMap.get k (Room.players room) = Some p ->
  setRole role (Some k) room
  = Done (Room.with_players
            (JsMap.set k (Player.with_role (Some role) p) (Room.players room))
            room).
Proof. unfold setRole, getOpt. now intros ->. Qed.

Lemma setDebuggerRoles_members ds : forall room,
  (forall d, In d ds -> JsMap.has d (Room.players room) = true) ->
  exists players',
    setDebuggerRoles ds room = Done (Room.with_players players' room)
    /\ JsMap.keys players' = JsMap.keys (Room.players room)
    /\ forall k,
         JsMap.get k players'
         = option_map (fun p => if JsSet.has k ds
                                then Player.with_role (Some Debugger) p else p)
                      (JsMap.get k (Room.players room)).
Proof.
  induction ds as [|d ds IH]; intros room M.
  - exists (Room.players room). split; [now destruct room|]. split; [reflexivity|].
    intros k. now destruct (JsMap.get k (Room.players room)).
  - assert (Hd : JsMap.has d (Room.players room) = true) by (apply M; now left).
    unfold JsMap.has in Hd.
    destruct (JsMap.get d (Room.players room)) as [pd|] eqn:G; [|discriminate].
    simpl. rewrite (setRole_member _ _ _ _ G).
    set (room1 := Room.with_players _ room).
    destruct (IH room1) as (players' & E & K & V).
    { intros d' Hin. apply JsMapMore.has_true_keys. unfold room1.
    cbn [Room.players Room.with_players Room.with_debuggers Room.with_bugger].
      rewrite (JsMapMore.set_present _ _ _ _ G).
      apply JsMapMore.has_true_keys. apply M. now right. }
    exists players'. split; [exact E|]. split.
    { rewrite K. unfold room1.
    cbn [Room.players Room.with_players Room.with_debuggers Room.with_bugger]. apply (JsMapMore.set_present _ _ _ _ G). }
    intros k. rewrite V. unfold room1.
    cbn [Room.players Room.with_players Room.with_debuggers Room.with_bugger]. rewrite JsMapFacts.get_set.
    destruct (String.eqb k d) eqn:Ekd.
    + apply String.eqb_eq in Ekd; subst k. rewrite G. cbn.
      now destruct (JsSet.has d ds).
    + reflexivity.
Qed.

(** X7: when [shuffleArray] hands back the ids of the players in some
    order, [assignRoles] runs to its end: the first id is the bugger and
    is not among the debuggers, which are all the others; every player
    gets the role that goes with it and is otherwise unchanged, and no
    other field of the room is written. *)
Theorem assignRoles_permutation :
  forall shuffled room,
    NoDup (JsMap.keys (Room.players room)) ->
    Permutation shuffled (JsMap.keys (Room.players room)) ->
    shuffled <> [] ->
    exists b players',
      hd_error shuffled = Some b
      /\ assignRoles shuffled room
         = Done (Room.with_players players'
                   (Room.with_debuggers (tl shuffled)
                      (Room.with_bugger (Some b) room)))
      /\ ~ In b (tl shuffled)
      /\ (forall k, In k (JsMap.keys (Room.players room)) ->
                    k = b \/ In k (tl shuffled))
      /\ JsMap.keys players' = JsMap.keys (Room.players room)
      /\ forall k,
           JsMap.get k players'
           = option_map
               (Player.with_role
                  (Some (if String.eqb k b then Bugger else Debugger)))
               (JsMap.get k (Room.players room)).
Proof.
  intros shuffled room N P NE.
  destruct shuffled as [|b ds]; [contradiction|].
  assert (Ns : NoDup (b :: ds)).
  { apply (Permutation_NoDup (Permutation_sym P) N). }
  inversion Ns as [|? ? Hb Nds]; subst.
  assert (Hmem : forall k, In k (b :: ds) ->
                           JsMap.has k (Room.players room) = true).
  { intros k H. apply JsMapMore.has_true_keys.
    apply (Permutation_in _ P H). }
  pose proof (Hmem b (or_introl eq_refl)) as Hbm. unfold JsMap.has in Hbm.
  destruct (JsMap.get b (Room.players room)) as [pb|] eqn:G; [|discriminate].
  unfold assignRoles. cbn [hd_error tl Room.bugger Room.with_debuggers
                           Room.with_bugger].
  rewrite (setRole_member Bugger b _ pb) by exact G.
  cbn [Room.players Room.with_debuggers Room.with_bugger Room.debuggers
       Room.with_players].
  set (room1 := Room.with_players _ _).
  destruct (setDebuggerRoles_members ds room1) as (players' & E & K & V).
  { intros d Hin. apply JsMapMore.has_true_keys. unfold room1.
    cbn [Room.players Room.with_players Room.with_debuggers Room.with_bugger].
    rewrite (JsMapMore.set_present _ _ _ _ G).
    apply JsMapMore.has_true_keys. apply Hmem. now right. }
  exists b, players'. split; [reflexivity|]. split; [exact E|].
  split; [exact Hb|]. split.
  { intros k Hk. apply (Permutation_in _ (Permutation_sym P)) in Hk.
    destruct Hk as [->|Hk]; auto. }
  split.
  { rewrite K. unfold room1.
    cbn [Room.players Room.with_players Room.with_debuggers Room.with_bugger]. apply (JsMapMore.set_present _ _ _ _ G). }
  intros k. rewrite V. unfold room1.
    cbn [Room.players Room.with_players Room.with_debuggers Room.with_bugger]. rewrite JsMapFacts.get_set.
  destruct (String.eqb k b) eqn:Ekb.
  - apply String.eqb_eq in Ekb; subst k. rewrite G. cbn.
    apply JsMapMore.JsSet_has_false in Hb. now rewrite Hb.
  - destruct (JsMap.get k (Room.players room)) as [p|] eqn:Gk; [|reflexivity].
    cbn. assert (Hin : In k ds).
    { apply JsMapFacts.get_In in Gk.
      assert (Hk : In k (JsMap.keys (Room.players room))).
      { unfold JsMap.keys. change k with (fst (k, p)). now apply in_map. }
      apply (Permutation_in _ (Permutation_sym P)) in Hk.
      destruct Hk as [->|Hk]; [|exact Hk].
      rewrite String.eqb_refl in Ekb. discriminate. }
    apply JsMapMore.JsSet_has_In in Hin. now rewrite Hin.
Qed.

Lemma assignRoles_permutation_witness :
  exists players',
    roomOf (assignRoles ["p3"; "p1"; "p2"] (Demo.theRoom Demo.started))
    = Room.with_players players'
        (Room.with_debuggers ["p1"; "p2"]
           (Room.with_bugger (Some "p3") (Demo.theRoom Demo.started)))
    /\ option_map Player.role (JsMap.get "p3" players') = Some (Some Bugger)
    /\ option_map Player.role (JsMap.get "p1" players') = Some (Some Debugger).
Proof.
  destruct (assignRoles_permutation ["p3"; "p1"; "p2"]
              (Demo.theRoom Demo.started))
    as (b & players' & Hb & E & _ & _ & _ & V).
  - vm_compute. repeat constructor; simpl; intuition discriminate.
  - vm_compute. apply Permutation_sym. apply (perm_trans (l' := ["p1"; "p3"; "p2"])).
    + apply perm_skip. apply perm_swap.
    + apply perm_swap.
  - discriminate.
  - injection Hb as <-. exists players'. rewrite E. split; [reflexivity|].
    rewrite !V. split; vm_compute; reflexivity.
Defined.

Lemma splice1_spec {A} (l : list A) : forall i,
  i < List.length l ->
  exists x r,
    splice1 i l = (Some x, r)
    /\ Permutation (x :: r) l
    /\ List.length l = S (List.length r).
Proof.
  induction l as [|a l IH]; intros i H; simpl in H; [lia|].
  destruct i as [|i]; simpl.
  - exists a, l. auto.
  - destruct (IH i) as (x & r & E & P & L); [lia|]. rewrite E.
    exists x, (a :: r). split; [reflexivity|]. split.
    + apply (perm_trans (perm_swap a x r)). now apply perm_skip.
    + simpl. lia.
Qed.

Lemma assignBugs_no_bugs debuggers : forall picks acc,
  assignBugs debuggers [] picks acc = acc.
Proof. induction debuggers as [|d ds IH]; intros; simpl; auto. Qed.

Lemma assignBugs_cons d ds availableBugs picks acc :
  assignBugs (d :: ds) availableBugs picks acc
  = if 0 <? List.length availableBugs then
      match splice1 (hd 0 picks mod List.length availableBugs) availableBugs with
      | (Some assignedBug, rest) =>
          assignBugs ds rest (tl picks) (JsMap.set d assignedBug acc)
      | (None, rest) => assignBugs ds rest (tl picks) acc
      end
    else assignBugs ds availableBugs picks acc.
Proof. reflexivity. Qed.

Lemma assignBugs_spec debuggers : forall availableBugs picks acc,
  NoDup debuggers ->
  (forall d, In d debuggers -> JsMap.get d acc = None) ->
  exists chosen rest,
    assignBugs debuggers availableBugs picks acc
    = acc ++ combine (firstn (List.length availableBugs) debuggers) chosen
    /\ List.length chosen
       = Nat.min (List.length debuggers) (List.length availableBugs)
    /\ Permutation (chosen ++ rest) availableBugs.
Proof.
  induction debuggers as [|d ds IH]; intros bugs picks acc N F.
  - exists [], bugs. simpl. rewrite firstn_nil. simpl.
    now rewrite app_nil_r.
  - inversion N as [|? ? Hd Nds]; subst.
    rewrite assignBugs_cons.
    destruct (Nat.ltb_spec 0 (List.length bugs)) as [Hlen|Hlen].
    + destruct (splice1_spec bugs (hd 0 picks mod List.length bugs))
        as (x & r & E & P & L).
      { apply Nat.mod_upper_bound. lia. }
      rewrite E.
      assert (Hset : JsMap.set d x acc = acc ++ [(d, x)]).
      { apply JsMapMore.set_absent. apply F. now left. }
      rewrite Hset.
      destruct (IH r (tl picks) (acc ++ [(d, x)]) Nds)
        as (chosen & rest & E' & L' & P').
      { intros d' Hin. rewrite <- Hset. rewrite JsMapFacts.get_set_other.
        - apply F. now right.
        - intros ->. contradiction. }
      exists (x :: chosen), rest. rewrite E', L. simpl.
      rewrite <- app_assoc. simpl. split; [reflexivity|].
      split; [rewrite L'; lia|].
      apply (perm_trans (l' := x :: r)); [|exact P].
      now apply perm_skip.
    + destruct bugs; [|simpl in Hlen; lia].
      exists [], []. rewrite assignBugs_no_bugs. simpl.
      rewrite app_nil_r. auto.
Qed.

(** X8: [startRound] hands out the bugs of the sample without
    replacement: with pairwise distinct debuggers, the first two debuggers
    of the round, in order, each get one bug, no two the same bug, and a
    third or later debugger gets none; with at least two debuggers both
    bugs are handed out.  It also stamps [roundStartTime] and clears the
    buzz and the vote. *)
Theorem startRound_assigns_bugs :
  forall picks now room,
    NoDup (Room.debuggers room) ->
    exists code chosen rest,
      Room.currentCode (startRound picks now room) = Some code
      /\ Code.bugAssignments code
         = combine (firstn 2 (Room.debuggers room)) chosen
      /\ List.length chosen = Nat.min (List.length (Room.debuggers room)) 2
      /\ Permutation (chosen ++ rest) [bug1; bug2]
      /\ (2 <= List.length (Room.debuggers room) ->
          Permutation chosen [bug1; bug2])
      /\ Code.correctCode code = correctCode1
      /\ Room.roundStartTime (startRound picks now room) = At now
      /\ Room.buzzedPlayer (startRound picks now room) = None
      /\ Room.activeVote (startRound picks now room) = None.
Proof.
  intros picks now room N.
  destruct (assignBugs_spec (Room.debuggers room) [bug1; bug2] picks
              JsMap.empty N) as (chosen & rest & E & L & P).
  { intros d _. reflexivity. }
  simpl in E.
  eexists. exists chosen, rest. split; [reflexivity|].
  cbn [Code.bugAssignments Code.correctCode]. split; [exact E|].
  split; [exact L|]. split; [exact P|].
  split; [|repeat split].
  intros H. simpl in L. rewrite Nat.min_r in L by exact H.
  pose proof (Permutation_length P) as PL. rewrite length_app in PL.
  simpl in PL. destruct rest; [|simpl in PL; lia].
  now rewrite app_nil_r in P.
Qed.

Lemma startRound_assigns_bugs_witness :
  exists code,
    Room.currentCode
      (startRound [1; 0] 5 (Room.with_debuggers ["p2"; "p3"; "p4"]
                              (Demo.theRoom Demo.started)))
    = Some code
    /\ JsMap.keys (Code.bugAssignments code) = ["p2"; "p3"].
Proof.
  destruct (startRound_assigns_bugs [1; 0] 5%Z
              (Room.with_debuggers ["p2"; "p3"; "p4"]
                 (Demo.theRoom Demo.started)))
    as (code & chosen & rest & E & B & L & _).
  - cbn. repeat constructor; simpl; intuition discriminate.
  - exists code. split; [exact E|]. rewrite B. cbn in L.
    destruct chosen as [|c1 [|c2 [|c3 chosen]]]; try discriminate.
    reflexivity.
Defined.

(* ------------------------------------------------------------------ *)
(** ** Bug injection *)

Module RegexFacts.

Import Regex.

Lemma matchHere_app p : forall s m rest,
  matchHere p s = Some (m, rest) -> s = m ++ rest.
Proof.
  induction p as [|[c|c] p IH]; intros s m rest; simpl.
  - now intros [= <- <-].
  - destruct s as [|x s]; [discriminate|].
    destruct (accepts c x); [|discriminate].
    destruct (matchHere p s) as [[m' rest']|] eqn:E; [|discriminate].
    intros [= <- <-]. simpl. f_equal. now apply IH.
  - revert m rest. induction s as [|x s IHs]; intros m rest.
    + apply IH.
    + destruct (accepts c x); [|apply IH].
      match goal with
      | |- context [match ?t with _ => _ end] => destruct t as [[m' rest']|] eqn:E
      end.
      * intros [= <- <-]. simpl. f_equal. now apply IHs.
      * apply IH.
Qed.

Lemma search_app p : forall s pre m rest,
  search p s = Some (pre, m, rest) -> s = pre ++ m ++ rest.
Proof.
  induction s as [|x s IH]; intros pre m rest; simpl.
  - destruct (matchHere p []) as [[m' rest']|] eqn:E; [|discriminate].
    intros [= <- <- <-]. now apply matchHere_app in E.
  - destruct (matchHere p (x :: s)) as [[m' rest']|] eqn:E.
    + intros [= <- <- <-]. now apply matchHere_app in E.
    + destruct (search p s) as [[[pre' m'] rest']|] eqn:S; [|discriminate].
      intros [= <- <- <-]. simpl. f_equal. now apply IH.
Qed.

(** A match of a pattern that begins with a literal begins with it. *)
Lemma matchHere_lit text p : forall s m rest,
  matchHere (lit text ++ p) s = Some (m, rest) ->
  exists m', m = Str.chars text ++ m'.
Proof.
  unfold lit, Str.chars.
  induction (list_ascii_of_string text) as [|a l IH]; intros s m rest; simpl.
  - intros _. now exists m.
  - destruct s as [|x s]; [discriminate|].
    destruct (Ascii.eqb a x) eqn:E; [|discriminate].
    apply Ascii.eqb_eq in E; subst x.
    destruct (matchHere _ s) as [[m' rest']|] eqn:M; [|discriminate].
    intros [= <- <-]. destruct (IH _ _ _ M) as (m'' & ->).
    now exists m''.
Qed.

Lemma search_match p : forall s pre m rest,
  search p s = Some (pre, m, rest) -> matchHere p (m ++ rest) = Some (m, rest).
Proof.
  induction s as [|x s IH]; intros pre m rest; simpl.
  - destruct (matchHere p []) as [[m' rest']|] eqn:E; [|discriminate].
    intros [= <- <- <-]. now rewrite <- (matchHere_app _ _ _ _ E).
  - destruct (matchHere p (x :: s)) as [[m' rest']|] eqn:E.
    + intros [= <- <- <-]. now rewrite <- (matchHere_app _ _ _ _ E).
    + destruct (search p s) as [[[pre' m'] rest']|] eqn:S; [|discriminate].
      intros [= <- <- <-]. now apply (IH pre').
Qed.

End RegexFacts.

Lemma ofChars_app a b :
  Str.ofChars (a ++ b) = String.append (Str.ofChars a) (Str.ofChars b).
Proof.
  unfold Str.ofChars. induction a as [|x a IH]; simpl; [reflexivity|].
  now rewrite IH.
Qed.

Lemma replace_frame p by_ s :
  Regex.replace p by_ s = s
  \/ exists pre m rest,
       s = String.append (Str.ofChars pre)
             (String.append (Str.ofChars m) (Str.ofChars rest))
       /\ Regex.matchHere p (m ++ rest) = Some (m, rest)
       /\ Regex.replace p by_ s
          = String.append (Str.ofChars pre)
              (String.append by_ (Str.ofChars rest)).
Proof.
  unfold Regex.replace.
  destruct (Regex.search p (Str.chars s)) as [[[pre m] rest]|] eqn:E;
    [|now left].
  right. exists pre, m, rest. split; [|split].
  - pose proof (RegexFacts.search_app _ _ _ _ _ E) as H.
    rewrite <- !ofChars_app, <- H. unfold Str.ofChars, Str.chars.
    now rewrite string_of_list_ascii_of_string.
  - apply (RegexFacts.search_match p (Str.chars s) pre m rest E).
  - rewrite !ofChars_app. unfold Str.ofChars at 2, Str.chars.
    now rewrite string_of_list_ascii_of_string.
Qed.

(** X9: [injectBug] rewrites at most one stretch of the code and keeps
    every character before and after it: for any code and bug id, either
    the code comes back unchanged (an unknown bug id, or a guard that is
    not found), or the code is [before ++ guard ++ after], with [guard]
    beginning at the head of the method, and the result is
    [before ++ head ++ after] with [head] the bare method head. *)
Theorem injectBug_frame :
  forall code bugId,
    (bugId <> "bug1" -> bugId <> "bug2" -> injectBug code bugId = code)
    /\ (injectBug code bugId = code
        \/ exists before guard after name,
             (bugId = "bug1" /\ name = "divide(a, b)"
              \/ bugId = "bug2" /\ name = "squareRoot(n)")
             /\ code = String.append before (String.append guard after)
             /\ (exists tail, guard = String.append name tail)
             /\ injectBug code bugId
                = String.append before
                    (String.append (String.append name " {
    ") after)).
Proof.
  intros code bugId. split.
  - intros N1 N2. unfold injectBug.
    apply String.eqb_neq in N1. apply String.eqb_neq in N2.
    now rewrite N1, N2.
  - unfold injectBug.
    destruct (String.eqb bugId "bug1") eqn:E1;
      [|destruct (String.eqb bugId "bug2") eqn:E2; [|now left]].
    + apply String.eqb_eq in E1.
      destruct (replace_frame divideGuard "divide(a, b) {
    " code) as [H|(pre & m & rest & Hc & Hm & Hr)]; [now left|].
      right. exists (Str.ofChars pre), (Str.ofChars m), (Str.ofChars rest),
               "divide(a, b)".
      split; [now left|]. split; [exact Hc|]. split; [|exact Hr].
      apply (RegexFacts.matchHere_lit "divide(a, b)") in Hm as (m' & ->).
      exists (Str.ofChars m'). now rewrite ofChars_app.
    + apply String.eqb_eq in E2.
      destruct (replace_frame squareRootGuard "squareRoot(n) {
    " code) as [H|(pre & m & rest & Hc & Hm & Hr)]; [now left|].
      right. exists (Str.ofChars pre), (Str.ofChars m), (Str.ofChars rest),
               "squareRoot(n)".
      split; [now right|]. split; [exact Hc|]. split; [|exact Hr].
      apply (RegexFacts.matchHere_lit "squareRoot(n)") in Hm as (m' & ->).
      exists (Str.ofChars m'). now rewrite ofChars_app.
Qed.

(* ------------------------------------------------------------------ *)
(** ** Accepting and resolving votes *)

(** X10: [castBuzzVote] accepts exactly the votes it has no reason to
    refuse.  For an enabled member who has not voted yet, a skip is
    appended to [skips], and a vote for another enabled member is appended
    to [votes]; nothing else in the room changes, and the reply says
    whether the entries now number at least the enabled players. *)
Theorem castBuzzVote_accepted :
  forall rooms roomCode voterId targetVoteId room vote voter,
    getRoom rooms roomCode = Some room ->
    Room.activeVote room = Some vote ->
    Vote.type vote = "vote_kick" ->
    JsMap.get voterId (Room.players room) = Some voter ->
    Player.disabled voter = false ->
    JsMap.has voterId (Vote.votes vote) = false ->
    JsSet.has voterId (Vote.skips vote) = false ->
    (targetVoteId = "skip"
     \/ exists target,
          JsMap.get targetVoteId (Room.players room) = Some target
          /\ Player.disabled target = false
          /\ voterId <> targetVoteId) ->
    let vote' :=
      if String.eqb targetVoteId "skip"
      then Vote.with_skips (Vote.skips vote ++ [voterId]) vote
      else Vote.with_votes (Vote.votes vote ++ [(voterId, targetVoteId)]) vote in
    let room' := Room.with_activeVote (Some vote') room in
    castBuzzVote rooms roomCode voterId targetVoteId
    = (Ok (vote',
           List.length (enabledPlayers room)
           <=? S (JsMap.size (Vote.votes vote) + JsSet.size (Vote.skips vote))),
       JsMap.set roomCode room' rooms).
Proof.
  intros rooms roomCode voterId targetVoteId room vote voter G V T Gv D Hv Hs
         Htarget vote' room'.
  unfold getRoom in G. unfold castBuzzVote.
  rewrite G, V, T, String.eqb_refl, Gv, D, Hv, Hs. cbn [negb orb].
  unfold room', vote'.
  destruct (String.eqb targetVoteId "skip") eqn:E.
  - unfold JsSet.add. rewrite Hs. unfold allVotedIn, enabledPlayers.
    cbn [Room.players Room.with_activeVote Vote.votes Vote.skips
         Vote.with_skips].
    unfold JsSet.size, JsMap.size. rewrite length_app. cbn [List.length].
    rewrite Nat.add_1_r, ?Nat.add_succ_r. reflexivity.
  - destruct Htarget as [->|(target & Gt & Dt & Ne)];
      [rewrite String.eqb_refl in E; discriminate|].
    rewrite Gt, Dt. apply String.eqb_neq in Ne. rewrite Ne.
    assert (A : JsMap.get voterId (Vote.votes vote) = None).
    { unfold JsMap.has in Hv.
      now destruct (JsMap.get voterId (Vote.votes vote)). }
    rewrite (JsMapMore.set_absent _ _ _ A).
    unfold allVotedIn, enabledPlayers.
    cbn [Room.players Room.with_activeVote Vote.votes Vote.skips
         Vote.with_votes].
    unfold JsSet.size, JsMap.size. rewrite length_app. cbn [List.length].
    rewrite Nat.add_1_r, ?Nat.add_succ_r. reflexivity.
Qed.

Lemma castBuzzVote_accepted_witness :
  exists vote',
    fst (castBuzzVote Demo.twoVotes "ABCD" "p2" "skip") = Ok (vote', true)
    /\ Vote.skips vote' = ["p2"]
    /\ Vote.votes vote' = [("p3", "p1"); ("p1", "p2")].
Proof.
  assert (G : getRoom Demo.twoVotes "ABCD" = Some (Demo.theRoom Demo.twoVotes))
    by (vm_compute; reflexivity).
  pose proof (castBuzzVote_accepted Demo.twoVotes "ABCD" "p2" "skip"
                (Demo.theRoom Demo.twoVotes)
                (Vote.mk "p2" "Bob" "vote_kick" [("p3", "p1"); ("p1", "p2")]
                         [] 31000 60000)
                (Player.mk "p2" "Bob" false false (Some Debugger) false)
                G) as H.
  cbv zeta in H. rewrite H; try (vm_compute; reflexivity).
  - eexists. split; [vm_compute; reflexivity|]. split; reflexivity.
  - now left.
Defined.

(** What [handleBuzzVoteEnd] leaves of a room with an open vote. *)
Lemma handleBuzzVoteEnd_effect rooms roomCode now now' room vote :
  getRoom rooms roomCode = Some room ->
  Room.activeVote room = Some vote ->
  let kick := Tally.playerToKick (tallyOf vote) in
  let decided := Tally.clear (tallyOf vote) in
  let room1 := if decided then disablePlayer kick room else room in
  let ended :=
    decided && (optStringEqb kick (Room.bugger room) || checkBuggerWin room1) in
  exists room',
    handleBuzzVoteEnd rooms roomCode now now' = JsMap.set roomCode room' rooms
    /\ Room.activeVote room' = None
    /\ Room.players room' = Room.players room1
    /\ Room.winner room' = Room.winner room
    /\ Room.bugger room' = Room.bugger room
    /\ Room.debuggers room' = Room.debuggers room
    /\ Room.currentRound room' = Room.currentRound room
    /\ Room.totalRounds room' = Room.totalRounds room
    /\ (ended = true ->
        Room.gameState room' = Results
        /\ Room.buzzedPlayer room' = Room.buzzedPlayer room
        /\ Room.timerPaused room' = Room.timerPaused room)
    /\ (ended = false ->
        Room.gameState room' = Room.gameState room
        /\ Room.buzzedPlayer room' = None
        /\ Room.paused room' = false).
Proof.
  intros G V kick decided room1 ended.
  unfold handleBuzzVoteEnd. rewrite G. unfold getBuzzVoteResult. rewrite V.
  cbn [VoteResult.hasClearMajority VoteResult.playerToKick
       VoteResult.buggerVotedOut].
  fold (tallyOf vote). fold kick. fold decided.
  unfold ended, room1. clear ended room1.
  destruct decided eqn:D; cbn [negb andb].
  - set (room1 := disablePlayer kick room).
    assert (F : Room.activeVote room1 = Room.activeVote room
                /\ Room.winner room1 = Room.winner room
                /\ Room.bugger room1 = Room.bugger room
                /\ Room.debuggers room1 = Room.debuggers room
                /\ Room.currentRound room1 = Room.currentRound room
                /\ Room.totalRounds room1 = Room.totalRounds room
                /\ Room.gameState room1 = Room.gameState room
                /\ Room.buzzedPlayer room1 = Room.buzzedPlayer room
                /\ Room.timerPaused room1 = Room.timerPaused room).
    { unfold room1, disablePlayer. destruct kick as [k|]; [|repeat split].
      destruct (JsMap.get k (Room.players room)); repeat split. }
    destruct F as (F1 & F2 & F3 & F3' & F4 & F5 & F6 & F7 & F8).
    destruct (optStringEqb kick (Room.bugger room)) eqn:B; cbn [orb].
    + unfold clearBuzzVote. rewrite JsMapFacts.set_set, JsMapFacts.get_set_same.
      cbn [snd]. rewrite !JsMapFacts.set_set.
      eexists. split; [reflexivity|]. cbn.
      repeat split; auto; discriminate.
    + destruct (checkBuggerWin room1) eqn:W.
      * unfold clearBuzzVote.
        rewrite JsMapFacts.set_set, JsMapFacts.get_set_same.
        cbn [snd]. rewrite !JsMapFacts.set_set.
        eexists. split; [reflexivity|]. cbn.
        repeat split; auto; discriminate.
      * unfold clearBuzzVote.
        rewrite JsMapFacts.set_set, JsMapFacts.get_set_same.
        cbn [snd]. rewrite !JsMapFacts.set_set.
        unfold resumeRoundTimer, getRoom. rewrite JsMapFacts.get_set_same.
        match goal with
        | |- context [negb (Room.paused ?r)] => destruct (Room.paused r) eqn:P
        end; cbn [negb snd]; rewrite ?JsMapFacts.set_set;
          (eexists; split; [reflexivity|]); cbn;
          repeat split; auto; try discriminate.
  - unfold updateRoom. rewrite G. unfold clearBuzzVote.
    rewrite JsMapFacts.get_set_same. cbn [snd]. rewrite JsMapFacts.set_set.
    unfold resumeRoundTimer, getRoom. rewrite JsMapFacts.get_set_same.
    match goal with
    | |- context [negb (Room.paused ?r)] => destruct (Room.paused r) eqn:P
    end; cbn [negb snd]; rewrite ?JsMapFacts.set_set;
      (eexists; split; [reflexivity|]); cbn;
      repeat split; auto; try discriminate.
Qed.

(** X11: resolving is safe to trigger twice.  After [handleBuzzVoteEnd]
    the room has no open vote, a second call (the timeout firing after the
    quorum, or the other way round) changes nothing, and no other room of
    the store is touched. *)
Theorem handleBuzzVoteEnd_once :
  forall rooms roomCode now now' later later',
    let rooms' := handleBuzzVoteEnd rooms roomCode now now' in
    (forall room', getRoom rooms' roomCode = Some room' ->
                   Room.activeVote room' = None)
    /\ handleBuzzVoteEnd rooms' roomCode later later' = rooms'
    /\ (forall other, other <> roomCode ->
                      getRoom rooms' other = getRoom rooms other).
Proof.
  intros rooms roomCode now now' later later' rooms'.
  destruct (getRoom rooms roomCode) as [room|] eqn:G.
  - destruct (Room.activeVote room) as [vote|] eqn:V.
    + destruct (handleBuzzVoteEnd_effect rooms roomCode now now' room vote G V)
        as (room' & E & A & _).
      unfold rooms'. rewrite E. split; [|split].
      * unfold getRoom. rewrite JsMapFacts.get_set_same. now intros ? [= <-].
      * unfold handleBuzzVoteEnd, getRoom, getBuzzVoteResult.
        now rewrite JsMapFacts.get_set_same, A.
      * intros other N. now apply JsMapFacts.get_set_other.
    + assert (E : rooms' = rooms).
      { unfold rooms', handleBuzzVoteEnd, getBuzzVoteResult. now rewrite G, V. }
      rewrite E. split; [|split; [|reflexivity]].
      * intros room'. rewrite G. now intros [= <-].
      * unfold handleBuzzVoteEnd, getBuzzVoteResult. now rewrite G, V.
  - assert (E : rooms' = rooms).
    { unfold rooms', handleBuzzVoteEnd. now rewrite G. }
    rewrite E. split; [|split; [|reflexivity]].
    + intros room'. rewrite G. discriminate.
    + unfold handleBuzzVoteEnd. now rewrite G.
Qed.

Lemma Some_inj {A} (x y : A) : Some x = Some y -> x = y.
Proof. now intros [= ->]. Qed.

Lemma checkBuggerWin_ext room room' :
  Room.players room' = Room.players room ->
  Room.bugger room' = Room.bugger room ->
  Room.debuggers room' = Room.debuggers room ->
  checkBuggerWin room' = checkBuggerWin room.
Proof.
  intros P B D. unfold checkBuggerWin, enabledPlayers, playerEnabled.
  now rewrite P, B, D.
Qed.

Lemma disablePlayer_players k room :
  (forall other, other <> k ->
     JsMap.get other (Room.players (disablePlayer (Some k) room))
     = JsMap.get other (Room.players room))
  /\ JsMap.get k (Room.players (disablePlayer (Some k) room))
     = option_map (Player.with_disabled true) (JsMap.get k (Room.players room))
  /\ JsMap.keys (Room.players (disablePlayer (Some k) room))
     = JsMap.keys (Room.players room).
Proof.
  unfold disablePlayer.
  destruct (JsMap.get k (Room.players room)) as [p|] eqn:G; cbn [Room.players Room.with_players].
  - split; [|split].
    + intros other N. now apply JsMapFacts.get_set_other.
    + apply JsMapFacts.get_set_same.
    + apply (JsMapMore.set_present _ _ _ _ G).
  - rewrite G. auto.
Qed.

(** X12: a vote with a clear majority eliminates the target with the most
    votes and nobody else: that player, if still in the room, is disabled,
    every other player is as before.  The game then ends in the results
    when the eliminated one is the bugger or when [checkBuggerWin] holds
    afterwards, without [winner] being written; otherwise the state of the
    game is kept, the buzz is cleared and the timer is no longer
    paused. *)
Theorem handleBuzzVoteEnd_decisive :
  forall rooms roomCode now now' room vote,
    getRoom rooms roomCode = Some room ->
    Room.activeVote room = Some vote ->
    Tally.clear (tallyOf vote) = true ->
    exists k room',
      Tally.playerToKick (tallyOf vote) = Some k
      /\ (forall other, other <> k -> votesFor vote other < votesFor vote k)
      /\ getRoom (handleBuzzVoteEnd rooms roomCode now now') roomCode
         = Some room'
      /\ JsMap.get k (Room.players room')
         = option_map (Player.with_disabled true)
                      (JsMap.get k (Room.players room))
      /\ (forall other, other <> k ->
            JsMap.get other (Room.players room')
            = JsMap.get other (Room.players room))
      /\ JsMap.keys (Room.players room') = JsMap.keys (Room.players room)
      /\ Room.winner room' = Room.winner room
      /\ (Room.bugger room = Some k \/ checkBuggerWin room' = true ->
          Room.gameState room' = Results)
      /\ (Room.bugger room <> Some k -> checkBuggerWin room' = false ->
          Room.gameState room' = Room.gameState room
          /\ Room.buzzedPlayer room' = None
          /\ Room.paused room' = false).
Proof.
  intros rooms roomCode now now' room vote G V C.
  pose proof (tallyOf_spec vote) as T.
  assert (Hpos : 0 < Tally.maxVotes (tallyOf vote)).
  { unfold Tally.clear in C. apply andb_true_iff in C as [C _].
    now apply Nat.ltb_lt in C. }
  assert (Hlt : Tally.secondMaxVotes (tallyOf vote)
                < Tally.maxVotes (tallyOf vote)).
  { unfold Tally.clear in C. apply andb_true_iff in C as [_ C].
    now apply Nat.ltb_lt in C. }
  destruct (tally_leader _ _ T) as (k & Ek & Hin & _).
  { intros E. rewrite (tally_empty _ _ T E) in Hpos. simpl in Hpos. lia. }
  apply entry_votesFor in Hin as [Emax _].
  destruct (handleBuzzVoteEnd_effect rooms roomCode now now' room vote G V)
    as (room' & E & A & P & W & B & D & _ & _ & Hend & Hgo).
  rewrite C, Ek in P, Hend, Hgo. cbn [andb] in Hend, Hgo.
  destruct (disablePlayer_players k room) as (Po & Pk & Pkeys).
  assert (Wext : checkBuggerWin room'
                 = checkBuggerWin (disablePlayer (Some k) room)).
  { assert (Fb : Room.bugger (disablePlayer (Some k) room) = Room.bugger room
                 /\ Room.debuggers (disablePlayer (Some k) room)
                    = Room.debuggers room).
    { unfold disablePlayer.
      destruct (JsMap.get k (Room.players room)); split; reflexivity. }
    destruct Fb as [Fb Fd].
    apply checkBuggerWin_ext; [exact P | now rewrite B, Fb | now rewrite D, Fd]. }
  exists k, room'. split; [exact Ek|]. split.
  { intros other N.
    destruct (Nat.eq_dec (votesFor vote other) 0) as [Z|NZ]; [lia|].
    assert (H : votesFor vote other <= Tally.secondMaxVotes (tallyOf vote)).
    { apply (tally_others _ _ T other); [apply votesFor_entry; lia|].
      rewrite Ek. congruence. }
    lia. }
  split; [rewrite E; apply JsMapFacts.get_set_same|].
  rewrite P. split; [exact Pk|]. split; [exact Po|]. split; [exact Pkeys|].
  split; [exact W|]. split.
  - intros H. apply Hend. rewrite <- Wext.
    destruct H as [H|H].
    + rewrite H. cbn. now rewrite String.eqb_refl.
    + rewrite H. apply orb_true_r.
  - intros N Hw. apply Hgo. rewrite <- Wext, Hw, orb_false_r.
    destruct (Room.bugger room) as [b|]; cbn; [|reflexivity].
    apply String.eqb_neq. congruence.
Qed.

Lemma handleBuzzVoteEnd_decisive_witness :
  exists room',
    getRoom Demo.bobOut "ABCD" = Some room'
    /\ option_map Player.disabled (JsMap.get "p2" (Room.players room'))
       = Some true
    /\ Room.gameState room' = Results.
Proof.
  set (voted := fold_left (step Demo.noSyntaxError)
                  [ CastBuzzVote "ABCD" "p3" "p2" 32000 32000;
                    CastBuzzVote "ABCD" "p1" "p2" 33000 33000 ] Demo.buzzed).
  set (before := snd (castBuzzVote voted "ABCD" "p2" "skip")).
  assert (Hb : Demo.bobOut = handleBuzzVoteEnd before "ABCD" 34000 34000)
    by (vm_compute; reflexivity).
  assert (G : getRoom before "ABCD" = Some (Demo.theRoom before))
    by (vm_compute; reflexivity).
  assert (V : Room.activeVote (Demo.theRoom before)
              = Some (Vote.mk "p2" "Bob" "vote_kick"
                              [("p3", "p2"); ("p1", "p2")] ["p2"] 31000 60000))
    by (vm_compute; reflexivity).
  destruct (handleBuzzVoteEnd_decisive before "ABCD" 34000%Z 34000%Z _ _ G V)
    as (k & room' & Ek & _ & Gr & Pk & _ & _ & _ & Hend & _).
  - vm_compute. reflexivity.
  - vm_compute in Ek. injection Ek as <-.
    exists room'. rewrite Hb. split; [exact Gr|]. split.
    + rewrite Pk. vm_compute. reflexivity.
    + apply Hend. right.
      assert (E : Some room' = Some (Demo.theRoom Demo.bobOut)).
      { rewrite <- Gr, <- Hb. vm_compute. reflexivity. }
      apply Some_inj in E. subst room'. vm_compute. reflexivity.
Defined.

(** X13: a buzz does not lead to a fix.  While the vote opened by a buzz
    is open, [validateFix] refuses every player; once [handleBuzzVoteEnd]
    has run, either the game is over or [buzzedPlayer] is cleared and
    [validateFix] again refuses every player, the buzzer included. *)
Theorem no_fix_after_vote :
  forall rooms roomCode now now' room vote,
    getRoom rooms roomCode = Some room ->
    Room.activeVote room = Some vote ->
    (forall playerId fixedCode,
        validateFix rooms roomCode playerId fixedCode
        = Error "Wait for vote to complete"
        \/ validateFix rooms roomCode playerId fixedCode
           = Error "Only the buzzed player can submit a fix")
    /\ exists room',
         getRoom (handleBuzzVoteEnd rooms roomCode now now') roomCode
         = Some room'
         /\ (Room.gameState room' = Results
             \/ Room.buzzedPlayer room' = None
                /\ forall playerId fixedCode,
                     validateFix (handleBuzzVoteEnd rooms roomCode now now')
                                 roomCode playerId fixedCode
                     = Error "Only the buzzed player can submit a fix").
Proof.
  intros rooms roomCode now now' room vote G V. split.
  - intros playerId fixedCode. unfold validateFix. unfold getRoom in G.
    rewrite G, V.
    destruct (optStringEqb (Room.buzzedPlayer room) (Some playerId)); auto.
  - destruct (handleBuzzVoteEnd_effect rooms roomCode now now' room vote G V)
      as (room' & E & A & _ & _ & _ & _ & _ & _ & Hend & Hgo).
    exists room'. rewrite E. split; [apply JsMapFacts.get_set_same|].
    match type of Hend with ?b = true -> _ => destruct b end.
    + left. now apply Hend.
    + right. destruct (Hgo eq_refl) as (_ & Hb & _). split; [exact Hb|].
      intros playerId fixedCode. unfold validateFix.
      now rewrite JsMapFacts.get_set_same, Hb.
Qed.

Lemma no_fix_after_vote_witness :
  validateFix Demo.twoVotes "ABCD" "p2" correctCode1
  = Error "Wait for vote to complete"
  /\ validateFix (handleBuzzVoteEnd Demo.twoVotes "ABCD" 91000 91000)
                 "ABCD" "p2" correctCode1
     = Error "Only the buzzed player can submit a fix".
Proof.
  assert (G : getRoom Demo.twoVotes "ABCD" = Some (Demo.theRoom Demo.twoVotes))
    by (vm_compute; reflexivity).
  destruct (no_fix_after_vote Demo.twoVotes "ABCD" 91000%Z 91000%Z _
              (Vote.mk "p2" "Bob" "vote_kick" [("p3", "p1"); ("p1", "p2")]
                       [] 31000 60000) G)
    as (H1 & room' & Gr & H2).
  - vm_compute. reflexivity.
  - split; [vm_compute; reflexivity|].
    destruct H2 as [H2|[_ H2]]; [|apply H2].
    exfalso.
    assert (E : Some room'
                = Some (Demo.theRoom
                          (handleBuzzVoteEnd Demo.twoVotes "ABCD" 91000 91000))).
    { rewrite <- Gr. vm_compute. reflexivity. }
    apply Some_inj in E. subst room'. vm_compute in H2. discriminate H2.
Defined.




(* ------------------------------------------------------------------ *)
(** ** More on the round timer *)

(** X15: the time a round spends paused does not count.  When a running
    timer is paused at [t1] with [rem] seconds left and resumed at [t2],
    then at any later time [t3] the remaining time is [max(0, rem)] less
    the whole seconds run since [t2], whatever the length of the pause. *)
Theorem paused_time_does_not_count :
  forall rooms roomCode room t1 t2 t2' t3 rem,
    getRoom rooms roomCode = Some room ->
    Room.paused room = false ->
    remainingAt t1 room = Some rem ->
    (t2 <= t3)%Z ->
    let resumed :=
      snd (resumeRoundTimer (pauseRoundTimer rooms roomCode t1) roomCode t2 t2') in
    exists room',
      getRoom resumed roomCode = Some room'
      /\ Room.paused room' = false
      /\ Room.pausedTimeRemaining room' = None
      /\ remainingAt t3 room' = Some (Z.max 0 rem - (t3 - t2) / 1000)%Z
      /\ Room.roundDuration room' = Room.roundDuration room.
Proof.
  intros rooms roomCode room t1 t2 t2' t3 rem G P R T resumed.
  unfold resumed. rewrite (pauseRoundTimer_running rooms roomCode room G t1 rem P R).
  unfold resumeRoundTimer, getRoom. rewrite JsMapFacts.get_set_same.
  cbn [Room.paused Room.timerPaused Room.with_pausedTimeRemaining
       Room.with_timerPaused negb Room.pausedTimeRemaining snd].
  rewrite JsMapFacts.set_set, JsMapFacts.get_set_same.
  eexists. split; [reflexivity|]. repeat split.
  unfold remainingAt, elapsedAt.
  cbn [Room.roundStartTime Room.with_pausedTimeRemaining Room.with_timerPaused
       Room.with_roundStartTime Room.roundDuration]. f_equal.
  set (D := Room.roundDuration room). set (p := Z.max 0 rem).
  replace (t3 - (t2 - (D - p) * 1000))%Z
    with ((D - p) * 1000 + (t3 - t2))%Z by lia.
  rewrite Z.div_add_l by lia. lia.
Qed.

Lemma paused_time_does_not_count_witness :
  exists room',
    getRoom (snd (resumeRoundTimer (pauseRoundTimer Demo.started "ABCD" 31000)
                                   "ABCD" 500000 500000)) "ABCD"
    = Some room'
    /\ remainingAt 520000 room' = Some 40%Z.
Proof.
  assert (G : getRoom Demo.started "ABCD" = Some (Demo.theRoom Demo.started))
    by (vm_compute; reflexivity).
  destruct (paused_time_does_not_count Demo.started "ABCD" _ 31000%Z 500000%Z
              500000%Z 520000%Z 60%Z G) as (room' & Gr & _ & _ & H & _).
  - vm_compute. reflexivity.
  - vm_compute. reflexivity.
  - lia.
  - exists room'. split; [exact Gr|]. rewrite H. reflexivity.
Defined.

(** X16: [pauseRoundTimer] keeps the first snapshot: pausing a timer that
    is already paused changes nothing, so pausing twice is the same as
    pausing once; and the snapshot of a round of non-negative duration,
    taken no earlier than the round started, lies between 0 and the
    duration of the round. *)
Theorem pauseRoundTimer_snapshot :
  forall rooms roomCode now later room start,
    getRoom rooms roomCode = Some room ->
    Room.roundStartTime room = At start ->
    (start <= now)%Z ->
    (0 <= Room.roundDuration room)%Z ->
    pauseRoundTimer (pauseRoundTimer rooms roomCode now) roomCode later
    = pauseRoundTimer rooms roomCode now
    /\ exists room' p,
         getRoom (pauseRoundTimer rooms roomCode now) roomCode = Some room'
         /\ Room.paused room' = true
         /\ (Room.paused room = false ->
             Room.pausedTimeRemaining room' = Some p
             /\ (0 <= p <= Room.roundDuration room)%Z).
Proof.
  intros rooms roomCode now later room start G S T D.
  destruct (Room.paused room) eqn:P.
  - assert (E : pauseRoundTimer rooms roomCode now = rooms).
    { unfold pauseRoundTimer. now rewrite G, P. }
    rewrite !E. split; [unfold pauseRoundTimer; now rewrite G, P|].
    exists room, 0%Z. split; [exact G|]. split; [exact P | discriminate].
  - assert (R : remainingAt now room
                = Some (Room.roundDuration room - (now - start) / 1000)%Z).
    { unfold remainingAt, elapsedAt. now rewrite S. }
    rewrite (pauseRoundTimer_running rooms roomCode room G now _ P R).
    split.
    + unfold pauseRoundTimer, getRoom. now rewrite JsMapFacts.get_set_same.
    + eexists. eexists. unfold getRoom. rewrite JsMapFacts.get_set_same.
      split; [reflexivity|]. split; [reflexivity|]. intros _.
      split; [reflexivity|].
      assert (0 <= (now - start) / 1000)%Z by (apply Z.div_pos; lia). lia.
Qed.

Lemma pauseRoundTimer_snapshot_witness :
  pauseRoundTimer (pauseRoundTimer Demo.started "ABCD" 31000) "ABCD" 77000
  = pauseRoundTimer Demo.started "ABCD" 31000.
Proof.
  assert (G : getRoom Demo.started "ABCD" = Some (Demo.theRoom Demo.started))
    by (vm_compute; reflexivity).
  apply (pauseRoundTimer_snapshot Demo.started "ABCD" 31000%Z 77000%Z _
           1000%Z G).
  - vm_compute. reflexivity.
  - lia.
  - vm_compute. discriminate.
Defined.

(** X17: while a vote is open the round cannot time out: in every store
    the server can reach, a tick of the round timer on a room with an open
    vote changes nothing, however late the clock. *)
Theorem roundTick_during_vote :
  forall newFunction rooms roomCode room finalCode shuffled picks now,
    Reachable newFunction rooms ->
    getRoom rooms roomCode = Some room ->
    Room.activeVote room <> None ->
    roundTick newFunction rooms roomCode finalCode shuffled picks now = rooms.
Proof.
  intros newFunction rooms roomCode room finalCode shuffled picks now R.
  assert (O : StoreOk rooms).
  { induction R; [apply Exclusion.ok_empty | now apply ExclusionSteps.step_ok]. }
  intros G V.
  pose proof (Exclusion.ok_get _ _ _ O G) as H.
  unfold votePausesTimer in H.
  destruct (Room.activeVote room); [|contradiction].
  unfold roundTick. rewrite G, H.
  now destruct (negb (isPlaying (Room.gameState room))).
Qed.

Lemma roundTick_during_vote_witness :
  roundTick Demo.noSyntaxError Demo.twoVotes "ABCD" None [] [] 1000000
  = Demo.twoVotes.
Proof.
  assert (G : getRoom Demo.twoVotes "ABCD" = Some (Demo.theRoom Demo.twoVotes))
    by (vm_compute; reflexivity).
  apply (roundTick_during_vote Demo.noSyntaxError Demo.twoVotes "ABCD" _
           None [] [] 1000000%Z demo_reachable G).
  vm_compute. intros H. discriminate H.
Defined.

(* ------------------------------------------------------------------ *)
(** ** What every reachable room satisfies *)

Module Invariant.

Lemma inv_empty : StoreInv JsMap.empty.
Proof. intros c r []. Qed.

Lemma inv_get rooms roomCode room :
  StoreInv rooms -> JsMap.get roomCode rooms = Some room -> RoomInv room.
Proof. intros H G. apply (H roomCode). now apply JsMapFacts.get_In. Qed.

Lemma inv_set rooms roomCode room :
  StoreInv rooms -> RoomInv room -> StoreInv (JsMap.set roomCode room rooms).
Proof.
  intros H P c r Hin. apply JsMapFacts.In_set in Hin as [[= -> ->]|Hin].
  - exact P.
  - now apply (H c).
Qed.

Lemma inv_delete rooms roomCode :
  StoreInv rooms -> StoreInv (JsMap.delete roomCode rooms).
Proof. intros H c r Hin. apply (H c). now apply JsMapFacts.In_delete in Hin. Qed.

Lemma inv_filter rooms f :
  StoreInv rooms -> StoreInv (JsMap.filter f rooms).
Proof. intros H c r Hin. apply (H c). now apply JsMapFacts.In_filter in Hin. Qed.

Lemma size_keys {V} (m : JsMap.t V) : JsMap.size m = List.length (JsMap.keys m).
Proof. unfold JsMap.size, JsMap.keys. now rewrite length_map. Qed.

Lemma VoteOk_status room room' vote :
  (forall k, status room' k = status room k) ->
  VoteOk room vote -> VoteOk room' vote.
Proof.
  intros S [Hv Hs Ho]. constructor; [| |exact Ho].
  - intros voter target Hin. rewrite !S. now apply Hv.
  - intros voter Hin. rewrite S. now apply Hs.
Qed.

(** A write that keeps the rounds, the state of the game, the vote, the
    members of the room and their [disabled] flags. *)
Lemma RoomInv_same room room' :
  Room.totalRounds room' = Room.totalRounds room ->
  Room.currentRound room' = Room.currentRound room ->
  Room.gameState room' = Room.gameState room ->
  Room.activeVote room' = Room.activeVote room ->
  JsMap.keys (Room.players room') = JsMap.keys (Room.players room) ->
  (forall k, status room' k = status room k) ->
  RoomInv room -> RoomInv room'.
Proof.
  intros T C G V K S [I1 I2 I3 I4 I5 I6 I7].
  constructor; rewrite ?T, ?C, ?G, ?V, ?size_keys, ?K, <- ?size_keys; auto.
  intros vote E. apply (VoteOk_status room); auto.
Qed.

(** The same when only fields outside the invariant are written. *)
Lemma RoomInv_frame room room' :
  Room.totalRounds room' = Room.totalRounds room ->
  Room.currentRound room' = Room.currentRound room ->
  Room.gameState room' = Room.gameState room ->
  Room.activeVote room' = Room.activeVote room ->
  Room.players room' = Room.players room ->
  RoomInv room -> RoomInv room'.
Proof.
  intros T C G V P. apply RoomInv_same; auto; [now rewrite P|].
  intros k. unfold status. now rewrite P.
Qed.

Lemma status_set_same room k p p' players' :
  JsMap.get k (Room.players room) = Some p ->
  Player.disabled p' = Player.disabled p ->
  players' = JsMap.set k p' (Room.players room) ->
  forall k', option_map Player.disabled (JsMap.get k' players') = status room k'.
Proof.
  intros G D -> k'. unfold status. rewrite JsMapFacts.get_set.
  destruct (String.eqb k' k) eqn:E; [|reflexivity].
  apply String.eqb_eq in E; subst k'. rewrite G. cbn. now rewrite D.
Qed.

Lemma setRole_core role k room :
  let room' := roomOf (setRole role k room) in
  Room.totalRounds room' = Room.totalRounds room
  /\ Room.currentRound room' = Room.currentRound room
  /\ Room.gameState room' = Room.gameState room
  /\ Room.activeVote room' = Room.activeVote room
  /\ JsMap.keys (Room.players room') = JsMap.keys (Room.players room)
  /\ (forall k', status room' k' = status room k').
Proof.
  unfold setRole.
  destruct k as [k|]; cbn [getOpt];
    [destruct (JsMap.get k (Room.players room)) as [p|] eqn:G|];
    cbn [roomOf]; try (repeat split; reflexivity).
  repeat split; cbn [Room.players Room.with_players].
  - apply (JsMapMore.set_present _ _ _ _ G).
  - intros k'. unfold status at 1. cbn [Room.players Room.with_players].
    apply (status_set_same room k p (Player.with_role (Some role) p)); auto.
Qed.

Lemma core_trans (r1 r2 r3 : Room.t) :
  (Room.totalRounds r2 = Room.totalRounds r1
   /\ Room.currentRound r2 = Room.currentRound r1
   /\ Room.gameState r2 = Room.gameState r1
   /\ Room.activeVote r2 = Room.activeVote r1
   /\ JsMap.keys (Room.players r2) = JsMap.keys (Room.players r1)
   /\ (forall k, status r2 k = status r1 k)) ->
  (Room.totalRounds r3 = Room.totalRounds r2
   /\ Room.currentRound r3 = Room.currentRound r2
   /\ Room.gameState r3 = Room.gameState r2
   /\ Room.activeVote r3 = Room.activeVote r2
   /\ JsMap.keys (Room.players r3) = JsMap.keys (Room.players r2)
   /\ (forall k, status r3 k = status r2 k)) ->
  Room.totalRounds r3 = Room.totalRounds r1
  /\ Room.currentRound r3 = Room.currentRound r1
  /\ Room.gameState r3 = Room.gameState r1
  /\ Room.activeVote r3 = Room.activeVote r1
  /\ JsMap.keys (Room.players r3) = JsMap.keys (Room.players r1)
  /\ (forall k, status r3 k = status r1 k).
Proof.
  intros (A1 & A2 & A3 & A4 & A5 & A6) (B1 & B2 & B3 & B4 & B5 & B6).
  repeat split; try congruence; intros; rewrite ?B6; auto.
Qed.

Lemma setDebuggerRoles_core ids : forall room,
  let room' := roomOf (setDebuggerRoles ids room) in
  Room.totalRounds room' = Room.totalRounds room
  /\ Room.currentRound room' = Room.currentRound room
  /\ Room.gameState room' = Room.gameState room
  /\ Room.activeVote room' = Room.activeVote room
  /\ JsMap.keys (Room.players room') = JsMap.keys (Room.players room)
  /\ (forall k', status room' k' = status room k').
Proof.
  induction ids as [|i ids IH]; intros room; cbn [setDebuggerRoles].
  - cbn [roomOf]. repeat split.
  - pose proof (setRole_core Debugger (Some i) room) as H. cbv zeta in H.
    destruct (setRole Debugger (Some i) room) as [r|r]; cbn [roomOf] in *.
    + apply (core_trans room r); [exact H | apply IH].
    + exact H.
Qed.

Lemma assignRoles_core shuffled room :
  let room' := roomOf (assignRoles shuffled room) in
  Room.totalRounds room' = Room.totalRounds room
  /\ Room.currentRound room' = Room.currentRound room
  /\ Room.gameState room' = Room.gameState room
  /\ Room.activeVote room' = Room.activeVote room
  /\ JsMap.keys (Room.players room') = JsMap.keys (Room.players room)
  /\ (forall k', status room' k' = status room k').
Proof.
  unfold assignRoles.
  set (room1 := Room.with_debuggers (tl shuffled)
                  (Room.with_bugger (hd_error shuffled) room)).
  assert (H1 : Room.totalRounds room1 = Room.totalRounds room
               /\ Room.currentRound room1 = Room.currentRound room
               /\ Room.gameState room1 = Room.gameState room
               /\ Room.activeVote room1 = Room.activeVote room
               /\ JsMap.keys (Room.players room1) = JsMap.keys (Room.players room)
               /\ (forall k, status room1 k = status room k))
    by (repeat split).
  pose proof (setRole_core Bugger (Room.bugger room1) room1) as H2.
  cbv zeta in H2.
  destruct (setRole Bugger (Room.bugger room1) room1) as [r|r];
    cbn [roomOf] in *.
  - apply (core_trans room room1); [exact H1|].
    apply (core_trans room1 r); [exact H2 | apply setDebuggerRoles_core].
  - apply (core_trans room room1); assumption.
Qed.

End Invariant.

Module InvariantSteps.

Import Invariant.

Lemma VoteOk_empty room playerId name now : VoteOk room (newVote playerId name now).
Proof.
  constructor; cbn.
  - intros voter target [].
  - intros voter [].
  - constructor.
Qed.

Lemma In_keys {V} k (v : V) m : In (k, v) m -> In k (JsMap.keys m).
Proof. intros H. unfold JsMap.keys. change k with (fst (k, v)). now apply in_map. Qed.

Lemma VoteOk_add_skip room vote voter :
  VoteOk room vote ->
  status room voter = Some false ->
  JsMap.has voter (Vote.votes vote) = false ->
  JsSet.has voter (Vote.skips vote) = false ->
  VoteOk room (Vote.with_skips (JsSet.add voter (Vote.skips vote)) vote).
Proof.
  intros [Hv Hs Ho] S Nv Ns. unfold JsSet.add. rewrite Ns.
  constructor; cbn [Vote.votes Vote.skips Vote.with_skips].
  - exact Hv.
  - intros k Hin. apply in_app_or in Hin as [Hin|[<-|[]]]; auto.
  - rewrite app_assoc.
    apply (Permutation_NoDup (Permutation_cons_append _ voter)).
    constructor; [|exact Ho].
    intros Hin. apply in_app_or in Hin as [Hin|Hin].
    + apply JsMapMore.has_true_keys in Hin. congruence.
    + apply JsMapMore.JsSet_has_In in Hin. congruence.
Qed.

Lemma VoteOk_add_vote room vote voter target :
  VoteOk room vote ->
  status room voter = Some false ->
  status room target = Some false ->
  voter <> target ->
  JsMap.has voter (Vote.votes vote) = false ->
  JsSet.has voter (Vote.skips vote) = false ->
  VoteOk room
    (Vote.with_votes (JsMap.set voter target (Vote.votes vote)) vote).
Proof.
  intros [Hv Hs Ho] S St Ne Nv Ns.
  assert (A : JsMap.get voter (Vote.votes vote) = None).
  { unfold JsMap.has in Nv. now destruct (JsMap.get voter (Vote.votes vote)). }
  rewrite (JsMapMore.set_absent _ _ _ A).
  constructor; cbn [Vote.votes Vote.skips Vote.with_votes].
  - intros k t Hin. apply in_app_or in Hin as [Hin|[[= <- <-]|[]]]; auto.
  - exact Hs.
  - unfold JsMap.keys. rewrite map_app. cbn [map fst].
    rewrite <- app_assoc. cbn [app].
    apply (Permutation_NoDup (Permutation_middle _ _ voter)).
    constructor; [|exact Ho].
    intros Hin. apply in_app_or in Hin as [Hin|Hin].
    + apply JsMapMore.has_true_keys in Hin. congruence.
    + apply JsMapMore.JsSet_has_In in Hin. congruence.
Qed.

(** Opening or replacing a vote outside the lobby. *)
Lemma RoomInv_with_vote room room' vote' :
  RoomInv room ->
  Room.gameState room <> Lobby ->
  VoteOk room vote' ->
  Room.totalRounds room' = Room.totalRounds room ->
  Room.currentRound room' = Room.currentRound room ->
  Room.gameState room' = Room.gameState room ->
  Room.players room' = Room.players room ->
  Room.activeVote room' = Some vote' ->
  RoomInv room'.
Proof.
  intros [I1 I2 I3 I4 I5 I6 I7] L W T C G P V.
  constructor; rewrite ?T, ?C, ?G, ?P; auto; [contradiction|].
  intros vote E. rewrite V in E. injection E as <-.
  apply (VoteOk_status room); [|exact W].
  intros k. unfold status. now rewrite P.
Qed.

(** Closing the vote, with any change of the players that keeps them six
    at most and distinct. *)
Lemma RoomInv_no_vote room room' :
  RoomInv room ->
  Room.totalRounds room' = Room.totalRounds room ->
  Room.currentRound room' <= 1 ->
  (Room.gameState room' = Playing -> Room.currentRound room' = 1) ->
  JsMap.size (Room.players room') <= 6 ->
  NoDup (JsMap.keys (Room.players room')) ->
  Room.activeVote room' = None ->
  RoomInv room'.
Proof.
  intros [I1 I2 I3 I4 I5 I6 I7] T C G S N V.
  constructor; rewrite ?T; auto. intros vote E. congruence.
Qed.

(** Ending the game. *)
Lemma RoomInv_results room room' :
  RoomInv room ->
  Room.totalRounds room' = Room.totalRounds room ->
  Room.currentRound room' = Room.currentRound room ->
  Room.gameState room' = Results ->
  Room.activeVote room' = Room.activeVote room ->
  Room.players room' = Room.players room ->
  RoomInv room'.
Proof.
  intros [I1 I2 I3 I4 I5 I6 I7] T C G V P.
  constructor; rewrite ?T, ?C, ?G, ?V, ?P; auto; try discriminate.
  intros vote E. apply (VoteOk_status room); auto.
  intros k. unfold status. now rewrite P.
Qed.

Lemma createRoom_inv rooms c p n now :
  StoreInv rooms -> StoreInv (onCreateRoom rooms c p n now).
Proof.
  intros O. unfold onCreateRoom, createRoom. cbn [snd].
  apply inv_set; [exact O|].
  constructor; cbn; auto; try discriminate;
    try (intros vote [=]); repeat constructor; intros [].
Qed.

Lemma joinRoom_inv rooms c p n :
  StoreInv rooms -> StoreInv (onJoinRoom rooms c p n).
Proof.
  intros O. unfold onJoinRoom, getRoom, addPlayerToRoom.
  destruct (JsMap.get c rooms) as [room|] eqn:G; [|exact O].
  destruct (6 <=? JsMap.size (Room.players room)) eqn:F; [exact O|].
  destruct (isLobby (Room.gameState room)) eqn:L; [|exact O].
  cbn [negb snd]. apply inv_set; [exact O|].
  pose proof (inv_get _ _ _ O G) as I.
  assert (Lb : Room.gameState room = Lobby)
    by (destruct (Room.gameState room); [reflexivity|discriminate..]).
  apply Nat.leb_gt in F.
  pose proof (JsMapMore.size_set p
                (newPlayer p n (JsMap.size (Room.players room) =? 0))
                (Room.players room)) as Sz.
  pose proof (TallyFacts.NoDup_keys_set p
                (newPlayer p n (JsMap.size (Room.players room) =? 0))
                (Room.players room) (inv_keys _ I)) as Nd.
  pose proof (inv_lobby _ I Lb) as V.
  pose proof (inv_round _ I) as R.
  unfold JsMap.size in *.
  destruct (JsMap.has p (Room.players room)) in Sz;
    destruct (Room.emptyTimeout room);
    cbn [Room.players Room.with_emptyTimeout];
    destruct (List.length (Room.players room) =? 0);
    (apply (RoomInv_no_vote room); [exact I|..]);
    cbn [Room.players Room.with_players Room.with_hostId
         Room.with_emptyTimeout Room.totalRounds Room.currentRound
         Room.gameState Room.activeVote];
    unfold JsMap.size; auto; try lia; try congruence.
Qed.

Lemma playerReady_inv rooms c p :
  StoreInv rooms -> StoreInv (onPlayerReady rooms c p).
Proof.
  intros O. unfold onPlayerReady, getRoom.
  destruct (JsMap.get c rooms) as [room|] eqn:G; [|exact O].
  destruct (JsMap.get p (Room.players room)) as [player|] eqn:Gp; [|exact O].
  apply inv_set; [exact O|].
  apply (RoomInv_same room); try reflexivity; [| |exact (inv_get _ _ _ O G)].
  - cbn. apply (JsMapMore.set_present _ _ _ _ Gp).
  - intros k. unfold status at 1. cbn [Room.players Room.with_players].
    apply (status_set_same room p player
             (Player.with_isReady (negb (Player.isReady player)) player));
      auto.
Qed.

Lemma clearBuzzVote_inv rooms c :
  StoreInv rooms -> StoreInv (snd (clearBuzzVote rooms c)).
Proof.
  intros O. unfold clearBuzzVote.
  destruct (JsMap.get c rooms) as [room|] eqn:G; [|exact O].
  cbn [snd]. apply inv_set; [exact O|].
  pose proof (inv_get _ _ _ O G) as I.
  apply (RoomInv_no_vote room); auto; apply I.
Qed.

Lemma removePlayer_inv rooms c p :
  StoreInv rooms ->
  (forall room, JsMap.get c rooms = Some room -> Room.activeVote room = None) ->
  StoreInv (snd (removePlayerFromRoom rooms c p)).
Proof.
  intros O V. unfold removePlayerFromRoom.
  destruct (JsMap.get c rooms) as [room|] eqn:G; [|exact O].
  cbn [snd]. apply inv_set; [exact O|].
  pose proof (inv_get _ _ _ O G) as I. specialize (V room eq_refl).
  set (remaining := JsMap.delete p (Room.players room)).
  assert (Sz : JsMap.size remaining <= 6).
  { pose proof (JsMapMore.size_delete p (Room.players room)).
    pose proof (inv_size _ I). unfold remaining. lia. }
  assert (Nd : NoDup (JsMap.keys remaining)).
  { apply JsMapMore.NoDup_keys_delete, I. }
  cbn [Room.hostId Room.players Room.with_players]. fold remaining.
  apply (RoomInv_no_vote room); [exact I|..];
    destruct (optStringEqb (Room.hostId room) (Some p));
    destruct remaining as [|[k first] rest];
    cbn; rewrite ?String.eqb_refl; cbn; auto; try apply I.
Qed.

Lemma onLeaveRoom_inv rooms c p :
  StoreInv rooms -> StoreInv (onLeaveRoom rooms c p).
Proof.
  intros O. unfold onLeaveRoom, getRoom.
  destruct (JsMap.get c rooms) as [room|] eqn:G.
  - destruct (Room.activeVote room) as [vote|] eqn:V.
    + apply removePlayer_inv; [now apply clearBuzzVote_inv|].
      unfold clearBuzzVote. rewrite G. cbn [snd].
      intros r. rewrite JsMapFacts.get_set_same. now intros [= <-].
    + apply removePlayer_inv; [exact O|]. intros r. rewrite G. now intros [= <-].
  - apply removePlayer_inv; [exact O|]. intros r. rewrite G. discriminate.
Qed.

Lemma startGame_inv rooms c shuffled picks now :
  StoreInv rooms -> StoreInv (snd (startGame rooms c shuffled picks now)).
Proof.
  intros O. unfold startGame.
  destruct (JsMap.get c rooms) as [room|] eqn:G; [|exact O].
  destruct (JsMap.size (Room.players room) <? 3); [exact O|].
  pose proof (inv_get _ _ _ O G) as I.
  set (room0 := Room.with_currentRound 1 (Room.with_gameState Playing room)).
  assert (I0 : RoomInv room0).
  { destruct I as [I1 I2 I3 I4 I5 I6 I7].
    constructor; cbn; auto; try discriminate.
    intros vote E. apply (VoteOk_status room); [reflexivity | auto]. }
  pose proof (assignRoles_core shuffled room0) as (T & C & Gs & V & K & S).
  assert (I1 : RoomInv (roomOf (assignRoles shuffled room0))).
  { apply (RoomInv_same room0); auto. }
  destruct (assignRoles shuffled room0) as [r|r]; cbn [roomOf snd] in *.
  - apply inv_set; [exact O|].
    apply (RoomInv_no_vote r); auto; try apply I1.
  - apply inv_set; [exact O | exact I1].
Qed.

Lemma onStartGame_inv rooms c p shuffled picks now :
  StoreInv rooms -> StoreInv (onStartGame rooms c p shuffled picks now).
Proof.
  intros O. unfold onStartGame, getRoom.
  destruct (JsMap.get c rooms); [|exact O].
  destruct (negb _); [exact O|]. now apply startGame_inv.
Qed.

Lemma endRound_inv nf rooms c finalCode shuffled picks now :
  StoreInv rooms ->
  StoreInv (snd (endRound nf rooms c finalCode shuffled picks now)).
Proof.
  intros O. unfold endRound.
  destruct (JsMap.get c rooms) as [room|] eqn:G; [|exact O].
  pose proof (inv_get _ _ _ O G) as I.
  destruct (Room.totalRounds room <=? Room.currentRound room) eqn:F.
  - cbn [snd]. apply inv_set; [exact O|].
    unfold finalVerdict.
    destruct (Check.codeHasErrors _); now apply (RoomInv_results room).
  - apply Nat.leb_gt in F.
    set (room0 := Room.with_currentRound (Room.currentRound room + 1) room).
    assert (I0 : RoomInv room0).
    { destruct I as [I1 I2 I3 I4 I5 I6 I7].
      constructor; cbn; auto; try lia.
      intros vote E. apply (VoteOk_status room); [reflexivity | auto]. }
    pose proof (assignRoles_core shuffled room0) as (T & C & Gs & V & K & S).
    assert (I1 : RoomInv (roomOf (assignRoles shuffled room0))).
    { apply (RoomInv_same room0); auto. }
    destruct (assignRoles shuffled room0) as [r|r]; cbn [roomOf snd] in *.
    + apply inv_set; [exact O|].
      apply (RoomInv_no_vote r); auto; try apply I1.
    + apply inv_set; [exact O | exact I1].
Qed.

Lemma roundTick_inv nf rooms c finalCode shuffled picks now :
  StoreInv rooms -> StoreInv (roundTick nf rooms c finalCode shuffled picks now).
Proof.
  intros O. unfold roundTick, handleEndRound, getRoom.
  repeat break_match; try exact O. now apply endRound_inv.
Qed.

Lemma onBuzz_inv rooms c p now now' :
  StoreInv rooms -> StoreInv (onBuzz rooms c p now now').
Proof.
  intros O. unfold onBuzz, handleBuzz.
  destruct (JsMap.get c rooms) as [room|] eqn:G; [|exact O].
  pose proof (inv_get _ _ _ O G) as I.
  destruct (isPlaying (Room.gameState room)) eqn:Pl; [|exact O].
  assert (Hp : Room.gameState room = Playing)
    by (destruct (Room.gameState room); [discriminate|reflexivity|discriminate]).
  cbn [negb].
  destruct (JsMap.get p (Room.players room)) as [player|] eqn:Gp.
  - destruct (Player.disabled player); [exact O|].
    unfold pauseRoundTimer, getRoom. rewrite JsMapFacts.get_set_same.
    match goal with
    | |- context [if Room.paused ?r then _ else _] => destruct (Room.paused r)
    end; rewrite ?JsMapFacts.set_set; apply inv_set; try exact O;
      apply (RoomInv_with_vote room _ (newVote p (Player.name player) now));
      auto; try reflexivity; try congruence; apply VoteOk_empty.
  - apply inv_set; [exact O|]. now apply (RoomInv_frame room).
Qed.

Lemma castBuzzVote_inv rooms c p target :
  StoreInv rooms -> StoreInv (snd (castBuzzVote rooms c p target)).
Proof.
  intros O. unfold castBuzzVote.
  destruct (JsMap.get c rooms) as [room|] eqn:G; [|exact O].
  pose proof (inv_get _ _ _ O G) as I.
  destruct (Room.activeVote room) as [vote|] eqn:V; [|exact O].
  destruct (negb _); [exact O|].
  destruct (JsMap.get p (Room.players room)) as [voter|] eqn:Gv; [|exact O].
  destruct (Player.disabled voter) eqn:Dv; [exact O|].
  destruct (JsMap.has p (Vote.votes vote) || JsSet.has p (Vote.skips vote))
    eqn:Hv; [exact O|].
  apply orb_false_iff in Hv as [Hv Hs].
  assert (L : Room.gameState room <> Lobby).
  { intros E. pose proof (inv_lobby _ I E). congruence. }
  assert (Sv : status room p = Some false).
  { unfold status. now rewrite Gv, <- Dv. }
  pose proof (inv_vote _ I vote V) as W.
  destruct (String.eqb target "skip").
  - cbn [snd]. apply inv_set; [exact O|].
    apply (RoomInv_with_vote room _
             (Vote.with_skips (JsSet.add p (Vote.skips vote)) vote));
      auto. now apply VoteOk_add_skip.
  - destruct (JsMap.get target (Room.players room)) as [tp|] eqn:Gt; [|exact O].
    destruct (Player.disabled tp) eqn:Dt; [exact O|].
    destruct (String.eqb p target) eqn:Ne; [exact O|].
    apply String.eqb_neq in Ne.
    cbn [snd]. apply inv_set; [exact O|].
    apply (RoomInv_with_vote room _
             (Vote.with_votes (JsMap.set p target (Vote.votes vote)) vote));
      auto.
    apply VoteOk_add_vote; auto. unfold status. now rewrite Gt, <- Dt.
Qed.

Lemma disablePlayer_keys kick room :
  JsMap.keys (Room.players (disablePlayer kick room))
  = JsMap.keys (Room.players room).
Proof.
  destruct kick as [k|]; [|reflexivity]. apply disablePlayer_players.
Qed.

Lemma handleBuzzVoteEnd_inv rooms c now now' :
  StoreInv rooms -> StoreInv (handleBuzzVoteEnd rooms c now now').
Proof.
  intros O.
  destruct (getRoom rooms c) as [room|] eqn:G;
    [|unfold handleBuzzVoteEnd; now rewrite G].
  destruct (Room.activeVote room) as [vote|] eqn:V;
    [|unfold handleBuzzVoteEnd, getBuzzVoteResult; now rewrite G, V].
  destruct (handleBuzzVoteEnd_effect rooms c now now' room vote G V)
    as (room' & E & A & P & _ & _ & _ & C & T & Hend & Hgo).
  rewrite E. apply inv_set; [exact O|].
  pose proof (inv_get _ _ _ O G) as I.
  assert (K : JsMap.keys (Room.players room') = JsMap.keys (Room.players room)).
  { rewrite P. destruct (Tally.clear (tallyOf vote)); [|reflexivity].
    apply disablePlayer_keys. }
  apply (RoomInv_no_vote room); auto; rewrite ?C, ?size_keys, ?K,
    <- ?size_keys; try apply I.
  intros Pl.
  match type of Hend with ?b = true -> _ => destruct b end.
  - destruct (Hend eq_refl) as [H _]. congruence.
  - destruct (Hgo eq_refl) as [H _]. apply I. congruence.
Qed.

Lemma onCastBuzzVote_inv rooms c p target now now' :
  StoreInv rooms -> StoreInv (onCastBuzzVote rooms c p target now now').
Proof.
  intros O. unfold onCastBuzzVote.
  pose proof (castBuzzVote_inv rooms c p target O) as H.
  destruct (castBuzzVote rooms c p target) as [[| |[v allVoted]|] rooms'];
    cbn [snd] in H; try exact H.
  destruct allVoted; [now apply handleBuzzVoteEnd_inv | exact H].
Qed.

Lemma onSubmitFix_inv rooms c p fixedCode :
  StoreInv rooms -> StoreInv (onSubmitFix rooms c p fixedCode).
Proof.
  intros O. unfold onSubmitFix, getRoom.
  destruct (validateFix rooms c p fixedCode); try exact O.
  destruct (JsMap.get c rooms) as [room|] eqn:G; [|exact O].
  destruct (JsMap.get p (Room.players room)); [|exact O].
  apply inv_set; [exact O|].
  apply (RoomInv_frame room); auto. exact (inv_get _ _ _ O G).
Qed.

Lemma onSubmitBug_inv rooms c p buggedCode :
  StoreInv rooms -> StoreInv (onSubmitBug rooms c p buggedCode).
Proof.
  intros O. unfold onSubmitBug, getRoom.
  destruct (JsMap.get c rooms) as [room|] eqn:G; [|exact O].
  destruct (negb _); [exact O|].
  destruct (Room.currentCode room); [|exact O].
  apply inv_set; [exact O|].
  apply (RoomInv_frame room); auto. exact (inv_get _ _ _ O G).
Qed.

Lemma onPlayAgain_inv rooms c :
  StoreInv rooms -> StoreInv (onPlayAgain rooms c).
Proof.
  intros O. unfold onPlayAgain, resetGame.
  destruct (JsMap.get c rooms) as [room|] eqn:G; [|exact O].
  cbn [snd]. apply inv_set; [exact O|].
  pose proof (inv_get _ _ _ O G) as I.
  apply (RoomInv_no_vote room); auto; cbn [Room.players Room.with_players
    Room.currentRound Room.gameState Room.with_currentRound
    Room.with_gameState Room.with_roundStartTime Room.with_currentCode
    Room.with_bugger Room.with_debuggers Room.with_buzzedPlayer
    Room.with_activeVote Room.with_winner Room.with_winReason];
    rewrite ?size_keys, ?JsMapFacts.keys_mapValues, <- ?size_keys;
    try apply I; try lia; try discriminate.
Qed.

Lemma step_inv nf rooms e :
  StoreInv rooms -> StoreInv (step nf rooms e).
Proof.
  intros O. destruct e; simpl.
  - now apply createRoom_inv.
  - now apply joinRoom_inv.
  - now apply playerReady_inv.
  - now apply onStartGame_inv.
  - now apply onBuzz_inv.
  - now apply onCastBuzzVote_inv.
  - now apply onSubmitFix_inv.
  - now apply onSubmitBug_inv.
  - now apply onPlayAgain_inv.
  - now apply onLeaveRoom_inv.
  - now apply onLeaveRoom_inv.
  - now apply roundTick_inv.
  - unfold handleEndRound. now apply endRound_inv.
  - now apply handleBuzzVoteEnd_inv.
  - unfold emptyTimeoutFired. repeat break_match; try exact O.
    now apply inv_delete.
  - now apply inv_filter.
Qed.

Lemma reachable_inv nf rooms : Reachable nf rooms -> StoreInv rooms.
Proof.
  induction 1; [apply inv_empty | now apply step_inv].
Qed.

End InvariantSteps.

Lemma status_enabled room k :
  status room k = Some false <->
  exists p, JsMap.get k (Room.players room) = Some p
            /\ Player.disabled p = false.
Proof.
  unfold status. destruct (JsMap.get k (Room.players room)) as [p|]; cbn.
  - split.
    + intros [= H]. eauto.
    + intros (q & [= <-] & H). now rewrite H.
  - split; [discriminate | intros (q & H & _); discriminate].
Qed.

(** X18: the game has one round.  In every store the server can reach,
    [totalRounds] is 1 and [currentRound] is at most 1, and a playing
    room is in round 1; so [endRound] on a playing room never starts
    another round: whatever the snapshot and the parser, it ends the game
    with a winner, leaving round and players as they are. *)
Theorem playing_round_is_last :
  forall newFunction rooms roomCode room,
    Reachable newFunction rooms ->
    getRoom rooms roomCode = Some room ->
    Room.totalRounds room = 1
    /\ Room.currentRound room <= 1
    /\ (Room.gameState room = Playing ->
        Room.currentRound room = 1
        /\ forall check finalCode shuffled picks now,
             exists room',
               endRound check rooms roomCode finalCode shuffled picks now
               = (Ok room', JsMap.set roomCode room' rooms)
               /\ Room.gameState room' = Results
               /\ (Room.winner room' = Some "bugger"
                   \/ Room.winner room' = Some "debuggers")
               /\ Room.currentRound room' = 1
               /\ Room.players room' = Room.players room).
Proof.
  intros newFunction rooms roomCode room R G.
  pose proof (Invariant.inv_get _ _ _ (InvariantSteps.reachable_inv _ _ R) G)
    as I.
  split; [apply I|]. split; [apply I|]. intros P.
  pose proof (inv_playing _ I P) as C. split; [exact C|].
  intros check finalCode shuffled picks now.
  unfold endRound. unfold getRoom in G. rewrite G, (inv_total _ I), C.
  cbn [Nat.leb]. eexists. split; [reflexivity|].
  unfold finalVerdict.
  destruct (Check.codeHasErrors _); cbn; auto.
Qed.

Lemma playing_round_is_last_witness :
  exists room',
    fst (endRound Demo.noSyntaxError Demo.twoVotes "ABCD"
                  (Some "divide(a, b) { return a / b; }") ["p1"] [] 95000)
    = Ok room'
    /\ Room.gameState room' = Results.
Proof.
  assert (G : getRoom Demo.twoVotes "ABCD" = Some (Demo.theRoom Demo.twoVotes))
    by (vm_compute; reflexivity).
  destruct (playing_round_is_last Demo.noSyntaxError Demo.twoVotes "ABCD" _
              demo_reachable G) as (_ & _ & H).
  destruct H as [_ H]; [vm_compute; reflexivity|].
  destruct (H Demo.noSyntaxError (Some "divide(a, b) { return a / b; }")
              ["p1"] [] 95000%Z) as (room' & E & Hg & _).
  exists room'. rewrite E. auto.
Defined.

Lemma sum_bounded {A} (f : A -> nat) (b : nat) (l : list A) :
  (forall x, In x l -> f x <= b) ->
  list_sum (map f l) <= b * List.length l.
Proof.
  induction l as [|a l IH]; intros H; simpl; [lia|].
  pose proof (H a (or_introl eq_refl)).
  assert (list_sum (map f l) <= b * List.length l).
  { apply IH. intros x Hx. apply H. now right. }
  lia.
Qed.

(** X19: a room never holds more than six players.  In every store the
    server can reach, each room has at most six players, under pairwise
    distinct ids, and the [totalPlayers] of [getRoomStats] is at most six
    times its [totalRooms]. *)
Theorem rooms_hold_six_at_most :
  forall newFunction rooms,
    Reachable newFunction rooms ->
    (forall roomCode room,
        getRoom rooms roomCode = Some room ->
        JsMap.size (Room.players room) <= 6
        /\ NoDup (JsMap.keys (Room.players room)))
    /\ Stats.totalPlayers (getRoomStats rooms)
       <= 6 * Stats.totalRooms (getRoomStats rooms).
Proof.
  intros newFunction rooms R.
  pose proof (InvariantSteps.reachable_inv _ _ R) as O. split.
  - intros roomCode room G.
    pose proof (Invariant.inv_get _ _ _ O G) as I. split; apply I.
  - unfold getRoomStats. cbn [Stats.totalPlayers Stats.totalRooms].
    rewrite fold_sum_sizes. cbn [Nat.add].
    apply sum_bounded. intros room Hin. unfold JsMap.values in Hin.
    apply in_map_iff in Hin as ([c r] & <- & Hin). apply (O c r Hin).
Qed.

Lemma rooms_hold_six_at_most_witness :
  Stats.totalPlayers (getRoomStats Demo.twoVotes)
  <= 6 * Stats.totalRooms (getRoomStats Demo.twoVotes).
Proof.
  apply (rooms_hold_six_at_most Demo.noSyntaxError Demo.twoVotes demo_reachable).
Defined.

(** X20: the entries of an open vote always fit the room.  In every store
    the server can reach, a room with an open vote is not in the lobby;
    every voter and every target in [votes] and every voter in [skips] is
    a player of the room who is not disabled; nobody has voted for
    themselves; and no voter has more than one entry over [votes] and
    [skips] together. *)
Theorem open_vote_entries_fit :
  forall newFunction rooms roomCode room vote,
    Reachable newFunction rooms ->
    getRoom rooms roomCode = Some room ->
    Room.activeVote room = Some vote ->
    Room.gameState room <> Lobby
    /\ (forall voter target,
          In (voter, target) (Vote.votes vote) ->
          voter <> target
          /\ (exists p, JsMap.get voter (Room.players room) = Some p
                        /\ Player.disabled p = false)
          /\ (exists p, JsMap.get target (Room.players room) = Some p
                        /\ Player.disabled p = false))
    /\ (forall voter,
          In voter (Vote.skips vote) ->
          exists p, JsMap.get voter (Room.players room) = Some p
                    /\ Player.disabled p = false)
    /\ NoDup (JsMap.keys (Vote.votes vote) ++ Vote.skips vote).
Proof.
  intros newFunction rooms roomCode room vote R G V.
  pose proof (Invariant.inv_get _ _ _ (InvariantSteps.reachable_inv _ _ R) G)
    as I.
  destruct (inv_vote _ I vote V) as [Hv Hs Ho].
  split; [|split; [|split; [|exact Ho]]].
  - intros L. pose proof (inv_lobby _ I L). congruence.
  - intros voter target Hin. destruct (Hv voter target Hin) as (A & B & C).
    split; [exact C|]. split; now apply status_enabled.
  - intros voter Hin. apply status_enabled. now apply Hs.
Qed.

Lemma open_vote_entries_fit_witness :
  Room.gameState (Demo.theRoom Demo.twoVotes) <> Lobby
  /\ NoDup (["p3"; "p1"] ++ []).
Proof.
  assert (G : getRoom Demo.twoVotes "ABCD" = Some (Demo.theRoom Demo.twoVotes))
    by (vm_compute; reflexivity).
  assert (V : Room.activeVote (Demo.theRoom Demo.twoVotes)
              = Some (Vote.mk "p2" "Bob" "vote_kick"
                              [("p3", "p1"); ("p1", "p2")] [] 31000 60000))
    by (vm_compute; reflexivity).
  destruct (open_vote_entries_fit Demo.noSyntaxError Demo.twoVotes "ABCD" _ _
              demo_reachable G V) as (H1 & _ & _ & H2).
  split; [exact H1 | exact H2].
Defined.

Lemma enabled_keys_length (m : JsMap.t Player.t) :
  List.length
    (map fst (List.filter (fun kv => negb (Player.disabled (snd kv))) m))
  = List.length
      (List.filter (fun p => negb (Player.disabled p)) (JsMap.values m)).
Proof.
  rewrite length_map. unfold JsMap.values.
  induction m as [|[k p] m IH]; simpl; [reflexivity|].
  destruct (negb (Player.disabled p)); simpl; now rewrite IH.
Qed.

(** X21: a tally never holds more entries than there are enabled players.
    In every store the server can reach, the votes and skips of an open
    vote together number at most the enabled players of the room, so the
    quorum test of [castBuzzVote] can only be met with equality. *)
Theorem tally_bounded_by_enabled :
  forall newFunction rooms roomCode room vote,
    Reachable newFunction rooms ->
    getRoom rooms roomCode = Some room ->
    Room.activeVote room = Some vote ->
    JsMap.size (Vote.votes vote) + JsSet.size (Vote.skips vote)
    <= List.length (enabledPlayers room)
    /\ (allVotedIn room vote = true ->
        JsMap.size (Vote.votes vote) + JsSet.size (Vote.skips vote)
        = List.length (enabledPlayers room)).
Proof.
  intros newFunction rooms roomCode room vote R G V.
  pose proof (Invariant.inv_get _ _ _ (InvariantSteps.reachable_inv _ _ R) G)
    as I.
  destruct (inv_vote _ I vote V) as [Hv Hs Ho].
  assert (B : JsMap.size (Vote.votes vote) + JsSet.size (Vote.skips vote)
              <= List.length (enabledPlayers room)).
  { unfold enabledPlayers. rewrite <- enabled_keys_length.
    rewrite Invariant.size_keys. unfold JsSet.size. rewrite <- length_app.
    apply NoDup_incl_length; [exact Ho|].
    intros k Hin.
    assert (S : status room k = Some false).
    { apply in_app_or in Hin as [Hin|Hin]; [|now apply Hs].
      unfold JsMap.keys in Hin. apply in_map_iff in Hin as ([k' t] & <- & Hin).
      now apply (Hv k' t). }
    apply status_enabled in S as (p & Gp & D).
    apply in_map_iff. exists (k, p). split; [reflexivity|].
    apply filter_In. split; [now apply JsMapFacts.get_In|].
    cbn. now rewrite D. }
  split; [exact B|].
  unfold allVotedIn. intros H. apply Nat.leb_le in H. lia.
Qed.

Lemma tally_bounded_by_enabled_witness :
  JsMap.size [("p3", "p1"); ("p1", "p2")] + JsSet.size []
  <= List.length (enabledPlayers (Demo.theRoom Demo.twoVotes)).
Proof.
  assert (G : getRoom Demo.twoVotes "ABCD" = Some (Demo.theRoom Demo.twoVotes))
    by (vm_compute; reflexivity).
  assert (V : Room.activeVote (Demo.theRoom Demo.twoVotes)
              = Some (Vote.mk "p2" "Bob" "vote_kick"
                              [("p3", "p1"); ("p1", "p2")] [] 31000 60000))
    by (vm_compute; reflexivity).
  apply (tally_bounded_by_enabled Demo.noSyntaxError Demo.twoVotes "ABCD" _ _
           demo_reachable G V).
Defined.

(* ------------------------------------------------------------------ *)
(** ** The buzz handler, the fix and the verdict text *)

(** X22: the [buzz] handler.  For an enabled player of a playing room it
    opens a fresh vote of that player, records the buzz and leaves the
    timer paused: a running timer is frozen with its remaining time, a
    timer that was already paused keeps its earlier snapshot.  For an id
    that is not in the room, [handleBuzz] has already written
    [buzzedPlayer] when it fails on the player's name: only that field
    changes, no vote is opened and the timer is not paused. *)
Theorem onBuzz_effect :
  forall rooms roomCode playerId now now' room,
    getRoom rooms roomCode = Some room ->
    Room.gameState room = Playing ->
    (forall player,
        JsMap.get playerId (Room.players room) = Some player ->
        Player.disabled player = false ->
        exists room',
          getRoom (onBuzz rooms roomCode playerId now now') roomCode = Some room'
          /\ Room.activeVote room'
             = Some (newVote playerId (Player.name player) now)
          /\ Room.buzzedPlayer room' = Some playerId
          /\ Room.paused room' = true
          /\ Room.pausedTimeRemaining room'
             = (if Room.paused room then Room.pausedTimeRemaining room
                else option_map (Z.max 0) (remainingAt now' room))
          /\ Room.roundStartTime room' = Room.roundStartTime room
          /\ Room.players room' = Room.players room)
    /\ (JsMap.get playerId (Room.players room) = None ->
        onBuzz rooms roomCode playerId now now'
        = JsMap.set roomCode (Room.with_buzzedPlayer (Some playerId) room) rooms).
Proof.
  intros rooms roomCode playerId now now' room G P. unfold getRoom in G.
  split.
  - intros player Gp D. unfold onBuzz, handleBuzz. rewrite G, P, Gp, D.
    cbn [isPlaying negb]. unfold pauseRoundTimer, getRoom.
    rewrite JsMapFacts.get_set_same.
    set (room1 := Room.with_activeVote _ _).
    assert (E : Room.paused room1 = Room.paused room) by reflexivity.
    rewrite E. destruct (Room.paused room) eqn:Pz.
    + rewrite JsMapFacts.get_set_same. exists room1.
      repeat split; auto.
    + rewrite JsMapFacts.set_set, JsMapFacts.get_set_same.
      eexists. split; [reflexivity|]. cbn. repeat split.
  - intros Gp. unfold onBuzz, handleBuzz. now rewrite G, P, Gp.
Qed.

Lemma onBuzz_effect_witness :
  exists room',
    getRoom Demo.buzzed "ABCD" = Some room'
    /\ Room.buzzedPlayer room' = Some "p2"
    /\ Room.pausedTimeRemaining room' = Some 60%Z.
Proof.
  assert (G : getRoom Demo.started "ABCD" = Some (Demo.theRoom Demo.started))
    by (vm_compute; reflexivity).
  assert (P : Room.gameState (Demo.theRoom Demo.started) = Playing)
    by (vm_compute; reflexivity).
  destruct (onBuzz_effect Demo.started "ABCD" "p2" 31000%Z 31000%Z _ G P)
    as [H _].
  destruct (H (Player.mk "p2" "Bob" false false (Some Debugger) false))
    as (room' & Gr & _ & Hb & _ & Ht & _); try (vm_compute; reflexivity).
  exists room'. split; [exact Gr|]. split; [exact Hb|].
  rewrite Ht. vm_compute. reflexivity.
Defined.

Lemma dropWhile_spaces ws s :
  forallb Str.isSpace ws = true ->
  Str.dropWhile Str.isSpace (ws ++ s) = Str.dropWhile Str.isSpace s.
Proof.
  induction ws as [|c ws IH]; simpl; [reflexivity|].
  intros H. apply andb_true_iff in H as [H1 H2]. rewrite H1. now apply IH.
Qed.

Lemma dropWhile_all_spaces ws :
  forallb Str.isSpace ws = true -> Str.dropWhile Str.isSpace ws = [].
Proof.
  intros H. rewrite <- (app_nil_r ws). now rewrite dropWhile_spaces.
Qed.

Lemma dropWhile_app_kept s ws :
  Str.dropWhile Str.isSpace s <> [] ->
  Str.dropWhile Str.isSpace (s ++ ws) = Str.dropWhile Str.isSpace s ++ ws.
Proof.
  induction s as [|c s IH]; simpl; [contradiction|].
  destruct (Str.isSpace c); [exact IH | reflexivity].
Qed.

Lemma forallb_rev {A} (f : A -> bool) l :
  forallb f l = true -> forallb f (rev l) = true.
Proof.
  rewrite !forallb_forall. intros H x Hx. apply H. now apply in_rev.
Qed.

Lemma chars_append a b : Str.chars (String.append a b) = Str.chars a ++ Str.chars b.
Proof.
  unfold Str.chars. induction a as [|c a IH]; simpl; [reflexivity|].
  now rewrite IH.
Qed.

Lemma trim_padded before s after :
  forallb Str.isSpace (Str.chars before) = true ->
  forallb Str.isSpace (Str.chars after) = true ->
  Str.trim (String.append before (String.append s after)) = Str.trim s.
Proof.
  intros B A. unfold Str.trim. f_equal. f_equal.
  rewrite !chars_append, dropWhile_spaces by exact B.
  destruct (Str.dropWhile Str.isSpace (Str.chars s)) as [|c r] eqn:E.
  - assert (H : Str.dropWhile Str.isSpace (Str.chars s ++ Str.chars after) = []).
    { clear B. induction (Str.chars s) as [|x l IH]; simpl in *.
      - now apply dropWhile_all_spaces.
      - destruct (Str.isSpace x); [now apply IH | discriminate]. }
    now rewrite H.
  - rewrite dropWhile_app_kept by (rewrite E; discriminate).
    rewrite E, rev_app_distr. apply dropWhile_spaces. now apply forallb_rev.
Qed.

(** X23: [validateFix] compares with the correct sample only, after
    trimming.  From the buzzed player and with no vote open, a submission
    that is the correct code of the round, with any (ASCII) white space
    before and after it, is judged correct, whatever bugs were injected;
    from anybody else the submission is refused, and the store is never
    written. *)
Theorem validateFix_padded :
  forall rooms roomCode playerId room code before after,
    getRoom rooms roomCode = Some room ->
    Room.activeVote room = None ->
    Room.currentCode room = Some code ->
    forallb Str.isSpace (Str.chars before) = true ->
    forallb Str.isSpace (Str.chars after) = true ->
    (Room.buzzedPlayer room = Some playerId ->
     validateFix rooms roomCode playerId
       (String.append before (String.append (Code.correctCode code) after))
     = Ok true)
    /\ (Room.buzzedPlayer room <> Some playerId ->
        forall fixedCode,
          validateFix rooms roomCode playerId fixedCode
          = Error "Only the buzzed player can submit a fix").
Proof.
  intros rooms roomCode playerId room code before after G V C B A.
  unfold getRoom in G. split.
  - intros Hb. unfold validateFix. rewrite G, Hb, V, C. cbn.
    rewrite String.eqb_refl. cbn.
    rewrite (trim_padded before _ after B A). now rewrite String.eqb_refl.
  - intros Hb fixedCode. unfold validateFix. rewrite G.
    destruct (optStringEqb (Room.buzzedPlayer room) (Some playerId)) eqn:E;
      [|reflexivity].
    apply optStringEqb_Some in E. contradiction.
Qed.

Lemma validateFix_padded_witness :
  let rooms := onLeaveRoom Demo.twoVotes "ABCD" "p3" in
  validateFix rooms "ABCD" "p2"
    (String.append "  " (String.append correctCode1 "
"))
  = Ok true.
Proof.
  intros rooms.
  set (code := Code.mk 1 "javascript" "Scientific Calculator" correctCode1
                 [bug1; bug2] sampleTestCases
                 [("p2", bug1); ("p3", bug2)]
                 (injectBug (injectBug correctCode1 "bug1") "bug2") None).
  assert (G : getRoom rooms "ABCD" = Some (Demo.theRoom rooms))
    by (vm_compute; reflexivity).
  assert (V : Room.activeVote (Demo.theRoom rooms) = None)
    by (vm_compute; reflexivity).
  assert (C : Room.currentCode (Demo.theRoom rooms) = Some code)
    by (vm_compute; reflexivity).
  assert (Hb : Room.buzzedPlayer (Demo.theRoom rooms) = Some "p2")
    by (vm_compute; reflexivity).
  exact (proj1 (validateFix_padded rooms "ABCD" "p2" (Demo.theRoom rooms)
                  code "  " "
" G V C eq_refl eq_refl) Hb).
Defined.

Lemma checkFinalCode_details newFunction finalCode :
  Check.codeHasErrors (checkFinalCode newFunction finalCode) = true ->
  Check.errorDetails (checkFinalCode newFunction finalCode) <> [].
Proof.
  unfold checkFinalCode.
  destruct (missingGuard divideBody "=== 0" finalCode),
           (missingGuard squareRootBody "< 0" finalCode),
           (newFunction finalCode); cbn; try discriminate; intros _;
    try discriminate.
Qed.

Lemma checkFinalCode_heads newFunction finalCode :
  forall d,
    In d (Check.errorDetails (checkFinalCode newFunction finalCode)) ->
    exists a rest, d = String a rest /\ a <> "B"%char.
Proof.
  intros d. unfold checkFinalCode.
  destruct (missingGuard divideBody "=== 0" finalCode),
           (missingGuard squareRootBody "< 0" finalCode),
           (newFunction finalCode); cbn; intros H;
    repeat (destruct H as [<-|H]; [do 2 eexists; split;
                                   [reflexivity | discriminate]|]);
    destruct H.
Qed.

Lemma details_head (c : Check.t) d :
  (forall x, In x (Check.errorDetails c) ->
             exists a rest, x = String a rest /\ a <> "B"%char) ->
  In d (Check.errorDetails c) ->
  exists a rest, d = String a rest /\ a <> "B"%char.
Proof. intros H. apply H. Qed.

(** X24: the verdict of the last round always names a reason.  The winner
    is "bugger" or "debuggers"; when it is "bugger", the reason is
    "Sabotager wins! " followed by the list of the defects found, which is
    never empty, so the fallback text "Bugs still in code" is never used;
    when it is "debuggers", the reason is "Fixers win! All bugs
    resolved!". *)
Theorem finalVerdict_reason :
  forall newFunction finalCode room,
    let room' := finalVerdict newFunction finalCode room in
    Room.gameState room' = Results
    /\ (Room.winner room' = Some "debuggers"
        /\ Room.winReason room' = Some "Fixers win! All bugs resolved!"
        \/ exists details,
             details <> []
             /\ Room.winner room' = Some "bugger"
             /\ Room.winReason room'
                = Some (String.append "Sabotager wins! "
                                      (Str.join ", " details)))
    /\ Room.winReason room' <> Some "Sabotager wins! Bugs still in code".
Proof.
  intros newFunction finalCode room room'. unfold room', finalVerdict.
  set (c := match truthy finalCode with
            | Some code =>
                match Room.currentCode (Room.with_gameState Results room) with
                | Some _ => checkFinalCode newFunction code
                | None => Check.init
                end
            | None => Check.init
            end).
  assert (D : Check.codeHasErrors c = true -> Check.errorDetails c <> []).
  { unfold c. destruct (truthy finalCode); [|discriminate].
    destruct (Room.currentCode _); [|discriminate].
    apply checkFinalCode_details. }
  destruct (Check.codeHasErrors c) eqn:E.
  - specialize (D eq_refl).
    destruct (Check.errorDetails c) as [|d ds] eqn:Ed; [contradiction|].
    cbn [List.length Nat.ltb Nat.leb].
    split; [reflexivity|]. split.
    + right. exists (d :: ds). repeat split. discriminate.
    + cbn [Room.winReason Room.with_winReason].
      intros H. injection H as H.
      assert (Hd : exists a rest, d = String a rest /\ a <> "B"%char).
      { apply (details_head c d); [|rewrite Ed; now left].
        unfold c. destruct (truthy finalCode); [|intros ? []].
        destruct (Room.currentCode _); [|intros ? []].
        apply checkFinalCode_heads. }
      destruct Hd as (a & rest & -> & Na).
      destruct ds; cbn in H; inversion H; contradiction.
  - split; [reflexivity|]. split; [left; split; reflexivity|].
    cbn. discriminate.
Qed.

(* ------------------------------------------------------------------ *)
(** ** Instances on the demo game *)

Lemma createRoom_replaces_witness :
  getRoom (snd (createRoom Demo.started "ABCD" "p9" "Zoe" 7)) "ABCD"
  = Some (fst (createRoom Demo.started "ABCD" "p9" "Zoe" 7))
  /\ JsMap.keys (snd (createRoom Demo.started "ABCD" "p9" "Zoe" 7)) = ["ABCD"].
Proof.
  destruct (createRoom_replaces Demo.started "ABCD" "p9" "Zoe" 7%Z)
    as (H1 & _ & _ & _ & _ & _ & _ & H2).
  split; [exact H1|]. rewrite H2. vm_compute. reflexivity.
Defined.

Lemma win_checks_exclusive_witness :
  checkDebuggersWin (Demo.theRoom Demo.bobOut) = false.
Proof.
  apply (proj2 (proj2 (win_checks_exclusive (Demo.theRoom Demo.bobOut)))).
  vm_compute. reflexivity.
Defined.

Lemma getRoomStats_partition_witness :
  Stats.totalRooms (getRoomStats Demo.twoVotes)
  = Stats.activeGames (getRoomStats Demo.twoVotes)
    + Stats.lobbyRooms (getRoomStats Demo.twoVotes)
    + Stats.roomsInResults (getRoomStats Demo.twoVotes).
Proof.
  apply (proj1 (proj2 (getRoomStats_partition Demo.twoVotes))).
Defined.

Lemma injectBug_frame_witness : injectBug correctCode1 "bug3" = correctCode1.
Proof.
  apply (proj1 (injectBug_frame correctCode1 "bug3")); discriminate.
Defined.

Lemma handleBuzzVoteEnd_once_witness :
  handleBuzzVoteEnd (handleBuzzVoteEnd Demo.twoVotes "ABCD" 91000 91000)
                    "ABCD" 91001 91001
  = handleBuzzVoteEnd Demo.twoVotes "ABCD" 91000 91000.
Proof.
  apply (proj1 (proj2 (handleBuzzVoteEnd_once Demo.twoVotes "ABCD"
                         91000%Z 91000%Z 91001%Z 91001%Z))).
Defined.

Lemma finalVerdict_reason_witness :
  Room.winReason
    (finalVerdict Demo.noSyntaxError (Some "divide(a, b) { return a / b; }")
                  (Demo.theRoom Demo.started))
  <> Some "Sabotager wins! Bugs still in code".
Proof.
  apply (proj2 (proj2 (finalVerdict_reason Demo.noSyntaxError
                         (Some "divide(a, b) { return a / b; }")
                         (Demo.theRoom Demo.started)))).
Defined.

(* ------------------------------------------------------------------ *)
(** ** House keeping: old rooms and the ready flag *)

Lemma get_filter_NoDup {V} (f : string -> V -> bool) (m : JsMap.t V) k :
  NoDup (JsMap.keys m) ->
  JsMap.get k (JsMap.filter f m)
  = match JsMap.get k m with
    | Some v => if f k v then Some v else None
    | None => None
    end.
Proof.
  induction m as [|[k' v'] m IH]; intros N; [reflexivity|].
  inversion N as [|? ? Hk' N']; subst.
  unfold JsMap.filter in *. cbn [List.filter fst snd JsMap.get].
  destruct (String.eqb k k') eqn:E.
  - apply String.eqb_eq in E; subst k'.
    destruct (f k v') eqn:F.
    + cbn [JsMap.get]. now rewrite String.eqb_refl.
    + destruct (JsMap.get k (List.filter (fun kv => f (fst kv) (snd kv)) m))
        as [v|] eqn:G; [|reflexivity].
      exfalso. apply Hk'. apply JsMapFacts.get_In in G.
      apply (JsMapFacts.In_filter f m) in G.
      unfold JsMap.keys. change k with (fst (k, v)). now apply in_map.
  - destruct (f k' v') eqn:F.
    + cbn [JsMap.get]. rewrite E. now apply IH.
    + now apply IH.
Qed.

Lemma filter_filter_implies {A} (f g : A -> bool) l :
  (forall x, f x = true -> g x = true) ->
  List.filter f (List.filter g l) = List.filter f l.
Proof.
  intros H. induction l as [|x l IH]; [reflexivity|]. simpl.
  destruct (g x) eqn:G; simpl.
  - now rewrite IH.
  - destruct (f x) eqn:F; [|exact IH].
    apply H in F. congruence.
Qed.

Lemma set_get_same {V} k (v : V) m :
  JsMap.get k m = Some v -> JsMap.set k v m = m.
Proof.
  induction m as [|[k' v'] m IH]; simpl; [discriminate|].
  destruct (String.eqb k k') eqn:E.
  - apply String.eqb_eq in E. now intros [= ->]; subst.
  - intros G. now rewrite IH.
Qed.

(** X25: [cleanupOldRooms] deletes exactly the rooms created more than two
    hours before the current time: such a room is gone afterwards, every
    other room, one of exactly two hours included, is still there as it
    was.  Cleaning up at some time and again at a later time leaves the
    same store as cleaning up once at the later time. *)
Theorem cleanupOldRooms_expiry :
  forall rooms now,
    NoDup (JsMap.keys rooms) ->
    (forall roomCode,
        getRoom (cleanupOldRooms rooms now) roomCode
        = match getRoom rooms roomCode with
          | Some room =>
              if (7200000 <? now - Room.createdAt room)%Z
              then None else Some room
          | None => None
          end)
    /\ (forall later,
          (now <= later)%Z ->
          cleanupOldRooms (cleanupOldRooms rooms now) later
          = cleanupOldRooms rooms later).
Proof.
  intros rooms now N. split.
  - intros roomCode. unfold getRoom, cleanupOldRooms.
    rewrite get_filter_NoDup by exact N.
    destruct (JsMap.get roomCode rooms) as [room|]; [|reflexivity].
    change TWO_HOURS with 7200000%Z.
    now destruct (7200000 <? now - Room.createdAt room)%Z.
  - intros later L. unfold cleanupOldRooms, JsMap.filter.
    apply filter_filter_implies. intros [k room]. cbn [fst snd].
    change TWO_HOURS with 7200000%Z.
    rewrite !negb_true_iff, !Z.ltb_ge. lia.
Qed.

Lemma cleanupOldRooms_expiry_witness :
  getRoom (cleanupOldRooms Demo.started 7200500) "ABCD" = None
  /\ getRoom (cleanupOldRooms Demo.started 7200000) "ABCD"
     = getRoom Demo.started "ABCD".
Proof.
  assert (N : NoDup (JsMap.keys Demo.started)).
  { vm_compute. repeat constructor; simpl; intuition discriminate. }
  split.
  - rewrite (proj1 (cleanupOldRooms_expiry Demo.started 7200500%Z N) "ABCD").
    vm_compute. reflexivity.
  - rewrite (proj1 (cleanupOldRooms_expiry Demo.started 7200000%Z N) "ABCD").
    vm_compute. reflexivity.
Defined.

(** X26: the [playerReady] handler only flips the flag of the caller, in
    any state of the game, and flipping twice restores the store exactly;
    for an unknown room or a player who is not in the room nothing
    changes. *)
Theorem onPlayerReady_twice :
  forall rooms roomCode playerId,
    onPlayerReady (onPlayerReady rooms roomCode playerId) roomCode playerId
    = rooms
    /\ (forall room,
          getRoom rooms roomCode = Some room ->
          exists room',
            getRoom (onPlayerReady rooms roomCode playerId) roomCode
            = Some room'
            /\ Room.with_players (Room.players room) room' = room
            /\ JsMap.keys (Room.players room') = JsMap.keys (Room.players room)
            /\ forall k,
                 JsMap.get k (Room.players room')
                 = if String.eqb k playerId
                   then option_map
                          (fun p => Player.with_isReady
                                      (negb (Player.isReady p)) p)
                          (JsMap.get k (Room.players room))
                   else JsMap.get k (Room.players room)).
Proof.
  intros rooms roomCode playerId.
  unfold onPlayerReady at 2. unfold getRoom.
  destruct (JsMap.get roomCode rooms) as [room|] eqn:G.
  - destruct (JsMap.get playerId (Room.players room)) as [player|] eqn:P.
    + split.
      * unfold onPlayerReady, getRoom. rewrite JsMapFacts.get_set_same.
        cbn [Room.players Room.with_players].
        rewrite JsMapFacts.get_set_same, !JsMapFacts.set_set.
        replace (Player.with_isReady _ _) with player
          by (destruct player as [? ? ? r ? ?]; cbn; now rewrite negb_involutive).
        rewrite (set_get_same _ _ _ P).
        replace (Room.with_players _ _) with room by now destruct room.
        apply (set_get_same _ _ _ G).
      * intros room0 [= <-]. unfold onPlayerReady, getRoom. rewrite G, P.
        eexists. rewrite JsMapFacts.get_set_same.
        split; [reflexivity|]. split; [now destruct room|]. split.
        { cbn [Room.players Room.with_players].
          apply (JsMapMore.set_present _ _ _ _ P). }
        intros k. cbn [Room.players Room.with_players].
        rewrite JsMapFacts.get_set.
        destruct (String.eqb k playerId) eqn:E; [|reflexivity].
        apply String.eqb_eq in E; subst k. now rewrite P.
    + split.
      * unfold onPlayerReady, getRoom. now rewrite G, P.
      * intros room0 [= <-]. unfold onPlayerReady, getRoom. rewrite G, P.
        exists room. rewrite G.
        split; [reflexivity|]. split; [now destruct room|].
        split; [reflexivity|]. intros k.
        destruct (String.eqb k playerId) eqn:E; [|reflexivity].
        apply String.eqb_eq in E; subst k. now rewrite P.
  - split.
    + unfold onPlayerReady, getRoom. now rewrite G.
    + intros room0 [=].
Qed.

Lemma onPlayerReady_twice_witness :
  onPlayerReady (onPlayerReady Demo.started "ABCD" "p2") "ABCD" "p2"
  = Demo.started.
Proof.
  apply (proj1 (onPlayerReady_twice Demo.started "ABCD" "p2")).
Defined.

(* ------------------------------------------------------------------ *)
(** ** Starting a game *)

Lemma assignRoles_done shuffled room :
  NoDup (JsMap.keys (Room.players room)) ->
  Permutation shuffled (JsMap.keys (Room.players room)) ->
  shuffled <> [] ->
  exists b ds players',
    shuffled = b :: ds
    /\ JsMap.has b (Room.players room) = true
    /\ assignRoles shuffled room
       = Done (Room.with_players players'
                 (Room.with_debuggers ds (Room.with_bugger (Some b) room))).
Proof.
  intros N P NE.
  destruct shuffled as [|b ds]; [contradiction|].
  assert (Hmem : forall k, In k (b :: ds) ->
                           JsMap.has k (Room.players room) = true).
  { intros k H. apply JsMapMore.has_true_keys.
    apply (Permutation_in _ P H). }
  pose proof (Hmem b (or_introl eq_refl)) as Hbm.
  pose proof Hbm as Hb'. unfold JsMap.has in Hbm.
  destruct (JsMap.get b (Room.players room)) as [pb|] eqn:G; [|discriminate].
  unfold assignRoles. cbn [hd_error tl Room.bugger Room.with_debuggers
                           Room.with_bugger].
  rewrite (setRole_member Bugger b _ pb) by exact G.
  cbn [Room.players Room.with_debuggers Room.with_bugger Room.debuggers
       Room.with_players].
  set (room1 := Room.with_players _ _).
  destruct (setDebuggerRoles_members ds room1) as (players' & E & _).
  { intros d Hin. apply JsMapMore.has_true_keys. unfold room1.
    cbn [Room.players Room.with_players Room.with_debuggers Room.with_bugger].
    rewrite (JsMapMore.set_present _ _ _ _ G).
    apply JsMapMore.has_true_keys. apply Hmem. now right. }
  exists b, ds, players'. split; [reflexivity|]. split; [exact Hb'|].
  rewrite E. unfold room1. now destruct room.
Qed.

Lemma startGame_started rooms roomCode shuffled picks now room :
  getRoom rooms roomCode = Some room ->
  NoDup (JsMap.keys (Room.players room)) ->
  Permutation shuffled (JsMap.keys (Room.players room)) ->
  3 <= JsMap.size (Room.players room) ->
  exists room' b,
    startGame rooms roomCode shuffled picks now
    = (Ok room', JsMap.set roomCode room' rooms)
    /\ Room.gameState room' = Playing
    /\ Room.currentRound room' = 1
    /\ Room.bugger room' = Some b
    /\ JsMap.has b (Room.players room) = true
    /\ List.length (Room.debuggers room') = JsMap.size (Room.players room) - 1
    /\ JsMap.keys (Room.players room') = JsMap.keys (Room.players room)
    /\ (forall k, status room' k = status room k)
    /\ Room.activeVote room' = None
    /\ Room.buzzedPlayer room' = None
    /\ Room.roundStartTime room' = At now
    /\ Room.timerPaused room' = Room.timerPaused room
    /\ Room.pausedTimeRemaining room' = Room.pausedTimeRemaining room.
Proof.
  intros G N P S3. unfold getRoom in G. unfold startGame. rewrite G.
  assert (L : (JsMap.size (Room.players room) <? 3) = false)
    by (apply Nat.ltb_ge; exact S3).
  rewrite L.
  set (room0 := Room.with_currentRound 1 (Room.with_gameState Playing room)).
  assert (NE : shuffled <> []).
  { intros ->. apply Permutation_length in P.
    rewrite <- Invariant.size_keys in P. simpl in P. lia. }
  destruct (assignRoles_done shuffled room0) as (b & ds & players' & Es & Hb & E);
    [exact N | exact P | exact NE |].
  pose proof (Invariant.assignRoles_core shuffled room0) as C. cbv zeta in C.
  rewrite E in *. cbn [roomOf] in C.
  destruct C as (_ & _ & _ & _ & K & St).
  eexists. exists b. split; [reflexivity|].
  unfold startRound.
  cbn [Room.gameState Room.currentRound Room.bugger Room.debuggers Room.players
       Room.activeVote Room.buzzedPlayer Room.roundStartTime Room.timerPaused
       Room.pausedTimeRemaining
       Room.with_activeVote Room.with_buzzedPlayer Room.with_roundStartTime
       Room.with_currentCode Room.with_players Room.with_debuggers
       Room.with_bugger].
  cbn [Room.players Room.with_players Room.with_debuggers Room.with_bugger] in K.
  repeat split; try reflexivity.
  - exact Hb.
  - apply Permutation_length in P. rewrite <- Invariant.size_keys in P.
    rewrite <- P, Es. simpl. lia.
  - exact K.
  - intros k. specialize (St k). unfold status in *.
    cbn [Room.players Room.with_players Room.with_debuggers Room.with_bugger
         Room.with_activeVote Room.with_buzzedPlayer Room.with_roundStartTime
         Room.with_currentCode] in *.
    exact St.
Qed.

(** X27: [startGame] asks for three players and for nothing else: with
    fewer it answers "Need at least 3 players to start" and the store is
    unchanged; with three or more it starts round 1 whatever the state of
    the game and the ready flags.  One player is the bugger and all the
    others are debuggers, the buzz and the vote are cleared and the round
    starts now; the players keep their [disabled] flags, and the pause of
    the timer and its snapshot are left as they were. *)
Theorem startGame_cases :
  forall rooms roomCode shuffled picks now room,
    getRoom rooms roomCode = Some room ->
    NoDup (JsMap.keys (Room.players room)) ->
    Permutation shuffled (JsMap.keys (Room.players room)) ->
    (JsMap.size (Room.players room) < 3 ->
     startGame rooms roomCode shuffled picks now
     = (Error "Need at least 3 players to start", rooms))
    /\ (3 <= JsMap.size (Room.players room) ->
        exists room' b,
          startGame rooms roomCode shuffled picks now
          = (Ok room', JsMap.set roomCode room' rooms)
          /\ Room.gameState room' = Playing
          /\ Room.currentRound room' = 1
          /\ Room.bugger room' = Some b
          /\ JsMap.has b (Room.players room) = true
          /\ List.length (Room.debuggers room')
             = JsMap.size (Room.players room) - 1
          /\ JsMap.keys (Room.players room') = JsMap.keys (Room.players room)
          /\ (forall k,
                option_map Player.disabled (JsMap.get k (Room.players room'))
                = option_map Player.disabled (JsMap.get k (Room.players room)))
          /\ Room.activeVote room' = None
          /\ Room.buzzedPlayer room' = None
          /\ Room.roundStartTime room' = At now
          /\ Room.timerPaused room' = Room.timerPaused room
          /\ Room.pausedTimeRemaining room' = Room.pausedTimeRemaining room).
Proof.
  intros rooms roomCode shuffled picks now room G N P. split.
  - intros S3. unfold getRoom in G. unfold startGame. rewrite G.
    apply Nat.ltb_lt in S3. now rewrite S3.
  - intros S3. exact (startGame_started rooms roomCode shuffled picks now room G N P S3).
Qed.

Lemma startGame_cases_witness :
  exists room',
    startGame Demo.bobOut "ABCD" ["p2"; "p3"; "p1"] [1; 0] 200000
    = (Ok room', JsMap.set "ABCD" room' Demo.bobOut)
    /\ Room.bugger room' = Some "p2"
    /\ option_map Player.disabled (JsMap.get "p2" (Room.players room'))
       = Some true.
Proof.
  assert (G : getRoom Demo.bobOut "ABCD" = Some (Demo.theRoom Demo.bobOut))
    by (vm_compute; reflexivity).
  assert (K : JsMap.keys (Room.players (Demo.theRoom Demo.bobOut))
              = ["p1"; "p2"; "p3"]) by (vm_compute; reflexivity).
  assert (N : NoDup (JsMap.keys (Room.players (Demo.theRoom Demo.bobOut)))).
  { rewrite K. repeat constructor; simpl; intuition discriminate. }
  assert (P : Permutation ["p2"; "p3"; "p1"]
                (JsMap.keys (Room.players (Demo.theRoom Demo.bobOut)))).
  { rewrite K. apply Permutation_sym, (Permutation_cons_append ["p2"; "p3"] "p1"). }
  assert (S3 : 3 <= JsMap.size (Room.players (Demo.theRoom Demo.bobOut)))
    by (vm_compute; lia).
  destruct (proj2 (startGame_cases Demo.bobOut "ABCD" ["p2"; "p3"; "p1"]
                     [1; 0] 200000%Z _ G N P) S3)
    as (room' & b & E & _ & _ & B & _ & _ & _ & D & _).
  exists room'. split; [exact E|].
  assert (Eb : fst (startGame Demo.bobOut "ABCD" ["p2"; "p3"; "p1"] [1; 0]
                      200000%Z)
               = Ok room') by (rewrite E; reflexivity).
  split.
  - rewrite B. f_equal.
    assert (Hb : option_map Room.bugger
                   (match fst (startGame Demo.bobOut "ABCD" ["p2"; "p3"; "p1"]
                                 [1; 0] 200000%Z)
                    with Ok r => Some r | _ => None end)
                 = Some (Some "p2")) by (vm_compute; reflexivity).
    rewrite Eb in Hb. cbn [option_map] in Hb. rewrite B in Hb.
    apply Some_inj in Hb. apply Some_inj in Hb. exact Hb.
  - rewrite (D "p2"). vm_compute. reflexivity.
Defined.

Lemma onPlayAgain_store rooms roomCode room :
  getRoom rooms roomCode = Some room ->
  exists room1,
    onPlayAgain rooms roomCode = JsMap.set roomCode room1 rooms
    /\ JsMap.keys (Room.players room1) = JsMap.keys (Room.players room)
    /\ Room.timerPaused room1 = Room.timerPaused room
    /\ Room.pausedTimeRemaining room1 = Room.pausedTimeRemaining room.
Proof.
  intros G. unfold getRoom in G. unfold onPlayAgain, resetGame. rewrite G.
  eexists. split; [reflexivity|].
  split; [apply JsMapFacts.keys_mapValues|]. split; reflexivity.
Qed.

(** X28: the pause of the timer outlives the game.  Neither [resetGame]
    nor [startGame] writes [timerPaused]: when a room whose timer is
    paused (a vote has ended the game, say) is played again and started,
    the new round is playing with the timer still paused and the old
    snapshot, and no tick of the round timer ends it. *)
Theorem paused_timer_survives_replay :
  forall newFunction rooms roomCode room shuffled picks now,
    getRoom rooms roomCode = Some room ->
    Room.paused room = true ->
    NoDup (JsMap.keys (Room.players room)) ->
    3 <= JsMap.size (Room.players room) ->
    Permutation shuffled (JsMap.keys (Room.players room)) ->
    let replay :=
      snd (startGame (onPlayAgain rooms roomCode) roomCode shuffled picks now) in
    exists room',
      getRoom replay roomCode = Some room'
      /\ Room.gameState room' = Playing
      /\ Room.roundStartTime room' = At now
      /\ Room.paused room' = true
      /\ Room.pausedTimeRemaining room' = Room.pausedTimeRemaining room
      /\ forall finalCode shuffled' picks' later,
           roundTick newFunction replay roomCode finalCode shuffled' picks' later
           = replay.
Proof.
  intros newFunction rooms roomCode room shuffled picks now G Pa N S3 P replay.
  destruct (onPlayAgain_store rooms roomCode room G) as (room1 & R1 & K1 & T1 & T2).
  assert (G1 : getRoom (JsMap.set roomCode room1 rooms) roomCode = Some room1)
    by apply JsMapFacts.get_set_same.
  destruct (startGame_started (JsMap.set roomCode room1 rooms) roomCode shuffled
              picks now room1 G1)
    as (room' & b & E & Gs & _ & _ & _ & _ & _ & _ & _ & _ & St & Tp & Tr).
  { now rewrite K1. }
  { now rewrite K1. }
  { rewrite Invariant.size_keys, K1, <- Invariant.size_keys. exact S3. }
  assert (R : replay = JsMap.set roomCode room' (JsMap.set roomCode room1 rooms)).
  { unfold replay. rewrite R1, E. reflexivity. }
  assert (Gr : getRoom replay roomCode = Some room').
  { rewrite R. apply JsMapFacts.get_set_same. }
  assert (Pa' : Room.paused room' = true).
  { unfold Room.paused in *. rewrite Tp, T1. exact Pa. }
  exists room'. split; [exact Gr|]. split; [exact Gs|]. split; [exact St|].
  split; [exact Pa'|]. split; [rewrite Tr; exact T2|].
  intros finalCode shuffled' picks' later.
  unfold roundTick. rewrite Gr, Gs, Pa'. reflexivity.
Qed.

Lemma paused_timer_survives_replay_witness :
  Room.gameState (Demo.theRoom Demo.bobOut) = Results
  /\ exists room',
       getRoom (snd (startGame (onPlayAgain Demo.bobOut "ABCD") "ABCD"
                       ["p2"; "p3"; "p1"] [1; 0] 200000)) "ABCD"
       = Some room'
       /\ Room.gameState room' = Playing
       /\ Room.paused room' = true
       /\ roundTick Demo.noSyntaxError
            (snd (startGame (onPlayAgain Demo.bobOut "ABCD") "ABCD"
                    ["p2"; "p3"; "p1"] [1; 0] 200000))
            "ABCD" None [] [] 900000
          = snd (startGame (onPlayAgain Demo.bobOut "ABCD") "ABCD"
                   ["p2"; "p3"; "p1"] [1; 0] 200000).
Proof.
  split; [vm_compute; reflexivity|].
  assert (G : getRoom Demo.bobOut "ABCD" = Some (Demo.theRoom Demo.bobOut))
    by (vm_compute; reflexivity).
  assert (Pa : Room.paused (Demo.theRoom Demo.bobOut) = true)
    by (vm_compute; reflexivity).
  assert (K : JsMap.keys (Room.players (Demo.theRoom Demo.bobOut))
              = ["p1"; "p2"; "p3"]) by (vm_compute; reflexivity).
  assert (N : NoDup (JsMap.keys (Room.players (Demo.theRoom Demo.bobOut)))).
  { rewrite K. repeat constructor; simpl; intuition discriminate. }
  assert (P : Permutation ["p2"; "p3"; "p1"]
                (JsMap.keys (Room.players (Demo.theRoom Demo.bobOut)))).
  { rewrite K. apply Permutation_sym, (Permutation_cons_append ["p2"; "p3"] "p1"). }
  assert (S3 : 3 <= JsMap.size (Room.players (Demo.theRoom Demo.bobOut)))
    by (vm_compute; lia).
  destruct (paused_timer_survives_replay Demo.noSyntaxError Demo.bobOut "ABCD"
              _ ["p2"; "p3"; "p1"] [1; 0] 200000%Z G Pa N S3 P)
    as (room' & Gr & Gs & _ & Pa' & _ & T).
  exists room'. split; [exact Gr|]. split; [exact Gs|]. split; [exact Pa'|].
  apply T.
Defined.

(* ------------------------------------------------------------------ *)
(** ** Submissions *)

Lemma optStringEqb_refl a : optStringEqb a a = true.
Proof. destruct a; simpl; [apply String.eqb_refl | reflexivity]. Qed.

(** X29: what the bugger submits has no part in the outcome.  The
    [submitBug] handler writes nothing unless the caller is the bugger of
    the room; for the bugger it stores the text in [currentCode.buggedCode]
    and touches nothing else, and neither the answers of [validateFix] nor
    the winner and reason of the final verdict depend on it. *)
Theorem onSubmitBug_outcome :
  forall newFunction rooms roomCode playerId buggedCode room,
    getRoom rooms roomCode = Some room ->
    let rooms' := onSubmitBug rooms roomCode playerId buggedCode in
    (Room.bugger room <> Some playerId -> rooms' = rooms)
    /\ (forall other, other <> roomCode ->
                      getRoom rooms' other = getRoom rooms other)
    /\ exists room',
         getRoom rooms' roomCode = Some room'
         /\ Room.with_currentCode (Room.currentCode room) room' = room
         /\ (forall code,
               Room.bugger room = Some playerId ->
               Room.currentCode room = Some code ->
               Room.currentCode room'
               = Some (Code.with_buggedCode (Some buggedCode) code))
         /\ (forall who fixedCode,
               validateFix rooms' roomCode who fixedCode
               = validateFix rooms roomCode who fixedCode)
         /\ (forall finalCode,
               Room.winner (finalVerdict newFunction finalCode room')
               = Room.winner (finalVerdict newFunction finalCode room)
               /\ Room.winReason (finalVerdict newFunction finalCode room')
                  = Room.winReason (finalVerdict newFunction finalCode room)).
Proof.
  intros newFunction rooms roomCode playerId buggedCode room G rooms'.
  unfold onSubmitBug in rooms'. unfold getRoom in G.
  destruct (optStringEqb (Room.bugger room) (Some playerId)) eqn:B.
  - apply optStringEqb_Some in B.
    destruct (Room.currentCode room) as [code|] eqn:C.
    + assert (R : rooms'
                  = JsMap.set roomCode
                      (Room.with_currentCode
                         (Some (Code.with_buggedCode (Some buggedCode) code))
                         room) rooms).
      { unfold rooms', getRoom. rewrite G, B, optStringEqb_refl, C. reflexivity. }
      clearbody rooms'. subst rooms'.
      split; [intros NB; contradiction|]. split.
      { intros other NE. unfold getRoom.
        now apply JsMapFacts.get_set_other. }
      eexists. split; [apply JsMapFacts.get_set_same|].
      split; [rewrite <- C; now destruct room|].
      split; [intros code' _ [= <-]; reflexivity|].
      split.
      * intros who fixedCode. unfold validateFix.
        rewrite JsMapFacts.get_set_same, G.
        cbn [Room.buzzedPlayer Room.activeVote Room.currentCode
             Room.with_currentCode Code.correctCode Code.with_buggedCode].
        rewrite C. reflexivity.
      * intros finalCode. unfold finalVerdict.
        cbn [Room.currentCode Room.with_currentCode Room.with_gameState].
        rewrite C.
        destruct (truthy finalCode) as [fc|];
          [destruct (Check.codeHasErrors (checkFinalCode newFunction fc))
          |cbn [Check.codeHasErrors Check.init]];
          split; reflexivity.
    + assert (R : rooms' = rooms).
      { unfold rooms', getRoom. rewrite G, B, optStringEqb_refl, C. reflexivity. }
      clearbody rooms'. subst rooms'. split; [intros _; reflexivity|].
      split; [reflexivity|]. exists room. unfold getRoom. rewrite G.
      split; [reflexivity|]. split; [rewrite <- C; now destruct room|].
      split; [intros code _ E; discriminate E|].
      split; [reflexivity|]. intros; split; reflexivity.
  - assert (R : rooms' = rooms).
    { unfold rooms', getRoom. rewrite G, B. reflexivity. }
    clearbody rooms'. subst rooms'. split; [intros _; reflexivity|].
    split; [reflexivity|]. exists room. unfold getRoom. rewrite G.
    split; [reflexivity|]. split; [now destruct room|].
    split.
    { intros code Bg _. rewrite Bg, optStringEqb_refl in B. discriminate B. }
    split; [reflexivity|]. intros; split; reflexivity.
Qed.

Lemma onSubmitBug_outcome_witness :
  validateFix (onSubmitBug Demo.twoVotes "ABCD" "p1" "return 0;") "ABCD" "p2" ""
  = validateFix Demo.twoVotes "ABCD" "p2" "".
Proof.
  assert (G : getRoom Demo.twoVotes "ABCD" = Some (Demo.theRoom Demo.twoVotes))
    by (vm_compute; reflexivity).
  destruct (onSubmitBug_outcome Demo.noSyntaxError Demo.twoVotes "ABCD" "p1"
              "return 0;" _ G) as (_ & _ & room' & _ & _ & _ & V & _).
  apply V.
Defined.


